(** * COT Pulse backend: credential lifecycle and subscription reconciliation

    A shallow embedding of the request handlers of the COT Pulse API
    (routes/auth.js, routes/passwordReset.js, routes/stripe.js, the User
    model and db.js) together with the properties their specification
    states about them.

    Modelling conventions.
    - JavaScript strings are [string]s of ASCII code units; [toLowerCase]
      and [trim] are the ASCII fragments of the ECMAScript methods.
    - Instants ([Date.now()], ISO-8601 timestamps) are integers, the number
      of milliseconds since the epoch; comparing two [Date]s is comparing
      these integers.
    - A timestamp column gives back the instant that was written. That is
      exact for the embedded backend, whose columns hold the ISO text. On
      PostgreSQL the columns are TIMESTAMP without zone: the zone of the
      ISO text is dropped when it is stored, and the driver reads the value
      back in the zone of the process, so the instant read back is the one
      written only for a process that runs in UTC. The shift of another
      zone is not described here: on PostgreSQL, what is stated below about
      an instant read back is what a process in UTC does.
    - The relational store is a record of tables; a table is the list of its
      rows in storage order, so that "the first matching row" is meaningful.
    - What the program draws from outside (clock, random bytes, UUIDs) is an
      explicit argument of the handler that draws it; the cryptographic
      primitives and the process configuration are the fields of the class
      [Platform].
    - [console.log] lines are not modelled. *)

From Stdlib Require Import String Ascii List ZArith Bool Lia DecimalString.
Import ListNotations.

Set Warnings "-register-all".

Open Scope string_scope.
Open Scope Z_scope.

(* ================================================================== *)
(** ** JavaScript values and string methods *)
(* ================================================================== *)

Module Js.

(** The values that reach a bound SQL parameter or a JSON property read. *)
Inductive value :=
| VUndefined
| VNull
| VText (s : string).

(** [!v] is false exactly for the truthy values: a non-empty string. *)
Definition truthy (v : value) : bool :=
  match v with
  | VText s => negb (String.eqb s "")
  | _ => false
  end.

(** An optional property holding a string ([obj.metadata?.userId]). *)
Definition of_option (o : option string) : value :=
  match o with
  | Some s => VText s
  | None => VUndefined
  end.

(** What a [throw] carries: an [Error] object, whose [.message] is a string,
    or a bare string (sql.js reports a misuse of its binding API that way),
    whose [.message] is [undefined]. *)
Inductive thrown :=
| ErrorObject (message : string)
| ThrownString (s : string).

Definition message (e : thrown) : option string :=
  match e with
  | ErrorObject m => Some m
  | ThrownString _ => None
  end.

(** [`${err.message}`] *)
Definition message_text (e : thrown) : string :=
  match message e with
  | Some m => m
  | None => "undefined"
  end.

(** Completion of a call: a value, or an exception. A settled promise is the
    completion of the async body that produced it. *)
Inductive completion (A : Type) :=
| Normal (a : A)
| Abrupt (e : thrown).
Arguments Normal {A} a.
Arguments Abrupt {A} e.

Definition promise (A : Type) := completion A.

(** A promise is an object: always truthy, and it has no own property
    besides the methods of [Promise.prototype]; reading [.id] or any other
    data property of it yields [undefined]. *)
Definition promise_truthy {A} (p : promise A) : bool := true.
Definition promise_get {A} (p : promise A) (property : string) : value := VUndefined.

(** The one-character string holding a double quote. *)
Definition double_quote : string := String (ascii_of_nat 34) EmptyString.

(** *** String methods (ASCII) *)

Definition is_upper (c : ascii) : bool :=
  let n := nat_of_ascii c in (Nat.leb 65 n && Nat.leb n 90)%bool.

Definition lower_char (c : ascii) : ascii :=
  if is_upper c then ascii_of_nat (nat_of_ascii c + 32) else c.

Fixpoint toLowerCase (s : string) : string :=
  match s with
  | EmptyString => EmptyString
  | String c t => String (lower_char c) (toLowerCase t)
  end.

(** White space and line terminators, the class [\s] of regular expressions
    and the characters [trim] strips (TAB, LF, VT, FF, CR, SPACE). *)
Definition is_space (c : ascii) : bool :=
  let n := nat_of_ascii c in
  (Nat.eqb n 9 || Nat.eqb n 10 || Nat.eqb n 11 || Nat.eqb n 12 || Nat.eqb n 13
   || Nat.eqb n 32)%bool.

Fixpoint trimStart (s : string) : string :=
  match s with
  | EmptyString => EmptyString
  | String c t => if is_space c then trimStart t else s
  end.

(** [trimEnd s]: drop the trailing run of white space. *)
Fixpoint trimEnd (s : string) : string :=
  match s with
  | EmptyString => EmptyString
  | String c t =>
      match trimEnd t with
      | EmptyString => if is_space c then EmptyString else String c EmptyString
      | t' => String c t'
      end
  end.

Definition trim (s : string) : string := trimEnd (trimStart s).

(** [s.includes(sub)] *)
Fixpoint includes (s sub : string) : bool :=
  (prefix sub s ||
   match s with
   | EmptyString => false
   | String _ t => includes t sub
   end)%bool.

(** *** The signup e-mail pattern [/^[^\s@]+@[^\s@]+\.[^\s@]+$/] *)

(** [[^\s@]] *)
Definition plain (c : ascii) : bool :=
  (negb (is_space c) && negb (Ascii.eqb c "@"))%bool.

(** [[^\s@]*] over a whole string. *)
Fixpoint all_plain (s : string) : bool :=
  match s with
  | EmptyString => true
  | String c t => (plain c && all_plain t)%bool
  end.

(** Some ["."] of [s] is followed by at least one more character. *)
Fixpoint dot_then_more (s : string) : bool :=
  match s with
  | EmptyString => false
  | String c t =>
      ((Ascii.eqb c "." && negb (String.eqb t "")) || dot_then_more t)%bool
  end.

(** [[^\s@]+\.[^\s@]+] anchored at both ends: only plain characters, and a
    dot that is neither the first nor the last of them. *)
Definition domain_part (s : string) : bool :=
  match s with
  | EmptyString => false
  | String c t => (plain c && all_plain t && dot_then_more t)%bool
  end.

(** The part before the first ["@"] must be a non-empty run of plain
    characters (a plain character is never ["@"], so the ["@"] of the
    pattern is the first one of the input); [seen] records that one
    character of the local part has been read. *)
Fixpoint local_then_domain (seen : bool) (s : string) : bool :=
  match s with
  | EmptyString => false
  | String c t =>
      if Ascii.eqb c "@" then (seen && domain_part t)%bool
      else if is_space c then false
      else local_then_domain true t
  end.

Definition emailRegex_test (s : string) : bool := local_then_domain false s.

(** *** JSON bodies *)

Inductive json :=
| JNull
| JBool (b : bool)
| JNumber (n : Z)
| JString (s : string)
| JObject (fields : list (string * json)).

End Js.

(* ================================================================== *)
(** ** The platform: configuration and primitives fixed at start-up *)
(* ================================================================== *)

(** The claims of a session credential, [{userId, email, iat, exp}];
    [iat] and [exp] are in seconds. *)
Record jwt_claims := mkClaims {
  userId : string;
  email : string;
  iat : Z;
  exp : Z
}.

(** The [Stripe-Signature] header, given by its parse: the timestamp [t=]
    and the [v1=] signatures. *)
Record stripe_signature := mkSignature {
  sig_t : Z;
  sig_v1 : list string
}.

(** [metadata] of a checkout session or subscription. *)
Record stripe_metadata := mkMetadata {
  md_userId : option string;
  md_userEmail : option string
}.

(** [event.data.object], with the properties the handlers read:
    [metadata], [customer], [status] and [customer_details.email]. *)
Record stripe_object := mkObject {
  metadata : option stripe_metadata;
  customer : Js.value;
  status : Js.value;
  customer_details_email : option string
}.

Record stripe_event := mkEvent {
  type : string;
  data_object : stripe_object
}.

Class Platform := {
  (** [!!process.env.DATABASE_URL] *)
  USE_POSTGRES : bool;
  (** [process.env.JWT_SECRET]; the empty string when unset *)
  JWT_SECRET : string;
  (** [process.env.STRIPE_WEBHOOK_SECRET] *)
  STRIPE_WEBHOOK_SECRET : string;
  (** [crypto.createHash('sha256').update(s).digest('hex')] *)
  sha256_hex : string -> string;
  (** [bcrypt.hash(password, SALT_ROUNDS)] for the salt drawn by bcrypt *)
  bcrypt_hash : string -> string -> string;
  (** the JWS signature of header and claims under an algorithm and a key *)
  jws_sign : string -> string -> jwt_claims -> string;
  (** Stripe's HMAC-SHA256 of [`${t}.${payload}`] under the endpoint secret *)
  stripe_hmac : string -> Z -> string -> string;
  (** [JSON.parse] of a webhook body *)
  JSON_parse : string -> option stripe_event;
  (** the outbound mail capability: recipient, secret, name to success flag *)
  sendPasswordResetEmail : string -> string -> option string -> bool;
  (** a JWS signature is the base64url text of a MAC, never the empty string *)
  jws_sign_nonempty : forall alg key claims, jws_sign alg key claims <> ""
}.

(* ================================================================== *)
(** ** db.js: the persistence abstraction *)
(* ================================================================== *)

Module Db.
Import Js.

(** A row of [users], column by column ([NULL] is [None]). *)
Record user_row := mkUser {
  u_id : string;
  u_email : string;
  u_password_hash : string;
  u_name : option string;
  u_phone : option string;
  u_phone_verified : Z;
  u_email_verified : Z;
  u_subscription_tier : option string;
  u_subscription_status : option string;
  u_stripe_customer_id : option string;
  u_created_at : Z;
  u_updated_at : Z;
  u_last_login : option Z
}.

(** A row of [password_reset_tokens]; its [created_at] column, which no
    statement of the program reads or writes, is left out. *)
Record token_row := mkToken {
  t_user_id : string;
  t_token_hash : string;
  t_expires_at : Z
}.

(** Rows of the feature tables the handlers below never name. *)
Definition feature_row := list (string * option string).

Record store := mkStore {
  users : list user_row;
  password_reset_tokens : list token_row;
  phone_verification_attempts : list feature_row;
  user_watchlist : list feature_row;
  user_alerts : list feature_row;
  sessions : list feature_row
}.

(** The tables right after [setupTables]. *)
Definition empty_store : store := mkStore [] [] [] [] [] [].

Definition with_users (us : list user_row) (s : store) : store :=
  mkStore us (password_reset_tokens s) (phone_verification_attempts s)
          (user_watchlist s) (user_alerts s) (sessions s).

Definition with_tokens (ts : list token_row) (s : store) : store :=
  mkStore (users s) ts (phone_verification_attempts s)
          (user_watchlist s) (user_alerts s) (sessions s).

(** *** Computations over the store *)

Definition M (A : Type) := store -> completion A * store.

Definition ret {A} (a : A) : M A := fun s => (Normal a, s).

Definition throw {A} (e : thrown) : M A := fun s => (Abrupt e, s).

Definition bind {A B} (c : M A) (k : A -> M B) : M B :=
  fun s =>
    match c s with
    | (Normal a, s') => k a s'
    | (Abrupt e, s') => (Abrupt e, s')
    end.

(** [try { c } catch (error) { h error }] *)
Definition try_catch {A} (c : M A) (h : thrown -> M A) : M A :=
  fun s =>
    match c s with
    | (Normal a, s') => (Normal a, s')
    | (Abrupt e, s') => h e s'
    end.

(** Calling an async function without [await]: its effects on the store
    take place, and the caller holds the promise, whatever its fate. *)
Definition no_await {A} (c : M A) : M (promise A) :=
  fun s => let (r, s') := c s in (Normal r, s').

(** [await p] *)
Definition await {A} (p : promise A) : M A := fun s => (p, s).

Declare Scope db_scope.
Delimit Scope db_scope with db.
Notation "x <- c ;; k" := (bind c (fun x => k))
  (at level 100, c at next level, right associativity) : db_scope.
Notation "c ;;; k" := (bind c (fun _ => k))
  (at level 100, right associativity) : db_scope.

(** *** Statements *)

(** How the parameters of a statement are written: [?] as in the sources,
    or [$1, $2, ...] as PostgreSQL requires. *)
Inductive placeholders := QuestionMarks | Numbered.

(** The data-modifying statements of the program, each with the parameter
    array it is run with. *)
Inductive mutation :=
(** [UPDATE users SET subscription_tier = 'pro', subscription_status =
    'active', stripe_customer_id = ?, updated_at = ? WHERE id = ?] *)
| UPDATE_users_checkout (customer : value) (now : Z) (id : value)
(** [UPDATE users SET subscription_tier = ?, subscription_status = ?,
    updated_at = ? WHERE id = ?] *)
| UPDATE_users_subscription (tier : value) (status : value) (now : Z) (id : value)
(** [UPDATE users SET subscription_tier = 'free', subscription_status =
    'canceled', updated_at = ? WHERE id = ?] *)
| UPDATE_users_canceled (now : Z) (id : value)
(** [INSERT INTO users (id, email, password_hash, name, created_at,
    updated_at) VALUES (?, ?, ?, ?, ?, ?)] *)
| INSERT_users (id email password_hash : string) (name : value) (created_at updated_at : Z)
(** [INSERT INTO password_reset_tokens (user_id, token_hash, expires_at)
    VALUES (?, ?, ?) ON CONFLICT (user_id) DO UPDATE SET token_hash = ?,
    expires_at = ?] *)
| UPSERT_password_reset_tokens (user_id token_hash : string) (expires_at : Z)
                               (token_hash' : string) (expires_at' : Z)
(** [DELETE FROM password_reset_tokens WHERE token_hash = ?] *)
| DELETE_tokens_by_hash (token_hash : string)
(** [DELETE FROM password_reset_tokens WHERE user_id = ?] *)
| DELETE_tokens_by_user (user_id : string).

(** The single-row queries of the program; the index is the row type. A
    query that selects some columns returns the row, of which its caller
    reads those columns only. *)
Inductive selection : Type -> Type :=
(** [SELECT * FROM users WHERE email = ?] *)
| SELECT_users_by_email (email : string) : selection user_row
(** [SELECT id FROM users WHERE stripe_customer_id = ?] and
    [SELECT id, email FROM users WHERE stripe_customer_id = ?] *)
| SELECT_users_by_stripe_customer_id (customer : value) : selection user_row
(** [SELECT user_id, expires_at FROM password_reset_tokens WHERE
    token_hash = ?] and [SELECT expires_at FROM ... WHERE token_hash = ?] *)
| SELECT_tokens_by_hash (token_hash : string) : selection token_row.

(** A statement as handed to the driver. *)
Record sql (A : Type) := mkSql {
  statement : A;
  style : placeholders
}.
Arguments mkSql {A} statement style.
Arguments statement {A} s.
Arguments style {A} s.

(** The program text writes every statement with [?]. *)
Definition written {A} (a : A) : sql A := mkSql a QuestionMarks.

(** *** Relational semantics of the statements *)

(** A bound parameter as SQL text; the PostgreSQL driver sends [undefined]
    as [NULL]. *)
Definition sql_text (v : value) : option string :=
  match v with
  | VText s => Some s
  | _ => None
  end.

(** [column = ?] on a [NOT NULL] column: never true of a [NULL] parameter. *)
Definition eq_param (column : string) (v : value) : bool :=
  match v with
  | VText s => String.eqb column s
  | _ => false
  end.

(** [column = ?] on a nullable column. *)
Definition eq_nullable (column : option string) (v : value) : bool :=
  match column with
  | Some c => eq_param c v
  | None => false
  end.

Definition update_where {A} (p : A -> bool) (f : A -> A) (rows : list A) : list A :=
  map (fun r => if p r then f r else r) rows.

Definition delete_where {A} (p : A -> bool) (rows : list A) : list A :=
  filter (fun r => negb (p r)) rows.

Definition set_subscription (tier status : option string) (now : Z) (u : user_row) : user_row :=
  mkUser (u_id u) (u_email u) (u_password_hash u) (u_name u) (u_phone u)
         (u_phone_verified u) (u_email_verified u) tier status
         (u_stripe_customer_id u) (u_created_at u) now (u_last_login u).

Definition set_checkout (customer : option string) (now : Z) (u : user_row) : user_row :=
  mkUser (u_id u) (u_email u) (u_password_hash u) (u_name u) (u_phone u)
         (u_phone_verified u) (u_email_verified u) (Some "pro") (Some "active")
         customer (u_created_at u) now (u_last_login u).

(** The row an [INSERT INTO users] creates: the columns it does not list
    take the defaults of the schema. *)
Definition new_user (id email password_hash : string) (name : option string)
           (created_at updated_at : Z) : user_row :=
  mkUser id email password_hash name None 0 0 (Some "free") (Some "active")
         None created_at updated_at None.

Definition set_token (token_hash : string) (expires_at : Z) (r : token_row) : token_row :=
  mkToken (t_user_id r) token_hash expires_at.

(** The parameters of a statement that the program may hand over as
    [undefined]; the others are strings by construction. *)
Definition parameters (m : mutation) : list value :=
  match m with
  | UPDATE_users_checkout customer _ id => [customer; id]
  | UPDATE_users_subscription tier status _ id => [tier; status; id]
  | UPDATE_users_canceled _ id => [id]
  | INSERT_users _ _ _ name _ _ => [name]
  | _ => []
  end.

Definition selection_parameters {A} (q : selection A) : list value :=
  match q with
  | SELECT_users_by_stripe_customer_id customer => [customer]
  | _ => []
  end.

Definition is_undefined (v : value) : bool :=
  match v with
  | VUndefined => true
  | _ => false
  end.

Section Engine.
Context {P : Platform}.

(** The message of a uniqueness violation, as each backend words it. *)
Definition unique_violation (sqlite_column pg_constraint : string) : thrown :=
  if USE_POSTGRES
  then ErrorObject ("duplicate key value violates unique constraint "
                    ++ double_quote ++ pg_constraint ++ double_quote)
  else ErrorObject ("UNIQUE constraint failed: " ++ sqlite_column).

(** What a statement does to the tables once the backend has accepted it.
    [users.id] is the primary key, [users.email] is [UNIQUE], and
    [password_reset_tokens.user_id] is the primary key that the upsert
    names in [ON CONFLICT]. The reference from [password_reset_tokens] to
    [users] is not checked here: the one insert into that table is for a
    user row read just before. *)
Definition execute (m : mutation) : M unit :=
  fun s =>
    match m with
    | UPDATE_users_checkout customer now id =>
        (Normal tt,
         with_users (update_where (fun u => eq_param (u_id u) id)
                                  (set_checkout (sql_text customer) now)
                                  (users s)) s)
    | UPDATE_users_subscription tier status now id =>
        (Normal tt,
         with_users (update_where (fun u => eq_param (u_id u) id)
                                  (set_subscription (sql_text tier) (sql_text status) now)
                                  (users s)) s)
    | UPDATE_users_canceled now id =>
        (Normal tt,
         with_users (update_where (fun u => eq_param (u_id u) id)
                                  (set_subscription (Some "free") (Some "canceled") now)
                                  (users s)) s)
    | INSERT_users id email password_hash name created_at updated_at =>
        if existsb (fun u => String.eqb (u_id u) id) (users s)
        then (Abrupt (unique_violation "users.id" "users_pkey"), s)
        else if existsb (fun u => String.eqb (u_email u) email) (users s)
        then (Abrupt (unique_violation "users.email" "users_email_key"), s)
        else (Normal tt,
              with_users (users s ++ [new_user id email password_hash (sql_text name)
                                               created_at updated_at]) s)
    | UPSERT_password_reset_tokens user_id token_hash expires_at token_hash' expires_at' =>
        if existsb (fun r => String.eqb (t_user_id r) user_id) (password_reset_tokens s)
        then (Normal tt,
              with_tokens (update_where (fun r => String.eqb (t_user_id r) user_id)
                                        (set_token token_hash' expires_at')
                                        (password_reset_tokens s)) s)
        else (Normal tt,
              with_tokens (password_reset_tokens s
                           ++ [mkToken user_id token_hash expires_at]) s)
    | DELETE_tokens_by_hash token_hash =>
        (Normal tt,
         with_tokens (delete_where (fun r => String.eqb (t_token_hash r) token_hash)
                                   (password_reset_tokens s)) s)
    | DELETE_tokens_by_user user_id =>
        (Normal tt,
         with_tokens (delete_where (fun r => String.eqb (t_user_id r) user_id)
                                   (password_reset_tokens s)) s)
    end.

(** The first row a query matches, if any. *)
Definition fetch {A} (q : selection A) (s : store) : option A :=
  match q in selection T return option T with
  | SELECT_users_by_email email =>
      find (fun u => String.eqb (u_email u) email) (users s)
  | SELECT_users_by_stripe_customer_id customer =>
      find (fun u => eq_nullable (u_stripe_customer_id u) customer) (users s)
  | SELECT_tokens_by_hash token_hash =>
      find (fun r => String.eqb (t_token_hash r) token_hash) (password_reset_tokens s)
  end.

(** *** The two drivers *)

(** PostgreSQL knows the parameters [$1, $2, ...] only: a statement that
    still carries [?] is rejected when parsed, before it touches a row (the
    message goes on to quote the offending token). *)
Definition pg_syntax_error : thrown := ErrorObject "syntax error at or near".

Definition pgPool_query_run (q : sql mutation) : M unit :=
  match style q with
  | QuestionMarks => throw pg_syntax_error
  | Numbered => execute (statement q)
  end.

(** A row is handed over as [fetch] finds it. For the timestamp columns
    this is the driver's answer of a process in UTC: node-postgres parses a
    TIMESTAMP without zone in the zone of the process, a shift that is left
    out here. *)
Definition pgPool_query_get {A} (q : sql (selection A)) : M (option A) :=
  match style q with
  | QuestionMarks => throw pg_syntax_error
  | Numbered => fun s => (Normal (fetch (statement q) s), s)
  end.

(** sql.js binds strings, numbers and [null]; for [undefined] its binding
    routine throws a string before the statement is stepped. *)
Definition wrong_api_use : thrown :=
  ThrownString "Wrong API use : tried to bind a value of an unknown type (undefined).".

Definition sqliteDb_run (q : sql mutation) : M unit :=
  if existsb is_undefined (parameters (statement q))
  then throw wrong_api_use
  else execute (statement q).

Definition sqliteDb_get {A} (q : sql (selection A)) : M (option A) :=
  if existsb is_undefined (selection_parameters (statement q))
  then throw wrong_api_use
  else fun s => (Normal (fetch (statement q) s), s).

(** *** The exported functions of db.js *)

(** [async function run(sql, params)]; [saveSqlite] rewrites the database
    file and leaves the tables as they are. *)
Definition run (q : sql mutation) : M unit :=
  if USE_POSTGRES then pgPool_query_run q else sqliteDb_run q.

(** [async function get(sql, params)] *)
Definition get {A} (q : sql (selection A)) : M (option A) :=
  if USE_POSTGRES then pgPool_query_get q else sqliteDb_get q.

(** [function convertPlaceholders(sql)] *)
Definition convertPlaceholders {A} (q : sql A) : sql A :=
  if USE_POSTGRES then mkSql (statement q) Numbered else q.

(** [async function query(sql, params)] *)
Definition query (q : sql mutation) : M unit := run (convertPlaceholders q).

(** [async function getOne(sql, params)] *)
Definition getOne {A} (q : sql (selection A)) : M (option A) :=
  get (convertPlaceholders q).

End Engine.

End Db.

(* ================================================================== *)
(** ** HTTP responses *)
(* ================================================================== *)

Module Http.
Import Js.

Inductive body :=
| Json (j : json)
| Text (s : string).

(** A response is its status line and its body; the headers Express adds
    are functions of the two. *)
Record response := mkResponse {
  status_code : Z;
  payload : body
}.

(** [res.json(j)] *)
Definition json_ok (j : json) : response := mkResponse 200 (Json j).

(** [res.status(code).json(j)] *)
Definition json_status (code : Z) (j : json) : response := mkResponse code (Json j).

(** [res.status(code).send(text)] *)
Definition send_status (code : Z) (text : string) : response := mkResponse code (Text text).

(** The body [{ success: false, error }]. *)
Definition failure (error : string) : json :=
  JObject [("success", JBool false); ("error", JString error)].

(** The body [{ success: true, message }]. *)
Definition success (message : string) : json :=
  JObject [("success", JBool true); ("message", JString message)].

End Http.

(* ================================================================== *)
(** ** models/User.js *)
(* ================================================================== *)

Module User.
Import Js Db.
Local Open Scope db_scope.

(** The object [User.create] returns. *)
Record created := mkCreated {
  id : string;
  c_email : string;
  c_name : value;
  c_phone_verified : Z;
  c_created_at : Z
}.

Section Model.
Context {P : Platform}.

(** [static async create({ email, password, name })]; [salt] is the salt
    bcrypt draws and [uuid] the result of [crypto.randomUUID()]. *)
Definition create (email password : string) (name : value)
           (salt uuid : string) (now : Z) : M created :=
  try_catch
    (let passwordHash := bcrypt_hash salt password in
     let id := uuid in
     query (written (INSERT_users id (trim (toLowerCase email)) passwordHash name now now)) ;;;
     ret (mkCreated id (trim (toLowerCase email)) name 0 now))
    (fun error =>
       match message error with
       | Some m =>
           if (negb (String.eqb m "")
               && (includes m "UNIQUE constraint failed" || includes m "duplicate key"))%bool
           then throw (ErrorObject "Email already exists")
           else throw error
       | None => throw error
       end).

(** [static async findByEmail(email)] *)
Definition findByEmail (email : string) : M (option user_row) :=
  getOne (written (SELECT_users_by_email (trim (toLowerCase email)))).

(** The class defines [create], [findByEmail], [findById], [verifyPassword],
    [updatePhone], [markPhoneVerified], [updateLastLogin],
    [updateSubscription], [updateStripeCustomerId],
    [findByStripeCustomerId], [updateProfile] and [delete], and nothing
    named [updatePassword]: the expression [User.updatePassword] is
    [undefined], and calling it throws a [TypeError] without running any
    statement. *)
Definition updatePassword (userId password : string) : M unit :=
  throw (ErrorObject "User.updatePassword is not a function").

End Model.
End User.

(* ================================================================== *)
(** ** The jsonwebtoken library, as the routes use it *)
(* ================================================================== *)

Module Jwt.
Import Js.

(** A JavaScript string as the token decoder sees it: the compact
    serialization [header.payload.signature] of a header naming [alg], of
    claims and of a signature, or any other text (which includes the empty
    string and every string that does not split and decode that way). *)
Inductive jwt_string :=
| Compact (alg : string) (claims : jwt_claims) (signature : string)
| Other (text : string).

(** [!token] for a string. *)
Definition is_empty (t : jwt_string) : bool :=
  match t with
  | Other text => String.eqb text ""
  | Compact _ _ _ => false
  end.

(** ['7d'] in seconds. *)
Definition seven_days : Z := 7 * 24 * 60 * 60.

(** The algorithms [verify] accepts for a shared secret. *)
Definition hmac_algorithms : list string := ["HS256"; "HS384"; "HS512"].

Section Library.
Context {P : Platform}.

(** [jwt.sign({ userId, email }, secret, { expiresIn: '7d' })] at the
    instant [now]: [iat] is the current second, [exp] seven days later. *)
Definition sign (userId email : string) (secret : string) (now : Z)
  : completion jwt_string :=
  if String.eqb secret ""
  then Abrupt (ErrorObject "secretOrPrivateKey must have a value")
  else
    let claims := mkClaims userId email (now / 1000) (now / 1000 + seven_days) in
    Normal (Compact "HS256" claims (jws_sign "HS256" secret claims)).

(** [jwt.verify(token, secret, callback)] at the instant [now]: the
    completion handed to the callback as [(err, decoded)]. The checks run
    in the order of the library: presence, shape, signature and key
    presence, algorithm, signature, expiry ([exp] not after the current
    second). *)
Definition verify (token : jwt_string) (secret : string) (now : Z)
  : completion jwt_claims :=
  match token with
  | Other text =>
      if String.eqb text ""
      then Abrupt (ErrorObject "jwt must be provided")
      else Abrupt (ErrorObject "jwt malformed")
  | Compact alg claims signature =>
      let hasSignature := negb (String.eqb signature "") in
      let hasSecret := negb (String.eqb secret "") in
      if (negb hasSignature && hasSecret)%bool
      then Abrupt (ErrorObject "jwt signature is required")
      else if (hasSignature && negb hasSecret)%bool
      then Abrupt (ErrorObject "secret or public key must be provided")
      else if negb hasSignature
      then Abrupt (ErrorObject ("please specify " ++ double_quote ++ "none" ++ double_quote
                                ++ " in " ++ double_quote ++ "algorithms" ++ double_quote
                                ++ " to verify unsigned tokens"))
      else if negb (existsb (String.eqb alg) hmac_algorithms)
      then Abrupt (ErrorObject "invalid algorithm")
      else if negb (String.eqb signature (jws_sign alg secret claims))
      then Abrupt (ErrorObject "invalid signature")
      else if exp claims <=? now / 1000
      then Abrupt (ErrorObject "jwt expired")
      else Normal claims
  end.

(** Why a presented token is not a live credential of this server. *)
Inductive invalid_cause := Tampered | Malformed | Expired.

Definition has_cause (cause : invalid_cause) (token : jwt_string) (secret : string) (now : Z)
  : Prop :=
  match cause, token with
  | Tampered, Compact alg claims signature => signature <> jws_sign alg secret claims
  | Malformed, Other text => True
  | Expired, Compact alg claims signature => exp claims <= now / 1000
  | _, _ => False
  end.

End Library.
End Jwt.

(* ================================================================== *)
(** ** routes/auth.js *)
(* ================================================================== *)

Module Auth.
Import Js Db Http Jwt.
Local Open Scope db_scope.

(** What the middleware leaves behind: a response of its own, or the
    request fields [req.userId] and [req.userEmail] it set before [next()]. *)
Inductive gate :=
| Rejected (r : response)
| Next (req_userId req_userEmail : string).

Section Routes.
Context {P : Platform}.

(** [function authenticateToken(req, res, next)]. The [authorization]
    header is given by its fields, the result of [authHeader.split(' ')];
    [None] is an absent header. *)
Definition authenticateToken (authHeader : option (list jwt_string)) (now : Z) : gate :=
  let token :=
    match authHeader with
    | Some fields => nth_error fields 1
    | None => None
    end in
  match token with
  | None =>
      Rejected (json_status 401 (failure "Access token required"))
  | Some token =>
      if is_empty token
      then Rejected (json_status 401 (failure "Access token required"))
      else
        match verify token JWT_SECRET now with
        | Abrupt err =>
            Rejected (json_status 403 (failure "Invalid or expired token"))
        | Normal decoded =>
            Next (userId decoded) (email decoded)
        end
  end.

(** A token inside a JSON body: the string it is, shown by its decoding. *)
Definition token_json (token : jwt_string) : json :=
  match token with
  | Compact alg claims signature =>
      JObject [("alg", JString alg);
               ("userId", JString (userId claims));
               ("email", JString (email claims));
               ("iat", JNumber (iat claims));
               ("exp", JNumber (exp claims));
               ("signature", JString signature)]
  | Other text => JString text
  end.

(** [{ id: user.id, email: user.email, name: user.name }]; a property whose
    value is [undefined] is left out by [JSON.stringify]. *)
Definition user_json (user : User.created) : json :=
  JObject ([("id", JString (User.id user));
            ("email", JString (User.c_email user))]
           ++ match User.c_name user with
              | VText n => [("name", JString n)]
              | VNull => [("name", JNull)]
              | VUndefined => []
              end).

(** The body of a successful signup. *)
Definition signup_created (token : jwt_string) (user : User.created) : json :=
  JObject [("success", JBool true);
           ("message", JString "Account created successfully!");
           ("token", token_json token);
           ("user", user_json user)].

(** [router.post('/signup', ...)]; [email] and [password] are the body
    fields, [None] when absent. *)
Definition signup (email password : option string) (name : value)
           (salt uuid : string) (now : Z) : M response :=
  try_catch
    (match email, password with
     | Some email, Some password =>
         if (String.eqb email "" || String.eqb password "")%bool
         then ret (json_status 400 (failure "Email and password are required"))
         else if negb (emailRegex_test email)
         then ret (json_status 400 (failure "Please enter a valid email address"))
         else if (String.length password <? 8)%nat
         then ret (json_status 400 (failure "Password must be at least 8 characters"))
         else
           user <- User.create email password name salt uuid now ;;
           token <- await (sign (User.id user) (User.c_email user) JWT_SECRET now) ;;
           ret (json_status 201 (signup_created token user))
     | _, _ =>
         ret (json_status 400 (failure "Email and password are required"))
     end)
    (fun error =>
       match message error with
       | Some "Email already exists" =>
           ret (json_status 409 (failure "An account with this email already exists"))
       | Some "" | None =>
           ret (json_status 500 (failure "Failed to create account"))
       | Some m =>
           ret (json_status 500 (failure m))
       end).

End Routes.
End Auth.

(* ================================================================== *)
(** ** routes/passwordReset.js *)
(* ================================================================== *)

Module PasswordReset.
Import Js Db Http.
Local Open Scope db_scope.

(** [const TOKEN_EXPIRATION_MS = 60 * 60 * 1000] *)
Definition TOKEN_EXPIRATION_MS : Z := 60 * 60 * 1000.

Definition reset_link_sent : json :=
  success "If an account exists with this email, you will receive a password reset link.".

Definition probe (valid : bool) : json :=
  JObject [("success", JBool true); ("valid", JBool valid)].

Section Routes.
Context {P : Platform}.

(** [router.post('/forgot-password', ...)]; [resetToken] is the text of
    [crypto.randomBytes(32).toString('hex')] drawn by this request. *)
Definition forgot_password (email : option string) (resetToken : string) (now : Z)
  : M response :=
  try_catch
    (match email with
     | None => ret (json_status 400 (failure "Email is required"))
     | Some email =>
         if String.eqb email ""
         then ret (json_status 400 (failure "Email is required"))
         else
           user <- User.findByEmail email ;;
           match user with
           | None => ret (json_ok reset_link_sent)
           | Some user =>
               let tokenHash := sha256_hex resetToken in
               let expiresAt := now + TOKEN_EXPIRATION_MS in
               query (written (UPSERT_password_reset_tokens
                                 (u_id user) tokenHash expiresAt tokenHash expiresAt)) ;;;
               let emailResult := sendPasswordResetEmail email resetToken (u_name user) in
               ret (json_ok reset_link_sent)
           end
     end)
    (fun error =>
       ret (json_status 500 (failure "Failed to process password reset request"))).

(** [router.post('/reset-password', ...)] *)
Definition reset_password (token password : option string) (now : Z) : M response :=
  try_catch
    (match token, password with
     | Some token, Some password =>
         if (String.eqb token "" || String.eqb password "")%bool
         then ret (json_status 400 (failure "Token and new password are required"))
         else if (String.length password <? 8)%nat
         then ret (json_status 400 (failure "Password must be at least 8 characters"))
         else
           let tokenHash := sha256_hex token in
           resetRecord <- getOne (written (SELECT_tokens_by_hash tokenHash)) ;;
           match resetRecord with
           | None =>
               ret (json_status 400 (failure "Invalid or expired reset token"))
           | Some resetRecord =>
               if t_expires_at resetRecord <? now
               then
                 query (written (DELETE_tokens_by_hash tokenHash)) ;;;
                 ret (json_status 400
                        (failure "Reset token has expired. Please request a new one."))
               else
                 User.updatePassword (t_user_id resetRecord) password ;;;
                 query (written (DELETE_tokens_by_user (t_user_id resetRecord))) ;;;
                 ret (json_ok
                        (success "Password has been reset successfully. You can now log in with your new password."))
           end
     | _, _ =>
         ret (json_status 400 (failure "Token and new password are required"))
     end)
    (fun error => ret (json_status 500 (failure "Failed to reset password"))).

(** [router.get('/verify-reset-token', ...)] *)
Definition verify_reset_token (token : option string) (now : Z) : M response :=
  try_catch
    (match token with
     | None =>
         ret (json_status 400
                (JObject [("success", JBool false); ("valid", JBool false);
                          ("error", JString "Token is required")]))
     | Some token =>
         if String.eqb token ""
         then ret (json_status 400
                     (JObject [("success", JBool false); ("valid", JBool false);
                               ("error", JString "Token is required")]))
         else
           let tokenHash := sha256_hex token in
           resetRecord <- getOne (written (SELECT_tokens_by_hash tokenHash)) ;;
           match resetRecord with
           | None => ret (json_ok (probe false))
           | Some resetRecord =>
               if t_expires_at resetRecord <? now
               then ret (json_ok (probe false))
               else ret (json_ok (probe true))
           end
     end)
    (fun error =>
       ret (json_status 500
              (JObject [("success", JBool false); ("valid", JBool false);
                        ("error", JString "Failed to verify token")]))).

End Routes.
End PasswordReset.

(* ================================================================== *)
(** ** routes/stripe.js: the webhook handler *)
(* ================================================================== *)

Module Stripe.
Import Js Db Http.
Local Open Scope db_scope.

(** The default tolerance of [constructEvent], in seconds. *)
Definition DEFAULT_TOLERANCE : Z := 300.

(** [value === text] *)
Definition is_text (v : value) (text : string) : bool :=
  match v with
  | VText s => String.eqb s text
  | _ => false
  end.

(** [object.metadata?.userId] *)
Definition metadata_userId (object : stripe_object) : value :=
  match metadata object with
  | Some m => of_option (md_userId m)
  | None => VUndefined
  end.

Definition received : json := JObject [("received", JBool true)].

Section Webhook.
Context {P : Platform}.

(** The signature check of [stripe.webhooks.constructEvent]: one of the
    [v1] signatures of the header must be the HMAC of the timestamp and the
    raw body under the secret, and the timestamp must be recent. Of the
    message for a signature that does not match, only the first sentence
    is kept: the library goes on with a hint about the raw request body
    and a link, whose wording depends on its version. *)
Definition verifyHeader (payload : string) (header : option stripe_signature)
           (secret : string) (now : Z) : completion unit :=
  match header with
  | None => Abrupt (ErrorObject "No stripe-signature header value was provided.")
  | Some h =>
      if negb (existsb (String.eqb (stripe_hmac secret (sig_t h) payload)) (sig_v1 h))
      then Abrupt (ErrorObject "No signatures found matching the expected signature for payload.")
      else if DEFAULT_TOLERANCE <? now / 1000 - sig_t h
      then Abrupt (ErrorObject "Timestamp outside the tolerance zone")
      else Normal tt
  end.

(** [stripe.webhooks.constructEvent(req.body, sig, webhookSecret)] *)
Definition constructEvent (payload : string) (header : option stripe_signature)
           (secret : string) (now : Z) : completion stripe_event :=
  match verifyHeader payload header secret now with
  | Abrupt e => Abrupt e
  | Normal _ =>
      match JSON_parse payload with
      | Some event => Normal event
      | None => Abrupt (ErrorObject "Unexpected token in JSON")
      end
  end.

(** [async function handleCheckoutComplete(session)] *)
Definition handleCheckoutComplete (session : stripe_object) (now : Z) : M unit :=
  let userId := metadata_userId session in
  if truthy userId
  then
    no_await (run (written (UPDATE_users_checkout (customer session) now userId))) ;;;
    ret tt
  else ret tt.

(** [async function handleSubscriptionUpdate(subscription)] *)
Definition handleSubscriptionUpdate (subscription : stripe_object) (now : Z) : M unit :=
  let userId := metadata_userId subscription in
  let status := status subscription in
  if negb (truthy userId)
  then ret tt
  else
    let tier := if (is_text status "active" || is_text status "trialing")%bool
                then VText "pro" else VText "free" in
    let subStatus := if is_text status "active" then VText "active" else status in
    no_await (run (written (UPDATE_users_subscription tier subStatus now userId))) ;;;
    ret tt.

(** [async function handleSubscriptionCanceled(subscription)]. Neither
    [db.get] nor [db.run] is awaited: [user] is the promise [db.get]
    returned, and [user.id] a property read on that promise. *)
Definition handleSubscriptionCanceled (subscription : stripe_object) (now : Z) : M unit :=
  let userId := metadata_userId subscription in
  if negb (truthy userId)
  then
    let customerId := customer subscription in
    user <- no_await (get (written (SELECT_users_by_stripe_customer_id customerId))) ;;
    (if promise_truthy user
     then
       no_await (run (written (UPDATE_users_canceled now (promise_get user "id")))) ;;;
       ret tt
     else ret tt)
  else
    no_await (run (written (UPDATE_users_canceled now userId))) ;;;
    ret tt.

(** [async function handlePaymentFailed(invoice)] *)
Definition handlePaymentFailed (invoice : stripe_object) : M unit :=
  let customerId := customer invoice in
  user <- no_await (get (written (SELECT_users_by_stripe_customer_id customerId))) ;;
  (if promise_truthy user then ret tt else ret tt).

(** The [switch (event.type)] of [handleWebhook]. *)
Definition dispatch (now : Z) (event : stripe_event) : M unit :=
  let object := data_object event in
  if String.eqb (type event) "checkout.session.completed"
  then handleCheckoutComplete object now
  else if (String.eqb (type event) "customer.subscription.created"
           || String.eqb (type event) "customer.subscription.updated")%bool
  then handleSubscriptionUpdate object now
  else if String.eqb (type event) "customer.subscription.deleted"
  then handleSubscriptionCanceled object now
  else if String.eqb (type event) "invoice.payment_failed"
  then handlePaymentFailed object
  else ret tt.

(** [async function handleWebhook(req, res)] around a given [switch]:
    [body] is the raw request body, [header] the [stripe-signature]
    header. *)
Definition handleWebhook_around (switch : stripe_event -> M unit)
           (body : string) (header : option stripe_signature) (now : Z) : M response :=
  match constructEvent body header STRIPE_WEBHOOK_SECRET now with
  | Abrupt err =>
      ret (send_status 400 ("Webhook Error: " ++ message_text err))
  | Normal event =>
      try_catch
        (switch event ;;; ret (json_ok received))
        (fun error =>
           ret (json_status 500 (JObject [("error", JString "Webhook handler failed")])))
  end.

Definition handleWebhook (body : string) (header : option stripe_signature) (now : Z)
  : M response :=
  handleWebhook_around (dispatch now) body header now.

End Webhook.
End Stripe.

(* ================================================================== *)
(** ** server.js: the endpoints and the states the server goes through *)
(* ================================================================== *)

Module Server.
Import Js Db Http.

Inductive request :=
| POST_signup (email password : option string) (name : value) (salt uuid : string)
| POST_forgot_password (email : option string) (resetToken : string)
| POST_reset_password (token password : option string)
| GET_verify_reset_token (token : option string)
| POST_stripe_webhook (body : string) (header : option stripe_signature).

Section Application.
Context {P : Platform}.

(** One request served at the instant [now]. *)
Definition serve (r : request) (now : Z) : M response :=
  match r with
  | POST_signup email password name salt uuid =>
      Auth.signup email password name salt uuid now
  | POST_forgot_password email resetToken =>
      PasswordReset.forgot_password email resetToken now
  | POST_reset_password token password =>
      PasswordReset.reset_password token password now
  | GET_verify_reset_token token =>
      PasswordReset.verify_reset_token token now
  | POST_stripe_webhook body header =>
      Stripe.handleWebhook body header now
  end.

End Application.
End Server.

(* ================================================================== *)
(** ** A concrete platform and concrete stores, for running the handlers *)
(* ================================================================== *)

Module Demo.
Import Js Db Http.

(** The event a demonstration body parses to: the body is the event type,
    the object carries the customer ["cus_1"], the status ["active"] and,
    for the body ["checkout.session.completed"], the user reference
    ["u1"]. *)
Definition parse (body : string) : option stripe_event :=
  if String.eqb body "" then None
  else Some (mkEvent body
               (mkObject
                  (if String.eqb body "checkout.session.completed"
                   then Some (mkMetadata (Some "u1") (Some "a@b.com"))
                   else Some (mkMetadata None None))
                  (VText "cus_1") (VText "active") None)).

Lemma tagged_nonempty (alg key : string) (claims : jwt_claims) :
  alg ++ ":" ++ key ++ ":" ++ userId claims ++ ":" ++ email claims <> "".
Proof. destruct alg; discriminate. Qed.

(** Stand-ins for the primitives: injective tagging instead of hashing. *)
Definition platform (postgres : bool) : Platform := {|
  USE_POSTGRES := postgres;
  JWT_SECRET := "jwt-secret";
  STRIPE_WEBHOOK_SECRET := "whsec";
  sha256_hex := fun s => "sha256:" ++ s;
  bcrypt_hash := fun salt password => "$2a$12$" ++ salt ++ "$" ++ password;
  jws_sign := fun alg secret claims => alg ++ ":" ++ secret ++ ":" ++ userId claims ++ ":" ++ email claims;
  stripe_hmac := fun secret t payload => secret ++ ":" ++ payload;
  JSON_parse := parse;
  sendPasswordResetEmail := fun _ _ _ => true;
  jws_sign_nonempty := tagged_nonempty
|}.

(** A user who signed up as ["a@b.com"], upgraded to pro and known to the
    payment processor as ["cus_1"]. *)
Definition alice : user_row :=
  mkUser "u1" "a@b.com" "$2a$12$salt$longenough1" (Some "Alice") None 0 0
         (Some "pro") (Some "active") (Some "cus_1") 1000 2000 None.

(** The row the signup of ["a@b.com"] at the instant 1000 creates. *)
Definition alice_new : user_row :=
  new_user "u1" "a@b.com" "$2a$12$salt$longenough1" (Some "Alice") 1000 1000.

(** The same user before any payment. *)
Definition alice_free : user_row :=
  mkUser "u1" "a@b.com" "$2a$12$salt$longenough1" (Some "Alice") None 0 0
         (Some "free") (Some "active") None 1000 1000 None.

Definition one_user (u : user_row) : store := mkStore [u] [] [] [] [] [].

(** [alice] holding a reset token for the secret ["s3cret"] that expires
    at the instant 5000. *)
Definition alice_with_token : store :=
  mkStore [alice] [mkToken "u1" "sha256:s3cret" 5000] [] [] [] [].

End Demo.

(* ================================================================== *)
(** ** Observations on stores and computations *)
(* ================================================================== *)

Import Js Db Http.

(** The subscription state of the user [uid]: tier and status of the row
    [WHERE id = uid], if there is one. *)
Definition subscription_state (uid : string) (s : store)
  : option (option string * option string) :=
  option_map (fun u => (u_subscription_tier u, u_subscription_status u))
             (find (fun u => String.eqb (u_id u) uid) (users s)).

(** A user row and a store with the [updated_at] clock blanked. *)
Definition forget_clock_row (u : user_row) : user_row :=
  mkUser (u_id u) (u_email u) (u_password_hash u) (u_name u) (u_phone u)
         (u_phone_verified u) (u_email_verified u) (u_subscription_tier u)
         (u_subscription_status u) (u_stripe_customer_id u) (u_created_at u)
         0 (u_last_login u).

Definition forget_clock (s : store) : store :=
  with_users (map forget_clock_row (users s)) s.

(** The same statement at two instants: [UPDATE]s of the same columns to
    the same values for the same [id]. *)
Definition same_update (m1 m2 : mutation) : Prop :=
  match m1, m2 with
  | UPDATE_users_checkout c1 _ i1, UPDATE_users_checkout c2 _ i2 => c1 = c2 /\ i1 = i2
  | UPDATE_users_subscription t1 s1 _ i1, UPDATE_users_subscription t2 s2 _ i2 =>
      t1 = t2 /\ s1 = s2 /\ i1 = i2
  | UPDATE_users_canceled _ i1, UPDATE_users_canceled _ i2 => i1 = i2
  | _, _ => False
  end.

(** No white space anywhere in the string. *)
Fixpoint spaceless (s : string) : bool :=
  match s with
  | EmptyString => true
  | String c t => (negb (is_space c) && spaceless t)%bool
  end.

(** The rows of [password_reset_tokens] that belong to the user [uid]. *)
Definition rows_of (uid : string) (s : store) : list token_row :=
  filter (fun r => String.eqb (t_user_id r) uid) (password_reset_tokens s).

(** No two rows of the table carry the same [user_id]. *)
Definition distinct_owners (s : store) : Prop :=
  NoDup (map t_user_id (password_reset_tokens s)).

(** A computation that maintains a property of the store. *)
Definition preserves {A} (I : store -> Prop) (c : M A) : Prop :=
  forall s, I s -> I (snd (c s)).

(** The table after the upsert of [(uid, h, e)]. *)
Definition upserted (uid h : string) (e : Z) (l : list token_row) : list token_row :=
  if existsb (fun r => String.eqb (t_user_id r) uid) l
  then update_where (fun r => String.eqb (t_user_id r) uid) (set_token h e) l
  else l ++ [mkToken uid h e].

Section Applied.
Context {P : Platform}.

(** What a statement run as written and not awaited leaves in the store. *)
Definition applied (m : mutation) (s : store) : store :=
  if USE_POSTGRES then s
  else if existsb is_undefined (parameters m) then s
  else snd (execute m s).

End Applied.

(* ================================================================== *)
(** ** db.js: the text of a statement and its placeholders *)
(* ================================================================== *)

Module Placeholders.

(** [`${n}`] for a non-negative integer. *)
Definition decimal (n : nat) : string := NilZero.string_of_uint (Nat.to_uint n).

(** [sql.replace(/\?/g, () => `$${++index}`)] with the counter at [index]:
    every ["?"] becomes ["$"] followed by the incremented counter. *)
Fixpoint number_from (index : nat) (sql : string) : string :=
  match sql with
  | EmptyString => EmptyString
  | String c rest =>
      if Ascii.eqb c "?"
      then "$" ++ decimal (S index) ++ number_from (S index) rest
      else String c (number_from index rest)
  end.

(** The number of occurrences of a character. *)
Fixpoint occurrences (c : ascii) (s : string) : nat :=
  match s with
  | EmptyString => 0%nat
  | String d rest => ((if Ascii.eqb d c then 1 else 0) + occurrences c rest)%nat
  end.

Section Text.
Context {P : Platform}.

(** [function convertPlaceholders(sql)] on the text of the statement. *)
Definition convertPlaceholders (sql : string) : string :=
  if USE_POSTGRES then number_from 0 sql else sql.

End Text.
End Placeholders.

(* ================================================================== *)
(** ** The statements of the rest of the User model *)
(* ================================================================== *)

Module Statements.
Import Js Db.

(** What [User.findById] selects: every column but [password_hash] and
    [updated_at]. *)
Record profile := mkProfile {
  p_id : string;
  p_email : string;
  p_name : option string;
  p_phone : option string;
  p_phone_verified : Z;
  p_email_verified : Z;
  p_subscription_tier : option string;
  p_subscription_status : option string;
  p_stripe_customer_id : option string;
  p_created_at : Z;
  p_last_login : option Z
}.

Definition profile_of (u : user_row) : profile :=
  mkProfile (u_id u) (u_email u) (u_name u) (u_phone u) (u_phone_verified u)
            (u_email_verified u) (u_subscription_tier u) (u_subscription_status u)
            (u_stripe_customer_id u) (u_created_at u) (u_last_login u).

(** The statements on [users] that the model runs besides the insert; all
    their parameters are strings. *)
Inductive user_mutation :=
(** [UPDATE users SET phone = ?, phone_verified = 0, updated_at = ? WHERE id = ?] *)
| UPDATE_users_phone (phone : string) (now : Z) (id : string)
(** [UPDATE users SET phone_verified = 1, updated_at = ? WHERE id = ?] *)
| UPDATE_users_phone_verified (now : Z) (id : string)
(** [UPDATE users SET last_login = ? WHERE id = ?] *)
| UPDATE_users_last_login (now : Z) (id : string)
(** [UPDATE users SET stripe_customer_id = ?, updated_at = ? WHERE id = ?] *)
| UPDATE_users_stripe_customer_id (customer : string) (now : Z) (id : string)
(** [UPDATE users SET ${updates.join(', ')} WHERE id = ?], where [updates]
    holds [name = ?] and [email = ?] for the columns given, then
    [updated_at = ?] *)
| UPDATE_users_profile (name email : option string) (now : Z) (id : string).

(** [SELECT id, email, ..., last_login FROM users WHERE id = ?] and
    [SELECT id, email, subscription_tier, subscription_status FROM users
    WHERE id = ?] *)
Inductive user_selection :=
| SELECT_profile_by_id (id : string).

Definition set_phone (phone : string) (now : Z) (u : user_row) : user_row :=
  mkUser (u_id u) (u_email u) (u_password_hash u) (u_name u) (Some phone)
         0 (u_email_verified u) (u_subscription_tier u) (u_subscription_status u)
         (u_stripe_customer_id u) (u_created_at u) now (u_last_login u).

Definition set_phone_verified (now : Z) (u : user_row) : user_row :=
  mkUser (u_id u) (u_email u) (u_password_hash u) (u_name u) (u_phone u)
         1 (u_email_verified u) (u_subscription_tier u) (u_subscription_status u)
         (u_stripe_customer_id u) (u_created_at u) now (u_last_login u).

Definition set_last_login (now : Z) (u : user_row) : user_row :=
  mkUser (u_id u) (u_email u) (u_password_hash u) (u_name u) (u_phone u)
         (u_phone_verified u) (u_email_verified u) (u_subscription_tier u)
         (u_subscription_status u) (u_stripe_customer_id u) (u_created_at u)
         (u_updated_at u) (Some now).

Definition set_stripe_customer_id (customer : string) (now : Z) (u : user_row) : user_row :=
  mkUser (u_id u) (u_email u) (u_password_hash u) (u_name u) (u_phone u)
         (u_phone_verified u) (u_email_verified u) (u_subscription_tier u)
         (u_subscription_status u) (Some customer) (u_created_at u) now (u_last_login u).

(** The columns of [updates]: a column that is not given keeps its value. *)
Definition set_profile (name email : option string) (now : Z) (u : user_row) : user_row :=
  mkUser (u_id u)
         (match email with Some e => e | None => u_email u end)
         (u_password_hash u)
         (match name with Some n => Some n | None => u_name u end)
         (u_phone u) (u_phone_verified u) (u_email_verified u)
         (u_subscription_tier u) (u_subscription_status u)
         (u_stripe_customer_id u) (u_created_at u) now (u_last_login u).

Section Driver.
Context {P : Platform}.

(** An [UPDATE] that writes [email] breaks the [UNIQUE] constraint when it
    reaches a row and another row already holds the new address. *)
Definition email_taken (email id : string) (s : store) : bool :=
  (existsb (fun u => String.eqb (u_id u) id) (users s)
   && existsb (fun u => String.eqb (u_email u) email && negb (String.eqb (u_id u) id))
              (users s))%bool.

Definition execute_user (m : user_mutation) : M unit :=
  fun s =>
    let by_id (id : string) := fun u => String.eqb (u_id u) id in
    match m with
    | UPDATE_users_phone phone now id =>
        (Normal tt, with_users (update_where (by_id id) (set_phone phone now) (users s)) s)
    | UPDATE_users_phone_verified now id =>
        (Normal tt, with_users (update_where (by_id id) (set_phone_verified now) (users s)) s)
    | UPDATE_users_last_login now id =>
        (Normal tt, with_users (update_where (by_id id) (set_last_login now) (users s)) s)
    | UPDATE_users_stripe_customer_id customer now id =>
        (Normal tt,
         with_users (update_where (by_id id) (set_stripe_customer_id customer now) (users s)) s)
    | UPDATE_users_profile name email now id =>
        match email with
        | Some e =>
            if email_taken e id s
            then (Abrupt (unique_violation "users.email" "users_email_key"), s)
            else (Normal tt,
                  with_users (update_where (by_id id) (set_profile name email now) (users s)) s)
        | None =>
            (Normal tt,
             with_users (update_where (by_id id) (set_profile name email now) (users s)) s)
        end
    end.

Definition fetch_user (q : user_selection) (s : store) : option profile :=
  match q with
  | SELECT_profile_by_id id =>
      option_map profile_of (find (fun u => String.eqb (u_id u) id) (users s))
  end.

(** [run], [query] and [getOne] of db.js on these statements: as for the
    statements of [Db], PostgreSQL accepts numbered parameters only; every
    parameter here is a string, which both drivers bind. *)
Definition run_user (q : sql user_mutation) : M unit :=
  if USE_POSTGRES
  then match style q with
       | QuestionMarks => throw pg_syntax_error
       | Numbered => execute_user (statement q)
       end
  else execute_user (statement q).

Definition query_user (q : sql user_mutation) : M unit :=
  run_user (convertPlaceholders q).

(** As for [Db.pgPool_query_get], [created_at] and [last_login] come back
    from PostgreSQL as written, which is the driver's answer of a process
    in UTC. *)
Definition getOne_user (q : sql user_selection) : M (option profile) :=
  let q' := convertPlaceholders q in
  if USE_POSTGRES
  then match style q' with
       | QuestionMarks => throw pg_syntax_error
       | Numbered => fun s => (Normal (fetch_user (statement q') s), s)
       end
  else fun s => (Normal (fetch_user (statement q') s), s).

End Driver.
End Statements.

(* ================================================================== *)
(** ** models/User.js: the other static methods *)
(* ================================================================== *)

(** [bcrypt.compare(plain, hash)]: it accepts a password against every hash
    [bcrypt.hash] makes of it. *)
Class Bcrypt {P : Platform} := {
  bcrypt_compare : string -> string -> bool;
  bcrypt_compare_hash :
    forall salt password, bcrypt_compare password (bcrypt_hash salt password) = true
}.

Module UserModel.
Import Js Db Statements.
Local Open Scope db_scope.

Section Model.
Context {P : Platform} {B : Bcrypt}.

(** [static async findById(userId)] *)
Definition findById (userId : string) : M (option profile) :=
  getOne_user (written (SELECT_profile_by_id userId)).

(** [static async verifyPassword(plainPassword, passwordHash)] *)
Definition verifyPassword (plainPassword passwordHash : string) : M bool :=
  ret (bcrypt_compare plainPassword passwordHash).

(** [static async updatePhone(userId, phone)] *)
Definition updatePhone (userId phone : string) (now : Z) : M (option profile) :=
  query_user (written (UPDATE_users_phone phone now userId)) ;;;
  findById userId.

(** [static async markPhoneVerified(userId)] *)
Definition markPhoneVerified (userId : string) (now : Z) : M (option profile) :=
  query_user (written (UPDATE_users_phone_verified now userId)) ;;;
  findById userId.

(** [static async updateLastLogin(userId)] *)
Definition updateLastLogin (userId : string) (now : Z) : M unit :=
  query_user (written (UPDATE_users_last_login now userId)).

(** [static async updateSubscription(userId, tier, status = 'active')];
    [status] is [None] when the caller leaves it out. *)
Definition updateSubscription (userId tier : string) (status : option string) (now : Z)
  : M (option profile) :=
  let status := match status with Some st => st | None => "active" end in
  query (written (UPDATE_users_subscription (VText tier) (VText status) now (VText userId))) ;;;
  getOne_user (written (SELECT_profile_by_id userId)).

(** [static async updateStripeCustomerId(userId, stripeCustomerId)] *)
Definition updateStripeCustomerId (userId stripeCustomerId : string) (now : Z) : M unit :=
  query_user (written (UPDATE_users_stripe_customer_id stripeCustomerId now userId)).

(** [static async findByStripeCustomerId(stripeCustomerId)] *)
Definition findByStripeCustomerId (stripeCustomerId : string) : M (option user_row) :=
  getOne (written (SELECT_users_by_stripe_customer_id (VText stripeCustomerId))).

(** [static async updateProfile(userId, { name, email })]: a field counts
    when it is truthy. *)
Definition updateProfile (userId : string) (name email : value) (now : Z)
  : M (option profile) :=
  let name_update := match name with
                     | VText n => if truthy name then Some n else None
                     | _ => None
                     end in
  let email_update := match email with
                      | VText e => if truthy email then Some (trim (toLowerCase e)) else None
                      | _ => None
                      end in
  match name_update, email_update with
  | None, None => findById userId
  | _, _ =>
      query_user (written (UPDATE_users_profile name_update email_update now userId)) ;;;
      findById userId
  end.

End Model.
End UserModel.

(* ================================================================== *)
(** ** routes/auth.js: login, profile and logout *)
(* ================================================================== *)

Module AuthRoutes.
Import Js Db Http Jwt Statements.
Local Open Scope db_scope.

(** A nullable text column inside a JSON body. *)
Definition nullable (o : option string) : json :=
  match o with
  | Some text => JString text
  | None => JNull
  end.

(** A nullable timestamp column inside a JSON body. *)
Definition nullable_instant (o : option Z) : json :=
  match o with
  | Some t => JNumber t
  | None => JNull
  end.

(** The body of a successful login. *)
Definition logged_in (token : jwt_string) (user : user_row) : json :=
  JObject [("success", JBool true);
           ("token", Auth.token_json token);
           ("user", JObject [("id", JString (u_id user));
                             ("email", JString (u_email user));
                             ("name", nullable (u_name user));
                             ("subscriptionTier", nullable (u_subscription_tier user))])].

(** The body of [GET /api/auth/me]. *)
Definition current_user (user : profile) : json :=
  JObject [("success", JBool true);
           ("user", JObject [("id", JString (p_id user));
                             ("email", JString (p_email user));
                             ("name", nullable (p_name user));
                             ("subscriptionTier", nullable (p_subscription_tier user));
                             ("subscriptionStatus", nullable (p_subscription_status user));
                             ("createdAt", JNumber (p_created_at user));
                             ("lastLogin", nullable_instant (p_last_login user))])].

Section Routes.
Context {P : Platform} {B : Bcrypt}.

(** [router.post('/login', ...)] *)
Definition login (email password : option string) (now : Z) : M response :=
  try_catch
    (match email, password with
     | Some email, Some password =>
         if (String.eqb email "" || String.eqb password "")%bool
         then ret (json_status 400 (failure "Email and password are required"))
         else
           user <- User.findByEmail email ;;
           match user with
           | None => ret (json_status 401 (failure "Invalid email or password"))
           | Some user =>
               isValid <- UserModel.verifyPassword password (u_password_hash user) ;;
               if negb isValid
               then ret (json_status 401 (failure "Invalid email or password"))
               else
                 UserModel.updateLastLogin (u_id user) now ;;;
                 token <- await (sign (u_id user) (u_email user) JWT_SECRET now) ;;
                 ret (json_ok (logged_in token user))
           end
     | _, _ => ret (json_status 400 (failure "Email and password are required"))
     end)
    (fun error => ret (json_status 500 (failure "Login failed. Please try again."))).

(** [router.get('/me', authenticateToken, ...)] *)
Definition me (authHeader : option (list jwt_string)) (now : Z) : M response :=
  match Auth.authenticateToken authHeader now with
  | Auth.Rejected r => ret r
  | Auth.Next req_userId req_userEmail =>
      try_catch
        (user <- UserModel.findById req_userId ;;
         match user with
         | None => ret (json_status 404 (failure "User not found"))
         | Some user => ret (json_ok (current_user user))
         end)
        (fun error => ret (json_status 500 (failure "Failed to get user profile")))
  end.

(** [router.post('/logout', authenticateToken, ...)] *)
Definition logout (authHeader : option (list jwt_string)) (now : Z) : M response :=
  match Auth.authenticateToken authHeader now with
  | Auth.Rejected r => ret r
  | Auth.Next req_userId req_userEmail =>
      ret (json_ok (success "Logged out successfully"))
  end.

End Routes.
End AuthRoutes.

(* ================================================================== *)
(** ** routes/stripe.js: checkout and portal sessions *)
(* ================================================================== *)

(** The calls to the payment processor, by what they answer:
    [stripe.customers.create({ email, metadata: { userId } })] answers the
    id of the customer, [stripe.checkout.sessions.create] for a customer,
    user id and user address answers the id and url of the session, and
    [stripe.billingPortal.sessions.create] for a customer answers a url. *)
Class StripeApi := {
  customers_create : string -> string -> Js.completion string;
  checkout_sessions_create : string -> string -> string -> Js.completion (string * string);
  billingPortal_sessions_create : string -> Js.completion string
}.

Module StripeRoutes.
Import Js Db Http Jwt Statements.
Local Open Scope db_scope.

(** [!customerId] for the nullable column [stripe_customer_id]. *)
Definition no_customer (o : option string) : bool :=
  match o with
  | Some c => String.eqb c ""
  | None => true
  end.

Definition is_column (o : option string) (text : string) : bool :=
  match o with
  | Some c => String.eqb c text
  | None => false
  end.

Section Routes.
Context {P : Platform} {B : Bcrypt} {S : StripeApi}.

(** [router.post('/create-checkout-session', authenticateToken, ...)]. The
    customer id of a new customer is saved by [db.run], not awaited. *)
Definition create_checkout_session (authHeader : option (list jwt_string)) (now : Z)
  : M response :=
  match Auth.authenticateToken authHeader now with
  | Auth.Rejected r => ret r
  | Auth.Next userId userEmail =>
      try_catch
        (user <- UserModel.findById userId ;;
         match user with
         | None => ret (json_status 404 (failure "User not found"))
         | Some user =>
             if (is_column (p_subscription_tier user) "pro"
                 && is_column (p_subscription_status user) "active")%bool
             then ret (json_status 400 (failure "You already have an active Pro subscription"))
             else
               customerId <-
                 (if no_customer (p_stripe_customer_id user)
                  then
                    customerId <- await (customers_create userEmail userId) ;;
                    no_await (run_user (written
                      (UPDATE_users_stripe_customer_id customerId now userId))) ;;;
                    ret customerId
                  else
                    ret (match p_stripe_customer_id user with
                         | Some c => c
                         | None => ""
                         end)) ;;
               session <- await (checkout_sessions_create customerId userId userEmail) ;;
               ret (json_ok (JObject [("success", JBool true);
                                      ("sessionId", JString (fst session));
                                      ("url", JString (snd session))]))
         end)
        (fun error =>
           match message error with
           | Some "" | None =>
               ret (json_status 500 (failure "Failed to create checkout session"))
           | Some m => ret (json_status 500 (failure m))
           end)
  end.

(** [router.post('/create-portal-session', authenticateToken, ...)] *)
Definition create_portal_session (authHeader : option (list jwt_string)) (now : Z)
  : M response :=
  match Auth.authenticateToken authHeader now with
  | Auth.Rejected r => ret r
  | Auth.Next userId userEmail =>
      try_catch
        (user <- UserModel.findById userId ;;
         match user with
         | None => ret (json_status 400 (failure "No active subscription found"))
         | Some user =>
             if no_customer (p_stripe_customer_id user)
             then ret (json_status 400 (failure "No active subscription found"))
             else
               url <- await (billingPortal_sessions_create
                               (match p_stripe_customer_id user with
                                | Some c => c
                                | None => ""
                                end)) ;;
               ret (json_ok (JObject [("success", JBool true); ("url", JString url)]))
         end)
        (fun error => ret (json_status 500 (failure "Failed to create portal session")))
  end.

End Routes.
End StripeRoutes.

(* ================================================================== *)
(** ** server.js: every route that touches the store *)
(* ================================================================== *)

Module Application.
Import Js Db Http Jwt.

Inductive request :=
| Core (r : Server.request)
| POST_login (email password : option string)
| GET_me (authorization : option (list jwt_string))
| POST_logout (authorization : option (list jwt_string))
| POST_create_checkout_session (authorization : option (list jwt_string))
| POST_create_portal_session (authorization : option (list jwt_string)).

Section Routes.
Context {P : Platform} {B : Bcrypt} {S : StripeApi}.

Definition serve (r : request) (now : Z) : M response :=
  match r with
  | Core r => Server.serve r now
  | POST_login email password => AuthRoutes.login email password now
  | GET_me authorization => AuthRoutes.me authorization now
  | POST_logout authorization => AuthRoutes.logout authorization now
  | POST_create_checkout_session authorization =>
      StripeRoutes.create_checkout_session authorization now
  | POST_create_portal_session authorization =>
      StripeRoutes.create_portal_session authorization now
  end.

(** The stores the application goes through, starting from fresh tables.
    The routes that are left out ([GET /health], [GET /api],
    [GET /api/stripe/session/:sessionId] and the 404 handler) do not use
    the database. *)
Inductive reachable : store -> Prop :=
| reachable_fresh : reachable empty_store
| reachable_serve s r now : reachable s -> reachable (snd (serve r now s)).

End Routes.
End Application.

(* ================================================================== *)
(** ** Further observations and sample data *)
(* ================================================================== *)

(** No two users share an id, and no two share an address. *)
Definition unique_users (s : Db.store) : Prop :=
  NoDup (map Db.u_id (Db.users s)) /\ NoDup (map Db.u_email (Db.users s)).

(** The tier of a row agrees with its status: pro only while the status is
    active or trialing. *)
Definition tier_follows_status (u : Db.user_row) : Prop :=
  Db.u_subscription_tier u = Some "pro" ->
  Db.u_subscription_status u = Some "active"
  \/ Db.u_subscription_status u = Some "trialing".

(** What a webhook can never change in a user row: identity, credential,
    contact data and the creation and login instants. *)
Definition account_of (u : Db.user_row)
  : string * string * string * option string * option string * Z * Z * Z * option Z :=
  (Db.u_id u, Db.u_email u, Db.u_password_hash u, Db.u_name u, Db.u_phone u,
   Db.u_phone_verified u, Db.u_email_verified u, Db.u_created_at u, Db.u_last_login u).

(** A row with the login instant blanked. *)
Definition forget_login_row (u : Db.user_row) : Db.user_row :=
  Db.mkUser (Db.u_id u) (Db.u_email u) (Db.u_password_hash u) (Db.u_name u) (Db.u_phone u)
            (Db.u_phone_verified u) (Db.u_email_verified u) (Db.u_subscription_tier u)
            (Db.u_subscription_status u) (Db.u_stripe_customer_id u) (Db.u_created_at u)
            (Db.u_updated_at u) None.

(** The value [updateProfile] writes for a field of its argument: the
    text of a truthy field, nothing for any other. *)
Definition supplied (v : Js.value) : option string :=
  match v with
  | Js.VText text => if Js.truthy v then Some text else None
  | _ => None
  end.

(** Empty, or beginning with a character that is not white space. *)
Definition starts_clean (s : string) : bool :=
  match s with
  | EmptyString => true
  | String c _ => negb (Js.is_space c)
  end.

(** What [updateProfile] can never change in a user row. *)
Definition beyond_profile (u : Db.user_row)
  : string * string * option string * Z * Z * option string * option string
    * option string * Z * option Z :=
  (Db.u_id u, Db.u_password_hash u, Db.u_phone u, Db.u_phone_verified u,
   Db.u_email_verified u, Db.u_subscription_tier u, Db.u_subscription_status u,
   Db.u_stripe_customer_id u, Db.u_created_at u, Db.u_last_login u).

(** The statements on the tables of [Db] as the routes issue them: a
    subscription update carries the tier computed from its status, and an
    insert carries a normalized address. *)
Definition issued (m : Db.mutation) : Prop :=
  match m with
  | Db.UPDATE_users_subscription tier status _ _ =>
      tier = Js.VText "free"
      \/ (tier = Js.VText "pro"
          /\ (status = Js.VText "active" \/ status = Js.VText "trialing"))
  | Db.INSERT_users _ email _ _ _ _ => exists e, email = Js.trim (Js.toLowerCase e)
  | _ => True
  end.

(** The statements of [Statements] that a route issues: the login instant
    and the customer reference. *)
Definition issued_user (m : Statements.user_mutation) : Prop :=
  match m with
  | Statements.UPDATE_users_last_login _ _ => True
  | Statements.UPDATE_users_stripe_customer_id _ _ _ => True
  | _ => False
  end.

(** Every stored address is in normal form: lower case, trimmed. *)
Definition normalized_addresses (s : Db.store) : Prop :=
  forall u, In u (Db.users s) -> Js.trim (Js.toLowerCase (Db.u_email u)) = Db.u_email u.

Module Sample.
Import Js Db.

(** [s] ends with [suffix]. *)
Fixpoint ends_with (suffix s : string) : bool :=
  (String.eqb s suffix ||
   match s with
   | EmptyString => false
   | String _ rest => ends_with suffix rest
   end)%bool.

Lemma ends_with_refl (suffix : string) : ends_with suffix suffix = true.
Proof. destruct suffix; simpl; rewrite ?String.eqb_refl, ?Ascii.eqb_refl; reflexivity. Qed.

Lemma ends_with_prefixed (prefix suffix s : string) :
  ends_with suffix s = true -> ends_with suffix (prefix ++ s) = true.
Proof.
  intros H. induction prefix as [| c prefix IH]; simpl; [exact H |].
  rewrite IH. apply orb_true_r.
Qed.

(** The comparison that goes with the tagging hash of [Demo.platform]. *)
#[export] Instance bcrypt (postgres : bool) : @Bcrypt (Demo.platform postgres).
Proof.
  refine {| bcrypt_compare := fun password hash => ends_with ("$" ++ password) hash |}.
  intros salt password.
  apply (ends_with_prefixed "$2a$12$" ("$" ++ password) (salt ++ "$" ++ password)).
  apply (ends_with_prefixed salt ("$" ++ password) ("$" ++ password)).
  apply ends_with_refl.
Defined.

(** A processor that answers every call with fixed ids. *)
Definition processor : StripeApi := {|
  customers_create := fun email userId => Normal ("cus_" ++ userId);
  checkout_sessions_create := fun customer userId userEmail =>
    Normal ("cs_" ++ customer, "https://checkout.stripe.com/" ++ customer);
  billingPortal_sessions_create := fun customer =>
    Normal ("https://billing.stripe.com/" ++ customer)
|}.

(** [bob], a second user, free and unknown to the processor. *)
Definition bob : user_row :=
  mkUser "u2" "bob@b.com" "$2a$12$salt$password2" None None 0 0
         (Some "free") (Some "active") None 1500 1500 None.

Definition two_users : store := mkStore [Demo.alice; bob] [] [] [] [] [].

End Sample.


(* ================================================================== *)
(** ** Properties *)
(* ================================================================== *)

(** *** The string methods on sample inputs *)

Example emailRegex_test_samples :
  map emailRegex_test
      ["a@b.c"; "A@B.com"; "a.b@c.d.e"; "a@b"; "@b.c"; "a@.c"; "a@b."; "a@@b.c";
       "a b@c.d"; " a@b.com"; "a@b.com "]
  = [true; true; true; false; false; false; false; false; false; false; false].
Proof. reflexivity. Qed.

Example trim_samples :
  map trim ["  a b  "; "a"; ""; "   "; " A@B.com "] = ["a b"; "a"; ""; ""; "A@B.com"].
Proof. reflexivity. Qed.

Example toLowerCase_sample : toLowerCase " A@B.Com" = " a@b.com".
Proof. reflexivity. Qed.

Example includes_samples :
  map (fun m => includes m "UNIQUE constraint failed")
      ["UNIQUE constraint failed: users.email"; "syntax error"; ""]
  = [true; false; false].
Proof. reflexivity. Qed.

(** *** The persistence abstraction *)

Section DbFacts.
Context {P : Platform}.

(** A converted query reaches the active backend in its own syntax. *)
Lemma getOne_written {A} (q : selection A) (s : store) :
  existsb is_undefined (selection_parameters q) = false ->
  getOne (written q) s = (Normal (fetch q s), s).
Proof.
  intros Hbind. unfold getOne, get, convertPlaceholders, written.
  destruct USE_POSTGRES; simpl.
  - reflexivity.
  - unfold sqliteDb_get. simpl. rewrite Hbind. reflexivity.
Qed.

(** A converted statement is executed as soon as its parameters bind. *)
Lemma query_written (m : mutation) (s : store) :
  USE_POSTGRES = true \/ existsb is_undefined (parameters m) = false ->
  query (written m) s = execute m s.
Proof.
  intros Hbind. unfold query, run, convertPlaceholders, written.
  destruct USE_POSTGRES; simpl.
  - reflexivity.
  - unfold sqliteDb_run. simpl.
    destruct Hbind as [Hpg | Hbind]; [discriminate | rewrite Hbind; reflexivity].
Qed.

(** A statement run as written, with its [?]: PostgreSQL rejects it, and
    the embedded backend executes it if its parameters bind. *)
Lemma run_written (m : mutation) (s : store) :
  run (written m) s =
  if USE_POSTGRES then (Abrupt pg_syntax_error, s)
  else if existsb is_undefined (parameters m) then (Abrupt wrong_api_use, s)
  else execute m s.
Proof.
  unfold run, written. destruct USE_POSTGRES; simpl.
  - reflexivity.
  - unfold sqliteDb_run. simpl.
    destruct (existsb is_undefined (parameters m)); reflexivity.
Qed.

Lemma findByEmail_fetch (email : string) (s : store) :
  User.findByEmail email s =
  (Normal (fetch (SELECT_users_by_email (trim (toLowerCase email))) s), s).
Proof. unfold User.findByEmail. apply getOne_written. reflexivity. Qed.

End DbFacts.

(** *** The password-reset routes *)

Section PasswordResetFacts.
Context {P : Platform}.

(** The probe reads one row and writes nothing. *)
Lemma verify_reset_token_frame (token : option string) (now : Z) (s : store) :
  snd (PasswordReset.verify_reset_token token now s) = s.
Proof.
  unfold PasswordReset.verify_reset_token, try_catch, bind.
  destruct token as [token |]; [| reflexivity].
  destruct (String.eqb token ""); [reflexivity |].
  rewrite getOne_written by reflexivity.
  destruct (fetch _ s) as [r |]; [| reflexivity].
  destruct (t_expires_at r <? now); reflexivity.
Qed.

(** What the probe answers. *)
Lemma verify_reset_token_answer (token : string) (now : Z) (s : store) :
  token <> "" ->
  fst (PasswordReset.verify_reset_token (Some token) now s) =
  Normal (json_ok (PasswordReset.probe
    match fetch (SELECT_tokens_by_hash (sha256_hex token)) s with
    | Some r => negb (t_expires_at r <? now)
    | None => false
    end)).
Proof.
  intros Hne. apply String.eqb_neq in Hne.
  unfold PasswordReset.verify_reset_token, try_catch, bind. rewrite Hne.
  rewrite getOne_written by reflexivity.
  destruct (fetch _ s) as [r |]; [| reflexivity].
  destruct (t_expires_at r <? now); reflexivity.
Qed.

(** The consume path on a token whose expiry has passed: the row goes. *)
Lemma reset_password_expired (token password : string) (now : Z) (s : store) (r : token_row) :
  token <> "" ->
  (8 <= String.length password)%nat ->
  fetch (SELECT_tokens_by_hash (sha256_hex token)) s = Some r ->
  t_expires_at r < now ->
  PasswordReset.reset_password (Some token) (Some password) now s =
  (Normal (json_status 400
             (failure "Reset token has expired. Please request a new one.")),
   with_tokens (delete_where (fun x => String.eqb (t_token_hash x) (sha256_hex token))
                             (password_reset_tokens s)) s).
Proof.
  intros Htoken Hlen Hrow Hexp.
  apply String.eqb_neq in Htoken.
  assert (Hpw : String.eqb password "" = false).
  { apply String.eqb_neq. intros ->. simpl in Hlen. lia. }
  assert (Hshort : (String.length password <? 8)%nat = false)
    by (apply Nat.ltb_ge; exact Hlen).
  apply Z.ltb_lt in Hexp.
  unfold PasswordReset.reset_password, try_catch, bind.
  rewrite Htoken, Hpw, Hshort. simpl.
  rewrite getOne_written by reflexivity. rewrite Hrow, Hexp.
  rewrite query_written by (right; reflexivity). reflexivity.
Qed.

(** The consume path on a live token: the call of [User.updatePassword]
    throws, the handler answers 500, and nothing has been written. *)
Lemma reset_password_live (token password : string) (now : Z) (s : store) (r : token_row) :
  token <> "" ->
  (8 <= String.length password)%nat ->
  fetch (SELECT_tokens_by_hash (sha256_hex token)) s = Some r ->
  now <= t_expires_at r ->
  PasswordReset.reset_password (Some token) (Some password) now s =
  (Normal (json_status 500 (failure "Failed to reset password")), s).
Proof.
  intros Htoken Hlen Hrow Hexp.
  apply String.eqb_neq in Htoken.
  assert (Hpw : String.eqb password "" = false).
  { apply String.eqb_neq. intros ->. simpl in Hlen. lia. }
  assert (Hshort : (String.length password <? 8)%nat = false)
    by (apply Nat.ltb_ge; exact Hlen).
  apply Z.ltb_ge in Hexp.
  unfold PasswordReset.reset_password, try_catch, bind.
  rewrite Htoken, Hpw, Hshort. simpl.
  rewrite getOne_written by reflexivity. rewrite Hrow, Hexp.
  reflexivity.
Qed.

(** The consume path when no row carries the hash of the secret. *)
Lemma reset_password_unknown (token password : string) (now : Z) (s : store) :
  token <> "" ->
  (8 <= String.length password)%nat ->
  fetch (SELECT_tokens_by_hash (sha256_hex token)) s = None ->
  PasswordReset.reset_password (Some token) (Some password) now s =
  (Normal (json_status 400 (failure "Invalid or expired reset token")), s).
Proof.
  intros Htoken Hlen Hrow.
  apply String.eqb_neq in Htoken.
  assert (Hpw : String.eqb password "" = false).
  { apply String.eqb_neq. intros ->. simpl in Hlen. lia. }
  assert (Hshort : (String.length password <? 8)%nat = false)
    by (apply Nat.ltb_ge; exact Hlen).
  unfold PasswordReset.reset_password, try_catch, bind.
  rewrite Htoken, Hpw, Hshort. simpl.
  rewrite getOne_written by reflexivity. rewrite Hrow. reflexivity.
Qed.

End PasswordResetFacts.

Section PasswordResetClaims.
Context {P : Platform}.

Lemma find_some_in {A} (p : A -> bool) (l : list A) (x : A) :
  find p l = Some x -> In x l /\ p x = true.
Proof. apply find_some. Qed.

Lemma delete_where_gone {A} (p : A -> bool) (l : list A) (x : A) :
  p x = true -> ~ In x (delete_where p l).
Proof.
  intros Hp Hin. unfold delete_where in Hin.
  apply filter_In in Hin. destruct Hin as [_ Hn]. rewrite Hp in Hn. discriminate.
Qed.

(** C10. The token-validity probe never writes: whatever the store and the
    presented token, the store after the probe is the store before it. In
    particular a row whose expiry has passed is answered with
    [valid: false] and is still in the table afterwards, whereas the
    reset-password route, on the same secret, deletes that row. *)
Theorem verify_reset_token_is_read_only (s : store) (token : option string) (now : Z) :
  snd (PasswordReset.verify_reset_token token now s) = s
  /\ forall (secret password : string) (r : token_row),
       token = Some secret ->
       secret <> "" ->
       (8 <= String.length password)%nat ->
       fetch (SELECT_tokens_by_hash (sha256_hex secret)) s = Some r ->
       t_expires_at r < now ->
       fst (PasswordReset.verify_reset_token token now s)
         = Normal (json_ok (PasswordReset.probe false))
       /\ In r (password_reset_tokens (snd (PasswordReset.verify_reset_token token now s)))
       /\ ~ In r (password_reset_tokens
                    (snd (PasswordReset.reset_password token (Some password) now s))).
Proof.
  split; [apply verify_reset_token_frame |].
  intros secret password r -> Hsecret Hlen Hrow Hexp.
  pose proof (find_some_in _ _ _ Hrow) as [Hin Hhash].
  repeat split.
  - rewrite verify_reset_token_answer by exact Hsecret.
    rewrite Hrow. apply Z.ltb_lt in Hexp. rewrite Hexp. reflexivity.
  - rewrite verify_reset_token_frame. exact Hin.
  - rewrite (reset_password_expired secret password now s r) by assumption.
    simpl. apply delete_where_gone. exact Hhash.
Qed.

(** C7. A forgot-password request naming an address no user has and one
    naming the address of a user are answered with the same response, the
    200 with the one fixed message; and the request for the unknown address
    leaves the store as it was. *)
Theorem forgot_password_same_response
        (s : store) (absent present secret1 secret2 : string) (now1 now2 : Z)
        (u : user_row) :
  absent <> "" ->
  present <> "" ->
  fetch (SELECT_users_by_email (trim (toLowerCase absent))) s = None ->
  fetch (SELECT_users_by_email (trim (toLowerCase present))) s = Some u ->
  fst (PasswordReset.forgot_password (Some absent) secret1 now1 s)
    = fst (PasswordReset.forgot_password (Some present) secret2 now2 s)
  /\ fst (PasswordReset.forgot_password (Some absent) secret1 now1 s)
       = Normal (json_ok PasswordReset.reset_link_sent)
  /\ snd (PasswordReset.forgot_password (Some absent) secret1 now1 s) = s.
Proof.
  intros Ha Hp Hnone Hsome.
  apply String.eqb_neq in Ha. apply String.eqb_neq in Hp.
  unfold PasswordReset.forgot_password, try_catch, bind.
  rewrite Ha, Hp. rewrite !findByEmail_fetch. rewrite Hnone, Hsome.
  rewrite query_written by (right; reflexivity).
  unfold execute.
  destruct (existsb _ (password_reset_tokens s)); simpl; auto.
Qed.

End PasswordResetClaims.

(** C10 at a concrete store: the expired row of [alice] survives the probe
    and not the reset. *)
Lemma verify_reset_token_is_read_only_witness :
  let P := Demo.platform false in
  let s := Demo.alice_with_token in
  let r := mkToken "u1" "sha256:s3cret" 5000 in
  snd (PasswordReset.verify_reset_token (Some "s3cret") 6000 s) = s
  /\ In r (password_reset_tokens
             (snd (PasswordReset.verify_reset_token (Some "s3cret") 6000 s)))
  /\ ~ In r (password_reset_tokens
               (snd (PasswordReset.reset_password (Some "s3cret") (Some "newpassword1") 6000 s))).
Proof.
  intros P s r.
  destruct (@verify_reset_token_is_read_only P s (Some "s3cret") 6000) as [Hframe Hrow].
  destruct (Hrow "s3cret" "newpassword1" r) as (_ & Hin & Hout).
  - reflexivity.
  - discriminate.
  - simpl. lia.
  - reflexivity.
  - simpl. lia.
  - exact (conj Hframe (conj Hin Hout)).
Defined.

(** C7 at a concrete store: ["nobody@b.com"] against ["A@B.com"]. *)
Lemma forgot_password_same_response_witness :
  let P := Demo.platform true in
  let s := Demo.one_user Demo.alice in
  fst (PasswordReset.forgot_password (Some "nobody@b.com") "aa" 3000 s)
    = fst (PasswordReset.forgot_password (Some "A@B.com") "bb" 4000 s)
  /\ fst (PasswordReset.forgot_password (Some "nobody@b.com") "aa" 3000 s)
       = Normal (json_ok PasswordReset.reset_link_sent)
  /\ snd (PasswordReset.forgot_password (Some "nobody@b.com") "aa" 3000 s) = s.
Proof.
  intros P s.
  apply (@forgot_password_same_response P s "nobody@b.com" "A@B.com" "aa" "bb"
           3000 4000 Demo.alice).
  - discriminate.
  - discriminate.
  - reflexivity.
  - reflexivity.
Defined.

(** C1. On a stored, unexpired token row and a new password of eleven
    characters, the reset-password route answers 500, leaves the password
    hash as it was and leaves the token row in the table; so a second
    submission of the same secret meets the same live row and the same 500,
    not the invalid-or-expired answer. This holds on either backend. *)
Theorem reset_password_live_token_500 :
  forall postgres : bool,
    let P := Demo.platform postgres in
    let s := Demo.alice_with_token in
    let first := PasswordReset.reset_password (Some "s3cret") (Some "newpassword1") 4000 s in
    let second := PasswordReset.reset_password (Some "s3cret") (Some "newpassword1") 4500 (snd first) in
    fetch (SELECT_tokens_by_hash (sha256_hex "s3cret")) s
      = Some (mkToken "u1" "sha256:s3cret" 5000)
    /\ fst first = Normal (json_status 500 (failure "Failed to reset password"))
    /\ snd first = s
    /\ map u_password_hash (users (snd first)) = ["$2a$12$salt$longenough1"]
    /\ fst second = Normal (json_status 500 (failure "Failed to reset password")).
Proof.
  intros [|]; vm_compute; repeat split; reflexivity.
Qed.

(** *** The webhook handler *)


Section StripeFacts.
Context {P : Platform}.


Lemma fire_and_forget (m : mutation) (s : store) :
  bind (no_await (run (written m))) (fun _ => ret tt) s = (Normal tt, applied m s).
Proof.
  unfold bind, no_await, applied. rewrite run_written.
  destruct USE_POSTGRES; [reflexivity |].
  destruct (existsb is_undefined (parameters m)); [reflexivity |].
  destruct (execute m s); reflexivity.
Qed.

Lemma get_frame {A} (q : sql (selection A)) (s : store) : snd (get q s) = s.
Proof.
  unfold get, pgPool_query_get, sqliteDb_get.
  destruct USE_POSTGRES.
  - destruct (style q); reflexivity.
  - destruct (existsb _ _); reflexivity.
Qed.

Lemma handleCheckoutComplete_effect (session : stripe_object) (now : Z) (s : store) :
  Stripe.handleCheckoutComplete session now s =
  (Normal tt,
   if truthy (Stripe.metadata_userId session)
   then applied (UPDATE_users_checkout (customer session) now
                                       (Stripe.metadata_userId session)) s
   else s).
Proof.
  unfold Stripe.handleCheckoutComplete.
  destruct (truthy _); [apply fire_and_forget | reflexivity].
Qed.

Lemma handleSubscriptionUpdate_effect (subscription : stripe_object) (now : Z) (s : store) :
  Stripe.handleSubscriptionUpdate subscription now s =
  (Normal tt,
   if truthy (Stripe.metadata_userId subscription)
   then applied (UPDATE_users_subscription
                   (if (Stripe.is_text (status subscription) "active"
                        || Stripe.is_text (status subscription) "trialing")%bool
                    then VText "pro" else VText "free")
                   (if Stripe.is_text (status subscription) "active"
                    then VText "active" else status subscription)
                   now (Stripe.metadata_userId subscription)) s
   else s).
Proof.
  unfold Stripe.handleSubscriptionUpdate.
  destruct (truthy _); simpl; [apply fire_and_forget | reflexivity].
Qed.

(** Without a user reference the cancellation handler changes nothing: the
    row it means to update is selected by [user.id], read on a promise. *)
Lemma handleSubscriptionCanceled_effect (subscription : stripe_object) (now : Z) (s : store) :
  Stripe.handleSubscriptionCanceled subscription now s =
  (Normal tt,
   if truthy (Stripe.metadata_userId subscription)
   then applied (UPDATE_users_canceled now (Stripe.metadata_userId subscription)) s
   else s).
Proof.
  unfold Stripe.handleSubscriptionCanceled.
  destruct (truthy _); simpl; [apply fire_and_forget |].
  unfold bind at 1. unfold no_await at 1.
  pose proof (get_frame (written (SELECT_users_by_stripe_customer_id (customer subscription))) s)
    as Hframe.
  destruct (get _ s) as [r s']. simpl in Hframe. subst s'.
  unfold promise_truthy, promise_get.
  rewrite fire_and_forget. unfold applied. simpl.
  destruct USE_POSTGRES; reflexivity.
Qed.

Lemma handlePaymentFailed_effect (invoice : stripe_object) (s : store) :
  Stripe.handlePaymentFailed invoice s = (Normal tt, s).
Proof.
  unfold Stripe.handlePaymentFailed, bind, no_await.
  pose proof (get_frame (written (SELECT_users_by_stripe_customer_id (customer invoice))) s)
    as Hframe.
  destruct (get _ s) as [r s']. simpl in Hframe. subst s'. reflexivity.
Qed.

(** Updating the same rows twice with updates that agree up to the clock. *)
Lemma update_where_twice (p : user_row -> bool) (f1 f2 : user_row -> user_row)
      (l : list user_row) :
  (forall u, p (f1 u) = p u) ->
  (forall u, forget_clock_row (f2 (f1 u)) = forget_clock_row (f1 u)) ->
  map forget_clock_row (update_where p f2 (update_where p f1 l))
  = map forget_clock_row (update_where p f1 l).
Proof.
  intros Hp Hf. unfold update_where. rewrite !map_map.
  apply map_ext. intros u.
  destruct (p u) eqn:Hu.
  - rewrite Hp, Hu. apply Hf.
  - rewrite Hu. reflexivity.
Qed.


Lemma applied_twice (m1 m2 : mutation) (s : store) :
  same_update m1 m2 ->
  forget_clock (applied m2 (applied m1 s)) = forget_clock (applied m1 s).
Proof.
  unfold applied. destruct USE_POSTGRES; [reflexivity |].
  destruct m1, m2; simpl; try contradiction.
  - intros [-> ->].
    match goal with |- context [if ?b then _ else _] => destruct b end; [reflexivity |].
    unfold forget_clock, with_users. simpl. f_equal.
    apply update_where_twice; reflexivity.
  - intros (-> & -> & ->).
    match goal with |- context [if ?b then _ else _] => destruct b end; [reflexivity |].
    unfold forget_clock, with_users. simpl. f_equal.
    apply update_where_twice; reflexivity.
  - intros ->.
    match goal with |- context [if ?b then _ else _] => destruct b end; [reflexivity |].
    unfold forget_clock, with_users. simpl. f_equal.
    apply update_where_twice; reflexivity.
Qed.

Lemma find_forget_clock (uid : string) (l : list user_row) :
  find (fun u => String.eqb (u_id u) uid) (map forget_clock_row l)
  = option_map forget_clock_row (find (fun u => String.eqb (u_id u) uid) l).
Proof.
  induction l as [| u l IH]; simpl; [reflexivity |].
  destruct (String.eqb (u_id u) uid); [reflexivity | exact IH].
Qed.

Lemma subscription_state_forget_clock (uid : string) (s : store) :
  subscription_state uid (forget_clock s) = subscription_state uid s.
Proof.
  unfold subscription_state, forget_clock. simpl. rewrite find_forget_clock.
  destruct (find _ (users s)); reflexivity.
Qed.

End StripeFacts.

Section StripeClaims.
Context {P : Platform}.

(** C4. Applying the transition of a webhook event a second time changes
    nothing but the [updated_at] clock: for every user the tier and status
    after two applications are those after one, and the whole store agrees
    up to that clock. No transition counts or accumulates. *)
Theorem dispatch_twice_is_dispatch_once (event : stripe_event) (now1 now2 : Z) (s : store) :
  let once := snd (Stripe.dispatch now1 event s) in
  let twice := snd (Stripe.dispatch now2 event once) in
  (forall uid : string, subscription_state uid twice = subscription_state uid once)
  /\ forget_clock twice = forget_clock once.
Proof.
  intros once twice.
  assert (Hclock : forget_clock twice = forget_clock once).
  { subst once twice. unfold Stripe.dispatch.
    destruct (String.eqb (type event) "checkout.session.completed").
    { rewrite !handleCheckoutComplete_effect. simpl.
      destruct (truthy _); [apply applied_twice; simpl; auto | reflexivity]. }
    destruct (String.eqb (type event) "customer.subscription.created"
              || String.eqb (type event) "customer.subscription.updated")%bool.
    { rewrite !handleSubscriptionUpdate_effect. simpl.
      destruct (truthy _); [apply applied_twice; simpl; auto | reflexivity]. }
    destruct (String.eqb (type event) "customer.subscription.deleted").
    { rewrite !handleSubscriptionCanceled_effect. simpl.
      destruct (truthy _); [apply applied_twice; simpl; auto | reflexivity]. }
    destruct (String.eqb (type event) "invoice.payment_failed").
    { rewrite !handlePaymentFailed_effect. reflexivity. }
    reflexivity. }
  split; [| exact Hclock].
  intros uid.
  rewrite <- (subscription_state_forget_clock uid twice).
  rewrite <- (subscription_state_forget_clock uid once).
  rewrite Hclock. reflexivity.
Qed.

(** C3. A webhook request whose signature header does not verify against
    the endpoint secret and the raw body is answered 400, and the store
    after it is the store before it. The answer does not depend on the
    dispatch: whatever the [switch] would do to the store, it is not run.
    A signature computed over another body is one such request. *)
Theorem handleWebhook_rejects_bad_signature
        (switch : stripe_event -> M unit)
        (body : string) (header : option stripe_signature) (now : Z)
        (err : thrown) (s : store) :
  Stripe.verifyHeader body header STRIPE_WEBHOOK_SECRET now = Abrupt err ->
  Stripe.handleWebhook_around switch body header now s
    = (Normal (send_status 400 ("Webhook Error: " ++ message_text err)), s)
  /\ Stripe.handleWebhook body header now s
    = (Normal (send_status 400 ("Webhook Error: " ++ message_text err)), s).
Proof.
  intros Hsig.
  unfold Stripe.handleWebhook, Stripe.handleWebhook_around, Stripe.constructEvent.
  rewrite Hsig. split; reflexivity.
Qed.

(** A header signed for the body [other] does not verify for [body] unless
    the two bodies have the same HMAC. *)
Lemma verifyHeader_other_body (body other : string) (t now : Z) :
  stripe_hmac STRIPE_WEBHOOK_SECRET t other <> stripe_hmac STRIPE_WEBHOOK_SECRET t body ->
  Stripe.verifyHeader body
    (Some (mkSignature t [stripe_hmac STRIPE_WEBHOOK_SECRET t other]))
    STRIPE_WEBHOOK_SECRET now
  = Abrupt (ErrorObject "No signatures found matching the expected signature for payload.").
Proof.
  intros Hne. unfold Stripe.verifyHeader. simpl.
  assert (H : String.eqb (stripe_hmac STRIPE_WEBHOOK_SECRET t body)
                         (stripe_hmac STRIPE_WEBHOOK_SECRET t other) = false).
  { apply String.eqb_neq. intros Heq. apply Hne. symmetry. exact Heq. }
  rewrite H. reflexivity.
Qed.

(** On the embedded backend a subscription update carrying a user
    reference and a status sets tier and status of that user's row as the
    transition table says. *)
Lemma handleSubscriptionUpdate_sqlite
      (subscription : stripe_object) (uid S : string) (now : Z) (s : store) :
  USE_POSTGRES = false ->
  Stripe.metadata_userId subscription = VText uid ->
  uid <> "" ->
  status subscription = VText S ->
  Stripe.handleSubscriptionUpdate subscription now s =
  (Normal tt,
   with_users
     (update_where (fun u => String.eqb (u_id u) uid)
        (set_subscription
           (Some (if (String.eqb S "active" || String.eqb S "trialing")%bool
                  then "pro" else "free"))
           (Some S) now)
        (users s)) s).
Proof.
  intros Hbe Hid Hne HS. apply String.eqb_neq in Hne.
  rewrite handleSubscriptionUpdate_effect. rewrite Hid, HS. simpl. rewrite Hne. simpl.
  unfold applied. rewrite Hbe. simpl.
  destruct (String.eqb S "active") eqn:Hactive.
  - apply String.eqb_eq in Hactive. subst S. reflexivity.
  - destruct (String.eqb S "trialing"); reflexivity.
Qed.

End StripeClaims.

(** C3 at a concrete request: the header signs the body ["forged"], the
    delivered body is ["checkout.session.completed"]. *)
Lemma handleWebhook_rejects_bad_signature_witness :
  let P := Demo.platform false in
  let header := Some (mkSignature 3 ["whsec:forged"]) in
  let s := Demo.one_user Demo.alice_free in
  Stripe.handleWebhook "checkout.session.completed" header 3000 s
  = (Normal (send_status 400
       "Webhook Error: No signatures found matching the expected signature for payload."), s).
Proof.
  intros P header s.
  apply (@handleWebhook_rejects_bad_signature P (Stripe.dispatch 3000)
           "checkout.session.completed" header 3000
           (ErrorObject "No signatures found matching the expected signature for payload.") s).
  reflexivity.
Defined.

(** C5. On the PostgreSQL backend a subscription-updated event that
    carries the user reference ["u1"] and the status ["trialing"] leaves
    the row of ["u1"] at free/active: the statement is run with its [?]
    parameters, which that backend rejects. The transition table asks for
    pro/trialing, which is what the embedded backend stores. *)
Theorem handleSubscriptionUpdate_postgres_no_effect :
  let event := mkEvent "customer.subscription.updated"
                 (mkObject (Some (mkMetadata (Some "u1") None))
                           (VText "cus_1") (VText "trialing") None) in
  let s := Demo.one_user Demo.alice_free in
  Stripe.dispatch (P := Demo.platform true) 3000 event s = (Normal tt, s)
  /\ subscription_state "u1" (snd (Stripe.dispatch (P := Demo.platform true) 3000 event s))
     = Some (Some "free", Some "active")
  /\ subscription_state "u1" (snd (Stripe.dispatch (P := Demo.platform false) 3000 event s))
     = Some (Some "pro", Some "trialing").
Proof. vm_compute. repeat split; reflexivity. Qed.

(** C2. A subscription-deleted event without user reference, whose
    customer is the stored customer reference of ["u1"], leaves ["u1"] at
    pro/active on either backend: the row is looked up without [await], so
    the update is keyed by [undefined]. The same event with the user
    reference ["u1"] does set free/canceled on the embedded backend. *)
Theorem handleSubscriptionCanceled_by_customer_no_effect :
  forall postgres : bool,
    let P := Demo.platform postgres in
    let event := mkEvent "customer.subscription.deleted"
                   (mkObject (Some (mkMetadata None None))
                             (VText "cus_1") (VText "canceled") None) in
    let referenced := mkEvent "customer.subscription.deleted"
                        (mkObject (Some (mkMetadata (Some "u1") None))
                                  (VText "cus_1") (VText "canceled") None) in
    let s := Demo.one_user Demo.alice in
    fetch (SELECT_users_by_stripe_customer_id (VText "cus_1")) s = Some Demo.alice
    /\ Stripe.dispatch 3000 event s = (Normal tt, s)
    /\ subscription_state "u1" (snd (Stripe.dispatch 3000 event s))
       = Some (Some "pro", Some "active")
    /\ subscription_state "u1"
         (snd (Stripe.dispatch (P := Demo.platform false) 3000 referenced s))
       = Some (Some "free", Some "canceled").
Proof. intros [|]; vm_compute; repeat split; reflexivity. Qed.

(** *** Session credentials *)

Section CredentialClaims.
Context {P : Platform}.
Import Jwt.

Lemma verify_invalid (cause : invalid_cause) (token : jwt_string) (secret : string) (now : Z) :
  has_cause cause token secret now ->
  exists err, verify token secret now = Abrupt err.
Proof.
  unfold verify.
  destruct cause, token as [alg claims signature | text]; simpl; try contradiction; intros H.
  - apply String.eqb_neq in H. rewrite H. simpl.
    repeat match goal with
           | |- context [if ?b then _ else _] => destruct b
           end; eauto.
  - destruct (String.eqb text ""); eauto.
  - apply Z.leb_le in H. rewrite H.
    repeat match goal with
           | |- context [if ?b then _ else _] => destruct b
           end; eauto.
Qed.

Lemma verify_signed (uid em : string) (issued now : Z) (token : jwt_string) :
  sign uid em JWT_SECRET issued = Normal token ->
  now / 1000 < issued / 1000 + seven_days ->
  verify token JWT_SECRET now
  = Normal (mkClaims uid em (issued / 1000) (issued / 1000 + seven_days)).
Proof.
  unfold sign. destruct (String.eqb JWT_SECRET "") eqn:Hsecret; [discriminate |].
  intros Htoken Hlive. injection Htoken as <-.
  unfold verify. rewrite Hsecret. simpl.
  destruct (String.eqb (jws_sign "HS256" JWT_SECRET _) "") eqn:Hsig.
  { apply String.eqb_eq in Hsig. apply jws_sign_nonempty in Hsig. contradiction. }
  simpl. rewrite String.eqb_refl. simpl.
  apply Z.leb_gt in Hlive. rewrite Hlive. reflexivity.
Qed.

(** C6. With a signing secret configured, issuing a credential for
    [(uid, em)] succeeds, and presenting it while fewer than seven days of
    seconds have passed lets the request through with exactly [uid] and
    [em]. A non-empty token that is tampered with, malformed or expired is
    answered by one and the same response, the 403 with the message
    "Invalid or expired token", whatever the cause. *)
Theorem credential_roundtrip_and_single_invalid
        (uid em : string) (issued now : Z) (scheme : jwt_string) :
  JWT_SECRET <> "" ->
  (exists token,
      sign uid em JWT_SECRET issued = Normal token
      /\ (now / 1000 < issued / 1000 + seven_days ->
          Auth.authenticateToken (Some [scheme; token]) now = Auth.Next uid em))
  /\ (forall (token : jwt_string) (cause : invalid_cause),
         is_empty token = false ->
         has_cause cause token JWT_SECRET now ->
         Auth.authenticateToken (Some [scheme; token]) now
         = Auth.Rejected (json_status 403 (failure "Invalid or expired token"))).
Proof.
  intros Hsecret. split.
  - destruct (sign uid em JWT_SECRET issued) as [token | e] eqn:Hsign.
    + exists token. split; [reflexivity |]. intros Hlive.
      unfold Auth.authenticateToken. simpl.
      assert (Hne : is_empty token = false).
      { unfold sign in Hsign. destruct (String.eqb JWT_SECRET ""); [discriminate |].
        injection Hsign as <-. reflexivity. }
      rewrite Hne. rewrite (verify_signed uid em issued now token Hsign Hlive).
      reflexivity.
    + unfold sign in Hsign. apply String.eqb_neq in Hsecret.
      rewrite Hsecret in Hsign. discriminate.
  - intros token cause Hne Hcause.
    unfold Auth.authenticateToken. simpl. rewrite Hne.
    destruct (verify_invalid cause token JWT_SECRET now Hcause) as [err ->].
    reflexivity.
Qed.

End CredentialClaims.

(** C6 at concrete data: a credential for ["u1"] issued at 1000 ms and
    presented six days later; the same credential one second after its
    window; a credential with a forged signature; and a string that is no
    token. *)
Lemma credential_roundtrip_and_single_invalid_witness :
  let P := Demo.platform false in
  let claims := mkClaims "u1" "a@b.com" 1 604801 in
  let token := Jwt.Compact "HS256" claims "HS256:jwt-secret:u1:a@b.com" in
  let bearer := Jwt.Other "Bearer" in
  let invalid := Auth.Rejected (json_status 403 (failure "Invalid or expired token")) in
  Jwt.sign "u1" "a@b.com" JWT_SECRET 1000 = Normal token
  /\ Auth.authenticateToken (Some [bearer; token]) 518400000 = Auth.Next "u1" "a@b.com"
  /\ Auth.authenticateToken (Some [bearer; token]) 604801000 = invalid
  /\ Auth.authenticateToken (Some [bearer; Jwt.Compact "HS256" claims "forged"]) 518400000
     = invalid
  /\ Auth.authenticateToken (Some [bearer; Jwt.Other "not.a.token"]) 518400000 = invalid.
Proof.
  intros P claims token bearer invalid.
  assert (Hsecret : JWT_SECRET <> "") by discriminate.
  destruct (@credential_roundtrip_and_single_invalid P "u1" "a@b.com" 1000 518400000
              bearer Hsecret) as [[token' [Hsign Hlive]] Hbad].
  destruct (@credential_roundtrip_and_single_invalid P "u1" "a@b.com" 1000 604801000
              bearer Hsecret) as [_ Hlate].
  assert (Htoken : token' = token).
  { vm_compute in Hsign. injection Hsign as <-. reflexivity. }
  subst token'.
  split; [exact Hsign |].
  split; [apply Hlive; vm_compute; reflexivity |].
  split; [apply (Hlate token Jwt.Expired); [reflexivity | vm_compute; discriminate] |].
  split.
  - apply (Hbad (Jwt.Compact "HS256" claims "forged") Jwt.Tampered);
      [reflexivity | vm_compute; discriminate].
  - apply (Hbad (Jwt.Other "not.a.token") Jwt.Malformed); [reflexivity | exact I].
Defined.

(** *** Signup *)

Section SignupFacts.
Context {P : Platform}.


Lemma all_plain_spaceless (s : string) : all_plain s = true -> spaceless s = true.
Proof.
  induction s as [| c t IH]; simpl; [reflexivity |].
  unfold plain. intros H.
  apply andb_true_iff in H. destruct H as [Hc Ht].
  apply andb_true_iff in Hc. destruct Hc as [Hc _].
  rewrite Hc. simpl. apply IH. exact Ht.
Qed.

Lemma local_then_domain_spaceless (seen : bool) (s : string) :
  local_then_domain seen s = true -> spaceless s = true.
Proof.
  revert seen. induction s as [| c t IH]; intros seen; simpl; [reflexivity |].
  destruct (Ascii.eqb c "@") eqn:Hat.
  - apply Ascii.eqb_eq in Hat. subst c. intros H.
    apply andb_true_iff in H. destruct H as [_ Hd].
    change (is_space "@") with false. simpl.
    apply all_plain_spaceless.
    destruct t as [| d t']; simpl in Hd; [discriminate |].
    apply andb_true_iff in Hd. destruct Hd as [Hd _]. exact Hd.
  - destruct (is_space c); [discriminate |]. simpl. apply IH.
Qed.

Lemma trimStart_spaceless (s : string) : spaceless s = true -> trimStart s = s.
Proof.
  destruct s as [| c t]; simpl; [reflexivity |].
  destruct (is_space c); [discriminate | reflexivity].
Qed.

Lemma trimEnd_spaceless (s : string) : spaceless s = true -> trimEnd s = s.
Proof.
  induction s as [| c t IH]; simpl; [reflexivity |].
  destruct (is_space c) eqn:Hc; [discriminate |]. simpl. intros Ht.
  rewrite (IH Ht). destruct t; reflexivity.
Qed.

(** An address the pattern accepts has no white space to trim; so an
    address with surrounding white space is one the pattern rejects. *)
Lemma emailRegex_test_trimmed (email : string) :
  emailRegex_test email = true -> trim email = email.
Proof.
  intros H. apply local_then_domain_spaceless in H.
  unfold trim. rewrite (trimStart_spaceless _ H). apply trimEnd_spaceless. exact H.
Qed.

Lemma emailRegex_test_nonempty (email : string) :
  emailRegex_test email = true -> String.eqb email "" = false.
Proof. destruct email; [discriminate | reflexivity]. Qed.

(** [User.create] for an address some row already has: the uniqueness
    violation of the store comes back as "Email already exists", and no
    row is added. *)
Lemma create_duplicate (s : store) (u : user_row) (email password : string)
      (name : value) (salt uuid : string) (now : Z) :
  In u (users s) ->
  trim (toLowerCase email) = u_email u ->
  USE_POSTGRES = true \/ name <> VUndefined ->
  User.create email password name salt uuid now s
  = (Abrupt (ErrorObject "Email already exists"), s).
Proof.
  intros Hin Hemail Hname.
  assert (Hdup : existsb (fun r => String.eqb (u_email r) (trim (toLowerCase email)))
                         (users s) = true).
  { apply existsb_exists. exists u. split; [exact Hin |].
    rewrite Hemail. apply String.eqb_refl. }
  unfold User.create, try_catch, bind.
  rewrite query_written.
  2:{ destruct Hname as [Hpg | Hname]; [left; exact Hpg | right].
      simpl. destruct name; try reflexivity. contradiction. }
  unfold execute.
  destruct (existsb (fun r => String.eqb (u_id r) uuid) (users s));
    [| rewrite Hdup]; unfold unique_violation; destruct USE_POSTGRES; reflexivity.
Qed.

End SignupFacts.

Section SignupClaims.
Context {P : Platform}.

(** C9, as the code has it. Take an existing user and a signup request
    with a password of at least 8 characters whose address, lower-cased
    and trimmed, is that user's address (and whose [name] the backend can
    bind). If the address passes the format check, which an address that
    differs by case only does, the store's uniqueness violation is
    translated to "Email already exists" and the request is answered 409
    with the duplicate-email message. If the address carries surrounding
    white space, the format check rejects it first and the request is
    answered 400. Either way the store is left as it was: no second row. *)
Theorem signup_duplicate_email
        (s : store) (u : user_row) (email password : string) (name : value)
        (salt uuid : string) (now : Z) :
  In u (users s) ->
  trim (toLowerCase email) = u_email u ->
  (8 <= String.length password)%nat ->
  USE_POSTGRES = true \/ name <> VUndefined ->
  (emailRegex_test email = true ->
     User.create email password name salt uuid now s
       = (Abrupt (ErrorObject "Email already exists"), s)
     /\ Auth.signup (Some email) (Some password) name salt uuid now s
       = (Normal (json_status 409 (failure "An account with this email already exists")), s))
  /\ (trim email <> email ->
     Auth.signup (Some email) (Some password) name salt uuid now s
       = (Normal (json_status 400 (failure "Please enter a valid email address")), s)).
Proof.
  intros Hin Hemail Hlen Hname.
  assert (Hpw : String.eqb password "" = false).
  { apply String.eqb_neq. intros ->. simpl in Hlen. lia. }
  assert (Hshort : (String.length password <? 8)%nat = false)
    by (apply Nat.ltb_ge; exact Hlen).
  split.
  - intros Hregex.
    pose proof (create_duplicate s u email password name salt uuid now Hin Hemail Hname)
      as Hcreate.
    split; [exact Hcreate |].
    unfold Auth.signup, try_catch.
    rewrite (emailRegex_test_nonempty email Hregex), Hpw, Hregex, Hshort. simpl.
    unfold bind at 1. rewrite Hcreate. reflexivity.
  - intros Htrim.
    assert (Hregex : emailRegex_test email = false).
    { destruct (emailRegex_test email) eqn:H; [| reflexivity].
      apply emailRegex_test_trimmed in H. contradiction. }
    assert (Hne : String.eqb email "" = false).
    { apply String.eqb_neq. intros ->. apply Htrim. reflexivity. }
    unfold Auth.signup, try_catch.
    rewrite Hne, Hpw, Hregex. reflexivity.
Qed.

End SignupClaims.

(** C9 at concrete requests against the store holding ["a@b.com"]: the
    address ["A@B.com"] is answered 409, the address [" a@b.com"] 400. *)
Lemma signup_duplicate_email_witness :
  let P := Demo.platform false in
  let s := Demo.one_user Demo.alice in
  Auth.signup (Some "A@B.com") (Some "longenough1") (VText "Al") "salt" "u2" 3000 s
    = (Normal (json_status 409 (failure "An account with this email already exists")), s)
  /\ Auth.signup (Some " a@b.com") (Some "longenough1") (VText "Al") "salt" "u2" 3000 s
    = (Normal (json_status 400 (failure "Please enter a valid email address")), s).
Proof.
  intros P s. split.
  - apply (@signup_duplicate_email P s Demo.alice "A@B.com" "longenough1" (VText "Al")
             "salt" "u2" 3000).
    + simpl. left. reflexivity.
    + reflexivity.
    + simpl. lia.
    + right. discriminate.
    + reflexivity.
  - apply (@signup_duplicate_email P s Demo.alice " a@b.com" "longenough1" (VText "Al")
             "salt" "u2" 3000).
    + simpl. left. reflexivity.
    + reflexivity.
    + simpl. lia.
    + right. discriminate.
    + discriminate.
Defined.

(** C9 as stated does not hold: the request for [" a@b.com"], which equals
    the stored ["a@b.com"] up to surrounding white space, is not answered
    with the duplicate-email 409. *)
Lemma signup_surrounding_whitespace_not_409 :
  ~ (forall (P : Platform) (s : store) (u : user_row) (email password : string)
            (name : value) (salt uuid : string) (now : Z),
        In u (users s) ->
        trim (toLowerCase email) = u_email u ->
        (8 <= String.length password)%nat ->
        fst (Auth.signup (Some email) (Some password) name salt uuid now s)
        = Normal (json_status 409 (failure "An account with this email already exists"))).
Proof.
  intros H.
  specialize (H (Demo.platform false) (Demo.one_user Demo.alice) Demo.alice
                " a@b.com" "longenough1" (VText "Alice") "salt" "u2" 3000).
  assert (Hin : In Demo.alice (users (Demo.one_user Demo.alice))) by (left; reflexivity).
  assert (Hlen : (8 <= String.length "longenough1")%nat) by (simpl; lia).
  specialize (H Hin eq_refl Hlen).
  vm_compute in H. discriminate H.
Qed.

(** *** What a computation maintains, and the reset-token table *)

Section Preservation.
Context {P : Platform}.
Variable I : store -> Prop.

Lemma preserves_ret {A} (a : A) : preserves I (ret a).
Proof. intros s H. exact H. Qed.

Lemma preserves_throw {A} (e : thrown) : preserves I (@throw A e).
Proof. intros s H. exact H. Qed.

Lemma preserves_await {A} (p : promise A) : preserves I (await p).
Proof. intros s H. exact H. Qed.

Lemma preserves_bind {A B} (c : M A) (k : A -> M B) :
  preserves I c -> (forall a, preserves I (k a)) -> preserves I (bind c k).
Proof.
  intros Hc Hk s H. unfold bind. specialize (Hc s H).
  destruct (c s) as [[a | e] s']; simpl in *; [apply Hk; exact Hc | exact Hc].
Qed.

Lemma preserves_try_catch {A} (c : M A) (h : thrown -> M A) :
  preserves I c -> (forall e, preserves I (h e)) -> preserves I (try_catch c h).
Proof.
  intros Hc Hh s H. unfold try_catch. specialize (Hc s H).
  destruct (c s) as [[a | e] s']; simpl in *; [exact Hc | apply Hh; exact Hc].
Qed.

Lemma preserves_no_await {A} (c : M A) : preserves I c -> preserves I (no_await c).
Proof.
  intros Hc s H. unfold no_await. specialize (Hc s H).
  destruct (c s) as [r s']. exact Hc.
Qed.

Lemma preserves_get {A} (q : sql (selection A)) : preserves I (get q).
Proof. intros s H. rewrite get_frame. exact H. Qed.

Lemma preserves_getOne {A} (q : sql (selection A)) : preserves I (getOne q).
Proof. unfold getOne. apply preserves_get. Qed.

End Preservation.

Section ResetTokenTable.
Context {P : Platform}.

Lemma owners_update_where (p : token_row -> bool) (h : string) (e : Z) (l : list token_row) :
  map t_user_id (update_where p (set_token h e) l) = map t_user_id l.
Proof.
  unfold update_where. rewrite map_map. apply map_ext.
  intros r. destruct (p r); reflexivity.
Qed.

Lemma owners_delete_where (p : token_row -> bool) (l : list token_row) :
  NoDup (map t_user_id l) -> NoDup (map t_user_id (delete_where p l)).
Proof.
  unfold delete_where. induction l as [| r l IH]; simpl; intros H; [exact H |].
  inversion H as [| k ks Hnotin Hrest]; subst.
  destruct (negb (p r)); simpl; [| apply IH; exact Hrest].
  constructor; [| apply IH; exact Hrest].
  intros Hin. apply Hnotin.
  apply in_map_iff in Hin. destruct Hin as [x [Hx Hin]].
  apply filter_In in Hin. destruct Hin as [Hin _].
  apply in_map_iff. exists x. split; assumption.
Qed.

Lemma owners_append (uid h : string) (e : Z) (l : list token_row) :
  existsb (fun r => String.eqb (t_user_id r) uid) l = false ->
  NoDup (map t_user_id l) ->
  NoDup (map t_user_id (l ++ [mkToken uid h e])).
Proof.
  intros Hfresh Hl. rewrite map_app. simpl.
  apply NoDup_app; [exact Hl | constructor; [intros [] | constructor] |].
  intros k Hk [Heq | []]. subst k.
  apply in_map_iff in Hk. destruct Hk as [r [Hr Hin]].
  assert (Hex : existsb (fun r => String.eqb (t_user_id r) uid) l = true).
  { apply existsb_exists. exists r. split; [exact Hin |].
    rewrite Hr. apply String.eqb_refl. }
  rewrite Hex in Hfresh. discriminate.
Qed.

(** Every statement of the program keeps the owners distinct. *)
Lemma execute_distinct_owners (m : mutation) : preserves distinct_owners (execute m).
Proof.
  intros s H. unfold distinct_owners in *.
  destruct m; simpl; try exact H.
  - destruct (existsb _ (users s)); [exact H |].
    destruct (existsb _ (users s)); exact H.
  - destruct (existsb _ (password_reset_tokens s)) eqn:Hex; simpl.
    + rewrite owners_update_where. exact H.
    + apply owners_append; assumption.
  - apply owners_delete_where. exact H.
  - apply owners_delete_where. exact H.
Qed.

(** With distinct owners a user has at most one row. *)
Lemma distinct_owners_at_most_one (uid : string) (l : list token_row) :
  NoDup (map t_user_id l) ->
  (length (filter (fun r => String.eqb (t_user_id r) uid) l) <= 1)%nat.
Proof.
  induction l as [| r l IH]; simpl; intros H; [lia |].
  inversion H as [| k ks Hnotin Hrest]; subst.
  specialize (IH Hrest).
  destruct (String.eqb (t_user_id r) uid) eqn:Hr; [| exact IH].
  apply String.eqb_eq in Hr. simpl.
  destruct (filter _ l) as [| x xs] eqn:Hf; [simpl; lia |].
  exfalso. apply Hnotin.
  assert (Hx : In x (filter (fun r => String.eqb (t_user_id r) uid) l))
    by (rewrite Hf; left; reflexivity).
  apply filter_In in Hx. destruct Hx as [Hin Hxk].
  apply String.eqb_eq in Hxk.
  apply in_map_iff. exists x. split; [congruence | exact Hin].
Qed.


Lemma upserted_in (uid h : string) (e : Z) (l : list token_row) :
  In (mkToken uid h e) (upserted uid h e l).
Proof.
  unfold upserted. destruct (existsb _ l) eqn:Hex.
  - apply existsb_exists in Hex. destruct Hex as [r [Hin Hr]].
    unfold update_where. apply in_map_iff. exists r. split; [| exact Hin].
    rewrite Hr. apply String.eqb_eq in Hr. unfold set_token. rewrite Hr. reflexivity.
  - apply in_or_app. right. left. reflexivity.
Qed.

Lemma upserted_inv (uid h : string) (e : Z) (l : list token_row) (r : token_row) :
  In r (upserted uid h e l) ->
  r = mkToken uid h e \/ (In r l /\ t_user_id r <> uid).
Proof.
  unfold upserted. destruct (existsb _ l) eqn:Hex.
  - unfold update_where. intros Hin.
    apply in_map_iff in Hin. destruct Hin as [x [Hx Hin]].
    destruct (String.eqb (t_user_id x) uid) eqn:Hxu.
    + left. apply String.eqb_eq in Hxu. subst r. unfold set_token. rewrite Hxu.
      reflexivity.
    + right. subst r. split; [exact Hin |]. apply String.eqb_neq. exact Hxu.
  - intros Hin. apply in_app_or in Hin. destruct Hin as [Hin | [Heq | []]].
    + right. split; [exact Hin |]. intros Hu.
      assert (Hex' : existsb (fun r => String.eqb (t_user_id r) uid) l = true).
      { apply existsb_exists. exists r. split; [exact Hin |].
        rewrite Hu. apply String.eqb_refl. }
      rewrite Hex' in Hex. discriminate.
    + left. symmetry. exact Heq.
Qed.

Lemma upserted_distinct (uid h : string) (e : Z) (l : list token_row) :
  NoDup (map t_user_id l) -> NoDup (map t_user_id (upserted uid h e l)).
Proof.
  intros H. unfold upserted. destruct (existsb _ l) eqn:Hex.
  - rewrite owners_update_where. exact H.
  - apply owners_append; assumption.
Qed.

(** After the upsert the user owns exactly the upserted row. *)
Lemma upserted_rows (uid h : string) (e : Z) (l : list token_row) :
  NoDup (map t_user_id l) ->
  filter (fun r => String.eqb (t_user_id r) uid) (upserted uid h e l) = [mkToken uid h e].
Proof.
  intros H.
  pose proof (distinct_owners_at_most_one uid _ (upserted_distinct uid h e l H)) as Hlen.
  assert (Hin : In (mkToken uid h e)
                   (filter (fun r => String.eqb (t_user_id r) uid) (upserted uid h e l))).
  { apply filter_In. split; [apply upserted_in | apply String.eqb_refl]. }
  destruct (filter _ (upserted uid h e l)) as [| x [| y ys]]; simpl in *.
  - contradiction.
  - destruct Hin as [-> | []]. reflexivity.
  - lia.
Qed.

(** A forgot-password request for the address of the user [u]. *)
Lemma forgot_password_found (email secret : string) (now : Z) (s : store) (u : user_row) :
  email <> "" ->
  fetch (SELECT_users_by_email (trim (toLowerCase email))) s = Some u ->
  PasswordReset.forgot_password (Some email) secret now s
  = (Normal (json_ok PasswordReset.reset_link_sent),
     with_tokens (upserted (u_id u) (sha256_hex secret)
                           (now + PasswordReset.TOKEN_EXPIRATION_MS)
                           (password_reset_tokens s)) s).
Proof.
  intros Hne Hu. apply String.eqb_neq in Hne.
  unfold PasswordReset.forgot_password, try_catch, bind.
  rewrite Hne. rewrite findByEmail_fetch. rewrite Hu.
  rewrite query_written by (right; reflexivity).
  unfold execute, upserted.
  destruct (existsb _ (password_reset_tokens s)); reflexivity.
Qed.

End ResetTokenTable.

(* ================================================================== *)
(** ** Further properties of the code *)
(* ================================================================== *)

(** *** Placeholder conversion *)

Section PlaceholderFacts.
Context {P : Platform}.
Import Placeholders.

Lemma append_assoc (a b c : string) : ((a ++ b) ++ c = a ++ (b ++ c))%string.
Proof. induction a as [| d a IH]; simpl; [reflexivity | rewrite IH; reflexivity]. Qed.

Lemma occurrences_app (c : ascii) (a b : string) :
  occurrences c (a ++ b) = (occurrences c a + occurrences c b)%nat.
Proof.
  induction a as [| d a IH]; simpl; [reflexivity |].
  rewrite IH. lia.
Qed.

(** A decimal numeral holds digits only. *)
Lemma digits_only (c : ascii) (d : Decimal.uint) :
  (nat_of_ascii c < 48 \/ 57 < nat_of_ascii c)%nat ->
  occurrences c (NilEmpty.string_of_uint d) = 0%nat.
Proof.
  intros Hc.
  induction d; cbn [NilEmpty.string_of_uint occurrences]; try reflexivity; rewrite IHd;
    match goal with
    | |- ((if Ascii.eqb ?x c then _ else _) + 0)%nat = 0%nat =>
        destruct (Ascii.eqb x c) eqn:E; [| reflexivity];
        apply Ascii.eqb_eq in E; subst c; exfalso;
        destruct Hc as [Hc | Hc]; vm_compute in Hc; lia
    end.
Qed.

Lemma decimal_digits_only (c : ascii) (n : nat) :
  (nat_of_ascii c < 48 \/ 57 < nat_of_ascii c)%nat ->
  occurrences c (decimal n) = 0%nat.
Proof.
  intros Hc. unfold decimal, NilZero.string_of_uint.
  destruct (Nat.to_uint n) eqn:E; try (rewrite <- E; apply digits_only; exact Hc).
  cbn [occurrences]. destruct (Ascii.eqb "0" c) eqn:E0; [| reflexivity].
  apply Ascii.eqb_eq in E0. subst c. exfalso.
  destruct Hc as [Hc | Hc]; vm_compute in Hc; lia.
Qed.

Lemma number_from_no_question_mark (index : nat) (sql : string) :
  occurrences "?" (number_from index sql) = 0%nat.
Proof.
  revert index. induction sql as [| c rest IH]; intros index; simpl; [reflexivity |].
  destruct (Ascii.eqb c "?") eqn:Hc.
  - simpl. rewrite occurrences_app, IH.
    rewrite decimal_digits_only by (vm_compute; lia). reflexivity.
  - simpl. rewrite Hc. apply IH.
Qed.

Lemma number_from_dollars (index : nat) (sql : string) :
  occurrences "$" (number_from index sql)
  = (occurrences "$" sql + occurrences "?" sql)%nat.
Proof.
  revert index. induction sql as [| c rest IH]; intros index; simpl; [reflexivity |].
  destruct (Ascii.eqb c "?") eqn:Hc.
  - apply Ascii.eqb_eq in Hc. subst c. simpl.
    rewrite occurrences_app, IH.
    rewrite decimal_digits_only by (vm_compute; lia). lia.
  - simpl. rewrite IH. lia.
Qed.

Lemma number_from_plain (index : nat) (sql : string) :
  occurrences "?" sql = 0%nat -> number_from index sql = sql.
Proof.
  induction sql as [| c rest IH]; simpl; [reflexivity |].
  destruct (Ascii.eqb c "?"); [discriminate |].
  simpl. intros H. rewrite IH by exact H. reflexivity.
Qed.

Lemma number_from_app (index : nat) (a b : string) :
  number_from index (a ++ b)
  = number_from index a ++ number_from (index + occurrences "?" a) b.
Proof.
  revert index. induction a as [| c a IH]; intros index; simpl.
  - rewrite Nat.add_0_r. reflexivity.
  - destruct (Ascii.eqb c "?") eqn:Hc.
    + rewrite IH.
      replace (index + (1 + occurrences "?" a))%nat
        with (S index + occurrences "?" a)%nat by lia.
      change ("$" ++ decimal (S index)
                  ++ number_from (S index) a
                  ++ number_from (S index + occurrences "?" a) b
              = ("$" ++ decimal (S index) ++ number_from (S index) a)
                  ++ number_from (S index + occurrences "?" a) b)%string.
      rewrite !append_assoc. reflexivity.
    + rewrite IH. reflexivity.
Qed.

End PlaceholderFacts.

Section PlaceholderProperties.
Context {P : Platform}.
Import Placeholders.

(** X1. On PostgreSQL the converted text of a statement holds no ["?"] any
    more, and it holds one more ["$"] for each ["?"] of the original. *)
Theorem convertPlaceholders_leaves_no_question_mark (sql : string) :
  USE_POSTGRES = true ->
  occurrences "?" (convertPlaceholders sql) = 0%nat
  /\ occurrences "$" (convertPlaceholders sql)
     = (occurrences "$" sql + occurrences "?" sql)%nat.
Proof.
  intros Hpg. unfold convertPlaceholders. rewrite Hpg.
  split; [apply number_from_no_question_mark | apply number_from_dollars].
Qed.

(** X2. On PostgreSQL the placeholders are numbered from 1 in the order
    they occur: the ["?"] that follows a text [before] becomes ["$n"] where
    [n] is one more than the number of ["?"] in [before], the conversion
    of [before] itself is not affected by what follows, and the numbering
    goes on from [n] in the text that follows. *)
Theorem convertPlaceholders_numbers_in_order (before after : string) :
  USE_POSTGRES = true ->
  convertPlaceholders (before ++ "?" ++ after)
  = convertPlaceholders before
    ++ "$" ++ decimal (occurrences "?" before + 1)
    ++ number_from (occurrences "?" before + 1) after.
Proof.
  intros Hpg. unfold convertPlaceholders. rewrite Hpg.
  rewrite number_from_app. simpl.
  replace (S (occurrences "?" before)) with (occurrences "?" before + 1)%nat by lia.
  reflexivity.
Qed.

(** X3. A statement text without ["?"] is handed to the driver as it is
    written, whichever backend is active. *)
Theorem convertPlaceholders_plain_text (sql : string) :
  occurrences "?" sql = 0%nat ->
  convertPlaceholders sql = sql.
Proof.
  intros H. unfold convertPlaceholders.
  destruct USE_POSTGRES; [apply number_from_plain; exact H | reflexivity].
Qed.

End PlaceholderProperties.

Lemma convertPlaceholders_leaves_no_question_mark_witness :
  let P := Demo.platform true in
  let sql := "UPDATE users SET last_login = ? WHERE id = ?" in
  Placeholders.occurrences "?" (Placeholders.convertPlaceholders sql) = 0%nat
  /\ Placeholders.occurrences "$" (Placeholders.convertPlaceholders sql) = 2%nat.
Proof.
  intros P sql.
  exact (@convertPlaceholders_leaves_no_question_mark P sql eq_refl).
Defined.

Lemma convertPlaceholders_numbers_in_order_witness :
  let P := Demo.platform true in
  Placeholders.convertPlaceholders
    ("UPDATE users SET phone = ?, updated_at = " ++ "?" ++ " WHERE id = ?")
  = "UPDATE users SET phone = $1, updated_at = $2 WHERE id = $3".
Proof.
  intros P.
  exact (@convertPlaceholders_numbers_in_order P
           "UPDATE users SET phone = ?, updated_at = " " WHERE id = ?" eq_refl).
Defined.

Lemma convertPlaceholders_plain_text_witness :
  let P := Demo.platform true in
  Placeholders.convertPlaceholders "SELECT 1 as test" = "SELECT 1 as test".
Proof.
  intros P.
  exact (@convertPlaceholders_plain_text P "SELECT 1 as test" eq_refl).
Defined.

(** *** Password reset: issue, probe, consume *)

Section PasswordResetProperties.
Context {P : Platform}.

Lemma find_upserted (uid h : string) (e : Z) (l : list token_row) :
  (forall r, In r l -> t_user_id r <> uid -> t_token_hash r <> h) ->
  find (fun r => String.eqb (t_token_hash r) h) (upserted uid h e l)
  = Some (mkToken uid h e).
Proof.
  intros Hfresh.
  destruct (find _ (upserted uid h e l)) as [r |] eqn:Hfind.
  - apply find_some in Hfind. destruct Hfind as [Hin Hr].
    apply String.eqb_eq in Hr.
    apply upserted_inv in Hin. destruct Hin as [-> | [Hin Hother]]; [reflexivity |].
    exfalso. apply (Hfresh r Hin Hother Hr).
  - exfalso.
    pose proof (find_none _ _ Hfind (mkToken uid h e) (upserted_in uid h e l)) as Hn.
    simpl in Hn. rewrite String.eqb_refl in Hn. discriminate.
Qed.

(** X4. Issue and probe go together, on the embedded backend: after a
    forgot-password request for the address of a user, with a secret whose
    hash no other user's row carries, the probe for that secret answers
    [valid: true] at every instant up to and including one hour after the
    request, and [valid: false] at every later instant. The statement is
    for the embedded backend only, where [expires_at] is a text column that
    gives back the ISO text written; on PostgreSQL the column is a
    TIMESTAMP without zone, which the driver reads back in the zone of the
    process, so that the hour holds there only for a process in UTC. *)
Theorem forgot_password_then_probe
        (s : store) (email secret : string) (now later : Z) (u : user_row) :
  USE_POSTGRES = false ->
  email <> "" ->
  secret <> "" ->
  fetch (SELECT_users_by_email (trim (toLowerCase email))) s = Some u ->
  (forall r, In r (password_reset_tokens s) ->
             t_user_id r <> u_id u -> t_token_hash r <> sha256_hex secret) ->
  fst (PasswordReset.verify_reset_token (Some secret) later
         (snd (PasswordReset.forgot_password (Some email) secret now s)))
  = Normal (json_ok (PasswordReset.probe (later <=? now + 60 * 60 * 1000))).
Proof.
  intros _ Hemail Hsecret Hu Hfresh.
  rewrite (forgot_password_found email secret now s u Hemail Hu).
  rewrite (verify_reset_token_answer secret later _ Hsecret).
  cbn [snd fetch password_reset_tokens with_tokens].
  rewrite (find_upserted _ _ _ _ Hfresh). cbn [t_expires_at].
  unfold PasswordReset.TOKEN_EXPIRATION_MS.
  destruct (now + 60 * 60 * 1000 <? later) eqn:Hlt.
  - apply Z.ltb_lt in Hlt.
    assert (H : (later <=? now + 60 * 60 * 1000) = false) by (apply Z.leb_gt; lia).
    rewrite H. reflexivity.
  - apply Z.ltb_ge in Hlt.
    assert (H : (later <=? now + 60 * 60 * 1000) = true) by (apply Z.leb_le; lia).
    rewrite H. reflexivity.
Qed.

(** X5. A new password shorter than 8 characters is refused with a 400
    before the store is read: whatever the token, the store is left as it
    is, so even an expired row of that token is not cleaned up. *)
Theorem reset_password_short_password
        (token : option string) (password : string) (now : Z) (s : store) :
  (String.length password < 8)%nat ->
  exists error,
    PasswordReset.reset_password token (Some password) now s
    = (Normal (json_status 400 (failure error)), s).
Proof.
  intros Hshort. apply Nat.ltb_lt in Hshort.
  unfold PasswordReset.reset_password, try_catch.
  destruct token as [token |]; [| eexists; reflexivity].
  destruct (String.eqb token "" || String.eqb password "")%bool; [eexists; reflexivity |].
  rewrite Hshort. eexists. reflexivity.
Qed.

(** X6. The reset-password route only ever deletes token rows: whatever
    the request, the users and the feature tables after it are those
    before it, and every token row after it was there before. *)
Theorem reset_password_only_deletes
        (token password : option string) (now : Z) (s : store) :
  let s' := snd (PasswordReset.reset_password token password now s) in
  users s' = users s
  /\ incl (password_reset_tokens s') (password_reset_tokens s)
  /\ phone_verification_attempts s' = phone_verification_attempts s
  /\ user_watchlist s' = user_watchlist s
  /\ user_alerts s' = user_alerts s
  /\ sessions s' = sessions s.
Proof.
  assert (Hsame : forall t : store,
            users t = users t /\ incl (password_reset_tokens t) (password_reset_tokens t)
            /\ phone_verification_attempts t = phone_verification_attempts t
            /\ user_watchlist t = user_watchlist t
            /\ user_alerts t = user_alerts t /\ sessions t = sessions t).
  { intros t. repeat split. apply incl_refl. }
  unfold PasswordReset.reset_password, try_catch, bind.
  destruct token as [token |]; [| apply Hsame].
  destruct password as [password |]; [| apply Hsame].
  destruct (String.eqb token "" || String.eqb password "")%bool; [apply Hsame |].
  destruct (String.length password <? 8)%nat; [apply Hsame |].
  rewrite getOne_written by reflexivity.
  destruct (fetch _ s) as [r |]; [| apply Hsame].
  destruct (t_expires_at r <? now); [| apply Hsame].
  rewrite query_written by (right; reflexivity).
  cbn. repeat split.
  unfold delete_where. intros x Hx. apply filter_In in Hx. apply Hx.
Qed.

(** X7. A forgot-password request for the address of a user writes that
    user's token row and nothing else: the users and the feature tables
    stay as they are, and so do the token rows of every other user. *)
Theorem forgot_password_writes_one_row
        (s : store) (email secret : string) (now : Z) (u : user_row) :
  email <> "" ->
  fetch (SELECT_users_by_email (trim (toLowerCase email))) s = Some u ->
  let s' := snd (PasswordReset.forgot_password (Some email) secret now s) in
  users s' = users s
  /\ In (mkToken (u_id u) (sha256_hex secret) (now + 60 * 60 * 1000))
        (password_reset_tokens s')
  /\ (forall other, other <> u_id u -> rows_of other s' = rows_of other s)
  /\ phone_verification_attempts s' = phone_verification_attempts s
  /\ user_watchlist s' = user_watchlist s
  /\ user_alerts s' = user_alerts s
  /\ sessions s' = sessions s.
Proof.
  intros Hemail Hu s'. subst s'.
  rewrite (forgot_password_found email secret now s u Hemail Hu).
  cbn [snd users with_tokens password_reset_tokens phone_verification_attempts
       user_watchlist user_alerts sessions].
  repeat split.
  - apply upserted_in.
  - intros other Hother. unfold rows_of. cbn [password_reset_tokens with_tokens].
    unfold upserted.
    destruct (existsb _ (password_reset_tokens s)).
    + unfold update_where.
      induction (password_reset_tokens s) as [| r l IH]; simpl; [reflexivity |].
      destruct (String.eqb (t_user_id r) (u_id u)) eqn:Hr.
      * apply String.eqb_eq in Hr. simpl.
        assert (Hno : String.eqb (t_user_id r) other = false).
        { apply String.eqb_neq. rewrite Hr. intros Heq. apply Hother. symmetry. exact Heq. }
        rewrite Hno. exact IH.
      * rewrite IH. reflexivity.
    + rewrite filter_app. simpl.
      assert (Hno : String.eqb (u_id u) other = false).
      { apply String.eqb_neq. intros Heq. apply Hother. symmetry. exact Heq. }
      rewrite Hno. apply app_nil_r.
Qed.

End PasswordResetProperties.

Lemma forgot_password_then_probe_witness :
  let P := Demo.platform false in
  let s := snd (PasswordReset.forgot_password (Some "A@b.com") "s3cret" 1000
                  (Demo.one_user Demo.alice)) in
  fst (PasswordReset.verify_reset_token (Some "s3cret") 3601000 s)
    = Normal (json_ok (PasswordReset.probe true))
  /\ fst (PasswordReset.verify_reset_token (Some "s3cret") 3601001 s)
    = Normal (json_ok (PasswordReset.probe false)).
Proof.
  intros P s. split.
  - apply (@forgot_password_then_probe P (Demo.one_user Demo.alice) "A@b.com" "s3cret"
             1000 3601000 Demo.alice).
    + reflexivity.
    + discriminate.
    + discriminate.
    + reflexivity.
    + intros r [].
  - apply (@forgot_password_then_probe P (Demo.one_user Demo.alice) "A@b.com" "s3cret"
             1000 3601001 Demo.alice).
    + reflexivity.
    + discriminate.
    + discriminate.
    + reflexivity.
    + intros r [].
Defined.

Lemma reset_password_short_password_witness :
  let P := Demo.platform false in
  exists error,
    PasswordReset.reset_password (Some "s3cret") (Some "short") 6000 Demo.alice_with_token
    = (Normal (json_status 400 (failure error)), Demo.alice_with_token).
Proof.
  intros P.
  apply (@reset_password_short_password P (Some "s3cret") "short" 6000 Demo.alice_with_token).
  simpl. lia.
Defined.

Lemma forgot_password_writes_one_row_witness :
  let P := Demo.platform true in
  let s := mkStore [Demo.alice; Sample.bob] [mkToken "u2" "sha256:bobs" 9000] [] [] [] [] in
  let s' := snd (PasswordReset.forgot_password (Some "a@b.com") "s3cret" 1000 s) in
  users s' = users s
  /\ In (mkToken "u1" "sha256:s3cret" 3601000) (password_reset_tokens s')
  /\ rows_of "u2" s' = [mkToken "u2" "sha256:bobs" 9000].
Proof.
  intros P s s'.
  destruct (@forgot_password_writes_one_row P s "a@b.com" "s3cret" 1000 Demo.alice)
    as (Husers & Hrow & Hothers & _).
  - discriminate.
  - reflexivity.
  - split; [exact Husers |]. split; [exact Hrow |].
    apply (Hothers "u2"). discriminate.
Defined.

(** *** Signup, login and the protected routes *)

Section AuthFacts.
Context {P : Platform} {B : Bcrypt}.
Import Statements.

Lemma query_user_written (m : user_mutation) (s : store) :
  query_user (written m) s = execute_user m s.
Proof.
  unfold query_user, run_user, convertPlaceholders, written.
  destruct USE_POSTGRES; reflexivity.
Qed.

Lemma getOne_user_written (q : user_selection) (s : store) :
  getOne_user (written q) s = (Normal (fetch_user q s), s).
Proof.
  unfold getOne_user, convertPlaceholders, written.
  destruct USE_POSTGRES; reflexivity.
Qed.

(** A statement on [users] run as written and not awaited. *)
Lemma run_user_written (m : user_mutation) (s : store) :
  snd (no_await (run_user (written m)) s)
  = if USE_POSTGRES then s else snd (execute_user m s).
Proof.
  unfold no_await, run_user, written. simpl.
  destruct USE_POSTGRES; simpl; [reflexivity |].
  destruct (execute_user m s); reflexivity.
Qed.

Lemma find_last {A} (p : A -> bool) (l : list A) (x : A) :
  existsb p l = false -> p x = true -> find p (l ++ [x]) = Some x.
Proof.
  intros Hl Hx. induction l as [| y l IH]; simpl in *.
  - rewrite Hx. reflexivity.
  - apply orb_false_iff in Hl. destruct Hl as [Hy Hl].
    rewrite Hy. apply IH. exact Hl.
Qed.

(** What [User.create] does for an address and an id no row holds. *)
Lemma create_fresh (s : store) (email password : string) (name : value)
      (salt uuid : string) (now : Z) :
  USE_POSTGRES = true \/ name <> VUndefined ->
  existsb (fun u => String.eqb (u_id u) uuid) (users s) = false ->
  existsb (fun u => String.eqb (u_email u) (trim (toLowerCase email))) (users s) = false ->
  User.create email password name salt uuid now s
  = (Normal (User.mkCreated uuid (trim (toLowerCase email)) name 0 now),
     with_users (users s ++ [new_user uuid (trim (toLowerCase email))
                                      (bcrypt_hash salt password) (sql_text name) now now]) s).
Proof.
  intros Hname Hid Hemail.
  unfold User.create, try_catch, bind.
  rewrite query_written.
  2:{ destruct Hname as [Hpg | Hname]; [left; exact Hpg | right].
      simpl. destruct name; try reflexivity. contradiction. }
  unfold execute. rewrite Hid, Hemail. reflexivity.
Qed.

(** [User.create] either throws and leaves the store, or appends one row. *)
Lemma create_cases (s : store) (email password : string) (name : value)
      (salt uuid : string) (now : Z) :
  (exists e, User.create email password name salt uuid now s = (Abrupt e, s))
  \/ User.create email password name salt uuid now s
     = (Normal (User.mkCreated uuid (trim (toLowerCase email)) name 0 now),
        with_users (users s ++ [new_user uuid (trim (toLowerCase email))
                                         (bcrypt_hash salt password) (sql_text name) now now]) s).
Proof.
  unfold User.create, try_catch, bind, query, run, convertPlaceholders, written,
    pgPool_query_run, sqliteDb_run.
  destruct USE_POSTGRES eqn:Hpg; cbn [statement style].
  - unfold execute.
    destruct (existsb _ (users s)).
    { left. unfold unique_violation. rewrite Hpg. eexists. reflexivity. }
    destruct (existsb _ (users s)).
    { left. unfold unique_violation. rewrite Hpg. eexists. reflexivity. }
    right. reflexivity.
  - destruct (existsb is_undefined _).
    { left. eexists. reflexivity. }
    unfold execute.
    destruct (existsb _ (users s)).
    { left. unfold unique_violation. rewrite Hpg. eexists. reflexivity. }
    destruct (existsb _ (users s)).
    { left. unfold unique_violation. rewrite Hpg. eexists. reflexivity. }
    right. reflexivity.
Qed.

(** Signup of a well-formed request for a fresh address. *)
Lemma signup_fresh (s : store) (email password : string) (name : value)
      (salt uuid : string) (now : Z) :
  emailRegex_test email = true ->
  (8 <= String.length password)%nat ->
  USE_POSTGRES = true \/ name <> VUndefined ->
  JWT_SECRET <> "" ->
  existsb (fun u => String.eqb (u_id u) uuid) (users s) = false ->
  existsb (fun u => String.eqb (u_email u) (trim (toLowerCase email))) (users s) = false ->
  let claims := mkClaims uuid (trim (toLowerCase email)) (now / 1000)
                         (now / 1000 + Jwt.seven_days) in
  Auth.signup (Some email) (Some password) name salt uuid now s
  = (Normal (json_status 201
       (Auth.signup_created
          (Jwt.Compact "HS256" claims (jws_sign "HS256" JWT_SECRET claims))
          (User.mkCreated uuid (trim (toLowerCase email)) name 0 now))),
     with_users (users s ++ [new_user uuid (trim (toLowerCase email))
                                      (bcrypt_hash salt password) (sql_text name) now now]) s).
Proof.
  intros Hregex Hlen Hname Hsecret Hid Hemail claims.
  assert (Hpw : String.eqb password "" = false).
  { apply String.eqb_neq. intros ->. simpl in Hlen. lia. }
  assert (Hshort : (String.length password <? 8)%nat = false)
    by (apply Nat.ltb_ge; exact Hlen).
  apply String.eqb_neq in Hsecret.
  unfold Auth.signup, try_catch.
  rewrite (emailRegex_test_nonempty email Hregex), Hpw, Hregex, Hshort. simpl.
  unfold bind at 1.
  rewrite (create_fresh s email password name salt uuid now Hname Hid Hemail).
  unfold bind, await, Jwt.sign. cbn [User.id User.c_email]. rewrite Hsecret.
  reflexivity.
Qed.



Lemma login_accepted (s : store) (email password : string) (now : Z) (u : user_row) :
  email <> "" -> password <> "" ->
  fetch (SELECT_users_by_email (trim (toLowerCase email))) s = Some u ->
  bcrypt_compare password (u_password_hash u) = true ->
  JWT_SECRET <> "" ->
  let claims := mkClaims (u_id u) (u_email u) (now / 1000) (now / 1000 + Jwt.seven_days) in
  AuthRoutes.login (Some email) (Some password) now s
  = (Normal (json_ok (AuthRoutes.logged_in
                        (Jwt.Compact "HS256" claims (jws_sign "HS256" JWT_SECRET claims)) u)),
     with_users (update_where (fun r => String.eqb (u_id r) (u_id u))
                              (set_last_login now) (users s)) s).
Proof.
  intros He Hp Hu Hcmp Hsecret claims.
  apply String.eqb_neq in He. apply String.eqb_neq in Hp.
  apply String.eqb_neq in Hsecret.
  unfold AuthRoutes.login, try_catch, bind. rewrite He, Hp. simpl.
  rewrite findByEmail_fetch, Hu.
  unfold UserModel.verifyPassword, ret. rewrite Hcmp. simpl.
  unfold UserModel.updateLastLogin. rewrite query_user_written.
  unfold execute_user, await, Jwt.sign. rewrite Hsecret. reflexivity.
Qed.

End AuthFacts.

Section AuthProperties.
Context {P : Platform} {B : Bcrypt}.
Import Statements.

(** A credential this server signed passes the gate while it is live. *)
Lemma authenticateToken_signed
      (uid em : string) (issued now : Z) (scheme : Jwt.jwt_string) :
  JWT_SECRET <> "" ->
  now / 1000 < issued / 1000 + Jwt.seven_days ->
  let claims := mkClaims uid em (issued / 1000) (issued / 1000 + Jwt.seven_days) in
  Auth.authenticateToken
    (Some [scheme; Jwt.Compact "HS256" claims (jws_sign "HS256" JWT_SECRET claims)]) now
  = Auth.Next uid em.
Proof.
  intros Hsecret Hlive claims.
  unfold Auth.authenticateToken. cbn [nth_error Jwt.is_empty].
  rewrite (verify_signed uid em issued now _); [reflexivity | | exact Hlive].
  unfold Jwt.sign. apply String.eqb_neq in Hsecret. rewrite Hsecret. reflexivity.
Qed.


(** X9. Signup, then login, then the gate: after a signup that creates the
    account for a fresh, well-formed address, a login with the same
    address and password is answered 200 with a token, and that token,
    presented within seven days, passes [authenticateToken] as the user id
    of the signup and the normalized address. *)
Theorem signup_then_login
        (s : store) (email password : string) (name : value) (salt uuid : string)
        (now later : Z) :
  emailRegex_test email = true ->
  (8 <= String.length password)%nat ->
  USE_POSTGRES = true \/ name <> VUndefined ->
  JWT_SECRET <> "" ->
  existsb (fun u => String.eqb (u_id u) uuid) (users s) = false ->
  existsb (fun u => String.eqb (u_email u) (trim (toLowerCase email))) (users s) = false ->
  let s1 := snd (Auth.signup (Some email) (Some password) name salt uuid now s) in
  let row := new_user uuid (trim (toLowerCase email)) (bcrypt_hash salt password)
                      (sql_text name) now now in
  exists token,
    fst (AuthRoutes.login (Some email) (Some password) later s1)
    = Normal (json_ok (AuthRoutes.logged_in token row))
    /\ forall (scheme : Jwt.jwt_string) (t : Z),
         t / 1000 < later / 1000 + Jwt.seven_days ->
         Auth.authenticateToken (Some [scheme; token]) t
         = Auth.Next uuid (trim (toLowerCase email)).
Proof.
  intros Hregex Hlen Hname Hsecret Hid Hemail s1 row.
  assert (Hs1 : s1 = with_users (users s ++ [row]) s).
  { subst s1.
    rewrite (signup_fresh s email password name salt uuid now
               Hregex Hlen Hname Hsecret Hid Hemail).
    reflexivity. }
  assert (He : email <> "").
  { intros ->. discriminate Hregex. }
  assert (Hp : password <> "").
  { intros ->. simpl in Hlen. lia. }
  assert (Hfetch : fetch (SELECT_users_by_email (trim (toLowerCase email))) s1 = Some row).
  { rewrite Hs1. cbn [fetch users with_users].
    apply find_last; [exact Hemail |]. cbn. apply String.eqb_refl. }
  eexists. split.
  - rewrite (login_accepted s1 email password later row He Hp Hfetch
               (bcrypt_compare_hash salt password) Hsecret).
    reflexivity.
  - intros scheme t Hlive.
    apply (authenticateToken_signed uuid (trim (toLowerCase email)) later t scheme
             Hsecret Hlive).
Qed.

(** X10. A login writes nothing but [last_login]: whatever the request,
    the users after it are the users before it up to that column, in the
    same order, and every other table is as it was. *)
Theorem login_writes_last_login_only
        (email password : option string) (now : Z) (s : store) :
  let s' := snd (AuthRoutes.login email password now s) in
  map forget_login_row (users s') = map forget_login_row (users s)
  /\ password_reset_tokens s' = password_reset_tokens s
  /\ phone_verification_attempts s' = phone_verification_attempts s
  /\ user_watchlist s' = user_watchlist s
  /\ user_alerts s' = user_alerts s
  /\ sessions s' = sessions s.
Proof.
  assert (Hsame : forall t : store,
            map forget_login_row (users t) = map forget_login_row (users t)
            /\ password_reset_tokens t = password_reset_tokens t
            /\ phone_verification_attempts t = phone_verification_attempts t
            /\ user_watchlist t = user_watchlist t
            /\ user_alerts t = user_alerts t /\ sessions t = sessions t).
  { intros t. repeat split. }
  unfold AuthRoutes.login, try_catch, bind.
  destruct email as [email |]; [| apply Hsame].
  destruct password as [password |]; [| apply Hsame].
  destruct (String.eqb email "" || String.eqb password "")%bool; [apply Hsame |].
  rewrite findByEmail_fetch.
  destruct (fetch _ s) as [u |]; [| apply Hsame].
  unfold UserModel.verifyPassword, ret.
  destruct (bcrypt_compare password (u_password_hash u)); [| apply Hsame].
  cbn [negb]. unfold UserModel.updateLastLogin. rewrite query_user_written.
  unfold execute_user, await.
  assert (Hlogin : map forget_login_row
                     (update_where (fun r => String.eqb (u_id r) (u_id u))
                                   (set_last_login now) (users s))
                   = map forget_login_row (users s)).
  { unfold update_where. rewrite map_map. apply map_ext.
    intros r. destruct (String.eqb (u_id r) (u_id u)); reflexivity. }
  destruct (Jwt.sign (u_id u) (u_email u) JWT_SECRET now);
    cbn; repeat split; exact Hlogin.
Qed.

(** X11. A signup that is answered 400 or 409 has written nothing. *)
Theorem signup_refusals_write_nothing
        (email password : option string) (name : value) (salt uuid : string) (now : Z)
        (s s' : store) (r : response) :
  Auth.signup email password name salt uuid now s = (Normal r, s') ->
  status_code r = 400 \/ status_code r = 409 ->
  s' = s.
Proof.
  unfold Auth.signup, try_catch.
  destruct email as [email |]; [| intros H _; injection H as _ <-; reflexivity].
  destruct password as [password |]; [| intros H _; injection H as _ <-; reflexivity].
  destruct (String.eqb email "" || String.eqb password "")%bool;
    [intros H _; injection H as _ <-; reflexivity |].
  destruct (negb (emailRegex_test email));
    [intros H _; injection H as _ <-; reflexivity |].
  destruct (String.length password <? 8)%nat;
    [intros H _; injection H as _ <-; reflexivity |].
  unfold bind at 1.
  destruct (create_cases s email password name salt uuid now) as [[e ->] | ->].
  - destruct (message e) as [m |]; [| intros H _; injection H as _ <-; reflexivity].
    intros H _. revert H.
    repeat match goal with
           | |- context [match ?x with _ => _ end] => destruct x
           end; intros H; injection H as _ <-; reflexivity.
  - unfold bind, await, Jwt.sign. cbn [User.id User.c_email].
    destruct (String.eqb JWT_SECRET "").
    + cbn. intros H Hstatus. injection H as <- _. cbn in Hstatus.
      destruct Hstatus; discriminate.
    + cbn. intros H Hstatus. injection H as <- _. cbn in Hstatus.
      destruct Hstatus; discriminate.
Qed.

(** X12. A signup for a fresh, well-formed address, with a name the
    driver can bind (any name on PostgreSQL; on the embedded backend a
    name that the request gives, as a string or as null), appends exactly
    one row to [users]: the normalized address, the bcrypt hash of the
    password and not the password, tier free, status active, no customer
    reference; the earlier rows and all other tables stay as they are.
    The proviso on the name is needed: on the embedded backend a request
    without a name makes the insert throw, and no row is written. *)
Theorem signup_appends_one_row
        (s : store) (email password : string) (name : value) (salt uuid : string)
        (now : Z) :
  emailRegex_test email = true ->
  (8 <= String.length password)%nat ->
  USE_POSTGRES = true \/ name <> VUndefined ->
  existsb (fun u => String.eqb (u_id u) uuid) (users s) = false ->
  existsb (fun u => String.eqb (u_email u) (trim (toLowerCase email))) (users s) = false ->
  let s' := snd (Auth.signup (Some email) (Some password) name salt uuid now s) in
  s' = with_users
         (users s ++ [mkUser uuid (trim (toLowerCase email)) (bcrypt_hash salt password)
                             (sql_text name) None 0 0 (Some "free") (Some "active") None
                             now now None]) s.
Proof.
  intros Hregex Hlen Hname Hid Hemail.
  assert (Hpw : String.eqb password "" = false).
  { apply String.eqb_neq. intros ->. simpl in Hlen. lia. }
  assert (Hshort : (String.length password <? 8)%nat = false)
    by (apply Nat.ltb_ge; exact Hlen).
  unfold Auth.signup, try_catch.
  rewrite (emailRegex_test_nonempty email Hregex), Hpw, Hregex, Hshort. simpl.
  unfold bind at 1.
  rewrite (create_fresh s email password name salt uuid now Hname Hid Hemail).
  unfold bind, await, Jwt.sign. cbn [User.id User.c_email].
  destruct (String.eqb JWT_SECRET ""); reflexivity.
Qed.

End AuthProperties.

Section ProtectedRoutes.
Context {P : Platform} {B : Bcrypt} {S : StripeApi}.
Import Statements.

(** X13. The four routes behind [authenticateToken] do nothing for a
    request the gate rejects: the answer is the gate's own 401 or 403, the
    handler is not run, and the store is left as it is. *)
Theorem protected_routes_stop_at_the_gate
        (authHeader : option (list Jwt.jwt_string)) (now : Z) (r : response) (s : store) :
  Auth.authenticateToken authHeader now = Auth.Rejected r ->
  (status_code r = 401 \/ status_code r = 403)
  /\ AuthRoutes.me authHeader now s = (Normal r, s)
  /\ AuthRoutes.logout authHeader now s = (Normal r, s)
  /\ StripeRoutes.create_checkout_session authHeader now s = (Normal r, s)
  /\ StripeRoutes.create_portal_session authHeader now s = (Normal r, s).
Proof.
  intros Hgate.
  unfold AuthRoutes.me, AuthRoutes.logout, StripeRoutes.create_checkout_session,
    StripeRoutes.create_portal_session.
  rewrite Hgate. split; [| repeat split].
  unfold Auth.authenticateToken in Hgate.
  destruct (match authHeader with Some fields => nth_error fields 1 | None => None end)
    as [token |]; [| injection Hgate as <-; left; reflexivity].
  destruct (Jwt.is_empty token); [injection Hgate as <-; left; reflexivity |].
  destruct (Jwt.verify token JWT_SECRET now); [discriminate |].
  injection Hgate as <-. right. reflexivity.
Qed.

(** X14. Signup, then the profile route, on the embedded backend: the
    token a successful signup with a name hands out, presented to
    [GET /me] within seven days, is answered 200 with the profile of the
    row just created (tier free, status active, created at the instant of
    the signup, no login yet), and the request writes nothing. The
    statement is for the embedded backend only, where [created_at] is a
    text column that gives back the ISO text written; on PostgreSQL the
    column is a TIMESTAMP without zone, which the driver reads back in the
    zone of the process, so that [createdAt] is the instant of the signup
    there only for a process in UTC. *)
Theorem signup_then_me
        (s : store) (email password : string) (name : value) (salt uuid : string)
        (now : Z) :
  USE_POSTGRES = false ->
  emailRegex_test email = true ->
  (8 <= String.length password)%nat ->
  name <> VUndefined ->
  JWT_SECRET <> "" ->
  existsb (fun u => String.eqb (u_id u) uuid) (users s) = false ->
  existsb (fun u => String.eqb (u_email u) (trim (toLowerCase email))) (users s) = false ->
  let s1 := snd (Auth.signup (Some email) (Some password) name salt uuid now s) in
  exists token,
    fst (Auth.signup (Some email) (Some password) name salt uuid now s)
    = Normal (json_status 201
                (Auth.signup_created token
                   (User.mkCreated uuid (trim (toLowerCase email)) name 0 now)))
    /\ forall (scheme : Jwt.jwt_string) (t : Z),
         t / 1000 < now / 1000 + Jwt.seven_days ->
         AuthRoutes.me (Some [scheme; token]) t s1
         = (Normal (json_ok (AuthRoutes.current_user
              (mkProfile uuid (trim (toLowerCase email)) (sql_text name) None 0 0
                         (Some "free") (Some "active") None now None))),
            s1).
Proof.
  intros _ Hregex Hlen Hname Hsecret Hid Hemail s1. subst s1.
  rewrite (signup_fresh s email password name salt uuid now
             Hregex Hlen (or_intror Hname) Hsecret Hid Hemail).
  eexists. split; [reflexivity |].
  intros scheme t Hlive. unfold AuthRoutes.me.
  rewrite (authenticateToken_signed uuid (trim (toLowerCase email)) now t scheme
             Hsecret Hlive).
  unfold try_catch, bind, UserModel.findById. rewrite getOne_user_written.
  cbn [snd fetch_user users with_users].
  rewrite find_last; [reflexivity | exact Hid | cbn; apply String.eqb_refl].
Qed.

End ProtectedRoutes.


Lemma signup_then_login_witness :
  let P := Demo.platform true in
  let B := Sample.bcrypt true in
  let s1 := snd (Auth.signup (Some "Carol@B.com") (Some "longenough3") VUndefined
                             "salt" "u3" 1000 Sample.two_users) in
  exists token,
    fst (AuthRoutes.login (Some "Carol@B.com") (Some "longenough3") 2000 s1)
    = Normal (json_ok (AuthRoutes.logged_in token
        (new_user "u3" "carol@b.com" "$2a$12$salt$longenough3" None 1000 1000)))
    /\ Auth.authenticateToken (Some [Jwt.Other "Bearer"; token]) 86400000
       = Auth.Next "u3" "carol@b.com".
Proof.
  intros P B s1.
  destruct (@signup_then_login P B Sample.two_users "Carol@B.com" "longenough3" VUndefined
              "salt" "u3" 1000 2000) as [token [Hlogin Hgate]].
  - reflexivity.
  - simpl. lia.
  - left. reflexivity.
  - discriminate.
  - reflexivity.
  - reflexivity.
  - exists token. split; [exact Hlogin |].
    apply Hgate. vm_compute. reflexivity.
Defined.

Lemma signup_refusals_write_nothing_witness :
  let P := Demo.platform false in
  let s := Demo.one_user Demo.alice in
  snd (Auth.signup (Some "A@B.com") (Some "longenough1") (VText "Al") "salt" "u2" 3000 s) = s.
Proof.
  intros P s.
  apply (@signup_refusals_write_nothing P (Some "A@B.com") (Some "longenough1") (VText "Al")
           "salt" "u2" 3000 s _
           (json_status 409 (failure "An account with this email already exists"))).
  - reflexivity.
  - right. reflexivity.
Defined.

Lemma signup_appends_one_row_witness :
  let P := Demo.platform false in
  users (snd (Auth.signup (Some "Carol@B.com") (Some "longenough3") (VText "Carol")
                          "salt" "u3" 1000 Sample.two_users))
  = [Demo.alice; Sample.bob;
     mkUser "u3" "carol@b.com" "$2a$12$salt$longenough3" (Some "Carol") None 0 0
            (Some "free") (Some "active") None 1000 1000 None].
Proof.
  intros P.
  rewrite (@signup_appends_one_row P Sample.two_users "Carol@B.com" "longenough3"
             (VText "Carol") "salt" "u3" 1000).
  - reflexivity.
  - reflexivity.
  - simpl. lia.
  - right. discriminate.
  - reflexivity.
  - reflexivity.
Defined.

Lemma protected_routes_stop_at_the_gate_witness :
  let P := Demo.platform false in
  let B := Sample.bcrypt false in
  let S := Sample.processor in
  let forged := Some [Jwt.Other "Bearer";
                      Jwt.Compact "HS256" (mkClaims "u1" "a@b.com" 1 604801) "forged"] in
  StripeRoutes.create_checkout_session forged 5000 Sample.two_users
  = (Normal (json_status 403 (failure "Invalid or expired token")), Sample.two_users).
Proof.
  intros P B S forged.
  destruct (@protected_routes_stop_at_the_gate P S forged 5000
              (json_status 403 (failure "Invalid or expired token")) Sample.two_users)
    as (_ & _ & _ & Hcheckout & _).
  - reflexivity.
  - exact Hcheckout.
Defined.

Lemma signup_then_me_witness :
  let P := Demo.platform false in
  let B := Sample.bcrypt false in
  let s1 := snd (Auth.signup (Some "Carol@B.com") (Some "longenough3") (VText "Carol")
                             "salt" "u3" 1000 Sample.two_users) in
  exists token,
    AuthRoutes.me (Some [Jwt.Other "Bearer"; token]) 86400000 s1
    = (Normal (json_ok (AuthRoutes.current_user
         (Statements.mkProfile "u3" "carol@b.com" (Some "Carol") None 0 0
                               (Some "free") (Some "active") None 1000 None))),
       s1).
Proof.
  intros P B s1.
  destruct (@signup_then_me P Sample.two_users "Carol@B.com" "longenough3" (VText "Carol")
              "salt" "u3" 1000) as [token [_ Hme]].
  - reflexivity.
  - reflexivity.
  - simpl. lia.
  - discriminate.
  - discriminate.
  - reflexivity.
  - reflexivity.
  - exists token. apply Hme. vm_compute. reflexivity.
Defined.

(** *** The webhook handler, continued *)

Section WebhookFacts.
Context {P : Platform}.

(** The three updates of the webhook handlers leave the account data of
    every row alone. *)
Lemma applied_account (m : mutation) (s : store) :
  match m with
  | UPDATE_users_checkout _ _ _ | UPDATE_users_subscription _ _ _ _
  | UPDATE_users_canceled _ _ => True
  | _ => False
  end ->
  map account_of (users (applied m s)) = map account_of (users s)
  /\ password_reset_tokens (applied m s) = password_reset_tokens s
  /\ phone_verification_attempts (applied m s) = phone_verification_attempts s
  /\ user_watchlist (applied m s) = user_watchlist s
  /\ user_alerts (applied m s) = user_alerts s
  /\ sessions (applied m s) = sessions s.
Proof.
  intros Hm. unfold applied.
  destruct USE_POSTGRES; [repeat split |].
  destruct (existsb is_undefined (parameters m)); [repeat split |].
  destruct m; try contradiction; cbn; repeat split;
    unfold update_where; rewrite map_map; apply map_ext;
    intros u; destruct (eq_param (u_id u) id); reflexivity.
Qed.

(** What the dispatch of an event leaves in the store. *)
Lemma dispatch_effect (now : Z) (event : stripe_event) (s : store) :
  Stripe.dispatch now event s
  = (Normal tt,
     let object := data_object event in
     let uid := Stripe.metadata_userId object in
     if String.eqb (type event) "checkout.session.completed"
     then if truthy uid
          then applied (UPDATE_users_checkout (customer object) now uid) s else s
     else if (String.eqb (type event) "customer.subscription.created"
              || String.eqb (type event) "customer.subscription.updated")%bool
     then if truthy uid
          then applied (UPDATE_users_subscription
                          (if (Stripe.is_text (status object) "active"
                               || Stripe.is_text (status object) "trialing")%bool
                           then VText "pro" else VText "free")
                          (if Stripe.is_text (status object) "active"
                           then VText "active" else status object)
                          now uid) s
          else s
     else if String.eqb (type event) "customer.subscription.deleted"
     then if truthy uid then applied (UPDATE_users_canceled now uid) s else s
     else s).
Proof.
  unfold Stripe.dispatch. cbv zeta.
  destruct (String.eqb (type event) "checkout.session.completed");
    [apply handleCheckoutComplete_effect |].
  destruct (String.eqb (type event) "customer.subscription.created"
            || String.eqb (type event) "customer.subscription.updated")%bool;
    [apply handleSubscriptionUpdate_effect |].
  destruct (String.eqb (type event) "customer.subscription.deleted");
    [apply handleSubscriptionCanceled_effect |].
  destruct (String.eqb (type event) "invoice.payment_failed");
    [apply handlePaymentFailed_effect | reflexivity].
Qed.

Lemma find_update_where_id (uid : string) (id : value) (f : user_row -> user_row)
      (l : list user_row) :
  (forall u, u_id (f u) = u_id u) ->
  find (fun u => String.eqb (u_id u) uid) (update_where (fun u => eq_param (u_id u) id) f l)
  = option_map (fun u => if eq_param (u_id u) id then f u else u)
               (find (fun u => String.eqb (u_id u) uid) l).
Proof.
  intros Hf. induction l as [| u l IH]; simpl; [reflexivity |].
  destruct (eq_param (u_id u) id) eqn:Hu.
  - rewrite Hf. destruct (String.eqb (u_id u) uid); [simpl; rewrite Hu; reflexivity | exact IH].
  - destruct (String.eqb (u_id u) uid); [simpl; rewrite Hu; reflexivity | exact IH].
Qed.

(** Whether a row with a given id exists depends on the ids only. *)
Lemma find_by_id_exists (uid : string) (l1 l2 : list user_row) :
  map u_id l1 = map u_id l2 ->
  (find (fun u => String.eqb (u_id u) uid) l1 = None
   <-> find (fun u => String.eqb (u_id u) uid) l2 = None).
Proof.
  revert l2. induction l1 as [| u l1 IH]; intros [| v l2] H; simpl in *;
    try discriminate; [tauto |].
  injection H as Hid Hrest. rewrite Hid.
  destruct (String.eqb (u_id v) uid); [split; discriminate | apply IH; exact Hrest].
Qed.

(** The dispatch of an event leaves the account data and the other tables
    as they are. *)
Lemma dispatch_account_frame (now : Z) (event : stripe_event) (s : store) :
  map account_of (users (snd (Stripe.dispatch now event s))) = map account_of (users s)
  /\ password_reset_tokens (snd (Stripe.dispatch now event s)) = password_reset_tokens s
  /\ phone_verification_attempts (snd (Stripe.dispatch now event s))
     = phone_verification_attempts s
  /\ user_watchlist (snd (Stripe.dispatch now event s)) = user_watchlist s
  /\ user_alerts (snd (Stripe.dispatch now event s)) = user_alerts s
  /\ sessions (snd (Stripe.dispatch now event s)) = sessions s.
Proof.
  rewrite dispatch_effect. cbv zeta. cbn [snd].
  repeat match goal with
         | |- context [if ?b then _ else _] => destruct b
         end;
    first [ apply applied_account; exact I | repeat split ].
Qed.

End WebhookFacts.

Section WebhookProperties.
Context {P : Platform}.

(** X15. Once the signature of a webhook request has verified and its body
    has parsed, the request is acknowledged with 200 and
    [{ received: true }], whatever the event and whatever becomes of its
    update: no awaited call of the handlers can throw, so the 500 branch
    is never taken. *)
Theorem verified_webhook_is_acknowledged
        (body : string) (header : option stripe_signature) (now : Z)
        (event : stripe_event) (s : store) :
  Stripe.constructEvent body header STRIPE_WEBHOOK_SECRET now = Normal event ->
  Stripe.handleWebhook body header now s
  = (Normal (json_ok Stripe.received), snd (Stripe.dispatch now event s)).
Proof.
  intros Hevent. unfold Stripe.handleWebhook, Stripe.handleWebhook_around.
  rewrite Hevent. unfold try_catch, bind. rewrite dispatch_effect. reflexivity.
Qed.

(** X16. An event of a type the handler does not know, a failed-payment
    event, and a checkout or subscription event without a user reference
    in its metadata all leave the store as it is. *)
Theorem unactionable_events_change_nothing (now : Z) (event : stripe_event) (s : store) :
  (type event <> "checkout.session.completed"
   /\ type event <> "customer.subscription.created"
   /\ type event <> "customer.subscription.updated"
   /\ type event <> "customer.subscription.deleted")
  \/ truthy (Stripe.metadata_userId (data_object event)) = false ->
  Stripe.dispatch now event s = (Normal tt, s).
Proof.
  intros H. rewrite dispatch_effect. cbv zeta.
  destruct H as [(H1 & H2 & H3 & H4) | Hno].
  - apply String.eqb_neq in H1, H2, H3, H4. rewrite H1, H2, H3, H4. reflexivity.
  - rewrite Hno.
    repeat match goal with
           | |- context [if ?b then _ else _] => destruct b
           end; reflexivity.
Qed.

(** X17. Whatever the event, the dispatch never adds, removes or reorders
    users and never touches their id, address, password hash, name, phone
    data, creation or login instants; and it leaves the reset tokens and
    the feature tables as they are. *)
Theorem dispatch_keeps_accounts (now : Z) (event : stripe_event) (s : store) :
  let s' := snd (Stripe.dispatch now event s) in
  map account_of (users s') = map account_of (users s)
  /\ password_reset_tokens s' = password_reset_tokens s
  /\ phone_verification_attempts s' = phone_verification_attempts s
  /\ user_watchlist s' = user_watchlist s
  /\ user_alerts s' = user_alerts s
  /\ sessions s' = sessions s.
Proof. apply dispatch_account_frame. Qed.

(** X18. On the embedded backend a checkout-completed event that carries a
    user reference and a customer sets that user's row to tier pro and
    status active and records the customer reference; the other rows are
    not touched. *)
Theorem checkout_completed_upgrades
        (now : Z) (event : stripe_event) (uid : string) (s : store) :
  USE_POSTGRES = false ->
  type event = "checkout.session.completed" ->
  Stripe.metadata_userId (data_object event) = VText uid ->
  uid <> "" ->
  customer (data_object event) <> VUndefined ->
  snd (Stripe.dispatch now event s)
  = with_users
      (update_where (fun u => String.eqb (u_id u) uid)
         (fun u => mkUser (u_id u) (u_email u) (u_password_hash u) (u_name u) (u_phone u)
                          (u_phone_verified u) (u_email_verified u)
                          (Some "pro") (Some "active")
                          (sql_text (customer (data_object event)))
                          (u_created_at u) now (u_last_login u))
         (users s)) s.
Proof.
  intros Hbe Htype Hid Hne Hcustomer. apply String.eqb_neq in Hne.
  rewrite dispatch_effect. cbv zeta. cbn [snd].
  rewrite Htype, Hid. rewrite String.eqb_refl. cbn [truthy]. rewrite Hne. cbn [negb].
  unfold applied. rewrite Hbe. cbn [parameters existsb is_undefined orb].
  destruct (customer (data_object event)) as [| | c]; [contradiction | reflexivity | reflexivity].
Qed.

(** X19. Last write wins: after any event, a subscription-updated event
    for the user [uid] with the status [S] leaves [uid] in the state that
    the same event alone would have left, whatever the first event did. *)
Theorem subscription_update_wins
        (now1 now2 : Z) (first second : stripe_event) (uid S : string) (s : store) :
  type second = "customer.subscription.updated" ->
  Stripe.metadata_userId (data_object second) = VText uid ->
  uid <> "" ->
  status (data_object second) = VText S ->
  subscription_state uid
    (snd (Stripe.dispatch now2 second (snd (Stripe.dispatch now1 first s))))
  = subscription_state uid (snd (Stripe.dispatch now2 second s)).
Proof.
  intros Htype Hid Hne HS. apply String.eqb_neq in Hne.
  pose proof (dispatch_account_frame now1 first s) as [Hacc _].
  set (s1 := snd (Stripe.dispatch now1 first s)) in *.
  assert (Hids : map u_id (users s1) = map u_id (users s)).
  { assert (Hproj : forall l, map u_id l = map (fun a => fst (fst (fst (fst (fst (fst (fst (fst a))))))))
                                             (map account_of l)).
    { intros l. rewrite map_map. reflexivity. }
    rewrite !Hproj, Hacc. reflexivity. }
  rewrite !dispatch_effect. cbv zeta. cbn [snd].
  rewrite Htype, Hid, HS.
  replace (String.eqb "customer.subscription.updated" "checkout.session.completed")
    with false by reflexivity.
  replace (String.eqb "customer.subscription.updated" "customer.subscription.created"
           || String.eqb "customer.subscription.updated" "customer.subscription.updated")%bool
    with true by reflexivity.
  cbn [truthy]. rewrite Hne. cbn [negb].
  unfold applied.
  destruct USE_POSTGRES eqn:Hbe.
  - (* nothing is written on this backend, by either event *)
    subst s1. rewrite dispatch_effect. cbv zeta. cbn [snd]. unfold applied. rewrite Hbe.
    repeat match goal with
           | |- context [if ?b then _ else _] => destruct b
           end; reflexivity.
  - assert (Hbind : forall t st, existsb is_undefined
                      (parameters (UPDATE_users_subscription (VText t) (VText st) now2 (VText uid)))
                    = false) by reflexivity.
    assert (Hstate : forall (t st : string) (x : store),
              subscription_state uid
                (snd (execute (UPDATE_users_subscription (VText t) (VText st) now2 (VText uid)) x))
              = option_map (fun _ => (Some t, Some st))
                           (find (fun u => String.eqb (u_id u) uid) (users x))).
    { intros t st x. unfold subscription_state. cbn [execute snd users with_users].
      rewrite find_update_where_id by reflexivity.
      destruct (find _ (users x)) as [u |] eqn:Hfind; [| reflexivity].
      apply find_some in Hfind. destruct Hfind as [_ Hu].
      cbn [option_map eq_param]. rewrite Hu. reflexivity. }
    assert (Hexists : forall c : option string * option string,
              option_map (fun _ : user_row => c)
                         (find (fun u => String.eqb (u_id u) uid) (users s1))
              = option_map (fun _ : user_row => c)
                           (find (fun u => String.eqb (u_id u) uid) (users s))).
    { intros c. pose proof (find_by_id_exists uid _ _ Hids) as Hiff.
      destruct (find _ (users s1)), (find _ (users s)); try reflexivity.
      - destruct Hiff as [_ Hiff]. discriminate (Hiff eq_refl).
      - destruct Hiff as [Hiff _]. discriminate (Hiff eq_refl). }
    destruct (Stripe.is_text (VText S) "active" || Stripe.is_text (VText S) "trialing")%bool;
      destruct (Stripe.is_text (VText S) "active");
      rewrite !Hbind, !Hstate; apply Hexists.
Qed.

End WebhookProperties.

Lemma verified_webhook_is_acknowledged_witness :
  let P := Demo.platform false in
  let body := "checkout.session.completed" in
  let header := Some (mkSignature 3 ["whsec:checkout.session.completed"]) in
  fst (Stripe.handleWebhook body header 3000 (Demo.one_user Demo.alice_free))
    = Normal (json_ok Stripe.received)
  /\ subscription_state "u1"
       (snd (Stripe.handleWebhook body header 3000 (Demo.one_user Demo.alice_free)))
     = Some (Some "pro", Some "active").
Proof.
  intros P body header.
  rewrite (@verified_webhook_is_acknowledged P body header 3000
             (mkEvent body (mkObject (Some (mkMetadata (Some "u1") (Some "a@b.com")))
                                     (VText "cus_1") (VText "active") None))
             (Demo.one_user Demo.alice_free) eq_refl).
  split; reflexivity.
Defined.

Lemma unactionable_events_change_nothing_witness :
  let P := Demo.platform false in
  let s := Demo.one_user Demo.alice in
  Stripe.dispatch 3000
    (mkEvent "customer.subscription.paused"
       (mkObject (Some (mkMetadata (Some "u1") None)) (VText "cus_1") (VText "paused") None)) s
  = (Normal tt, s)
  /\ Stripe.dispatch 3000
       (mkEvent "customer.subscription.updated"
          (mkObject None (VText "cus_1") (VText "past_due") None)) s
     = (Normal tt, s).
Proof.
  intros P s. split.
  - apply (@unactionable_events_change_nothing P). left.
    repeat split; discriminate.
  - apply (@unactionable_events_change_nothing P). right. reflexivity.
Defined.

Lemma checkout_completed_upgrades_witness :
  let P := Demo.platform false in
  let event := mkEvent "checkout.session.completed"
                 (mkObject (Some (mkMetadata (Some "u2") None)) (VText "cus_2")
                           VUndefined None) in
  users (snd (Stripe.dispatch 3000 event Sample.two_users))
  = [Demo.alice;
     mkUser "u2" "bob@b.com" "$2a$12$salt$password2" None None 0 0
            (Some "pro") (Some "active") (Some "cus_2") 1500 3000 None].
Proof.
  intros P event.
  rewrite (@checkout_completed_upgrades P 3000 event "u2" Sample.two_users).
  - reflexivity.
  - reflexivity.
  - reflexivity.
  - reflexivity.
  - discriminate.
  - discriminate.
Defined.

Lemma subscription_update_wins_witness :
  let P := Demo.platform false in
  let canceled := mkEvent "customer.subscription.deleted"
                    (mkObject (Some (mkMetadata (Some "u1") None)) (VText "cus_1")
                              (VText "canceled") None) in
  let renewed := mkEvent "customer.subscription.updated"
                   (mkObject (Some (mkMetadata (Some "u1") None)) (VText "cus_1")
                             (VText "trialing") None) in
  let s := Demo.one_user Demo.alice in
  subscription_state "u1"
    (snd (Stripe.dispatch 4000 renewed (snd (Stripe.dispatch 3000 canceled s))))
  = Some (Some "pro", Some "trialing").
Proof.
  intros P canceled renewed s.
  rewrite (@subscription_update_wins P 3000 4000 canceled renewed "u1" "trialing" s).
  - reflexivity.
  - reflexivity.
  - reflexivity.
  - discriminate.
  - reflexivity.
Defined.

(** *** The User model: normalization and profile updates *)

Section NormalizationFacts.

Lemma lower_char_idempotent (c : ascii) : lower_char (lower_char c) = lower_char c.
Proof. destruct c as [[] [] [] [] [] [] [] []]; reflexivity. Qed.

Lemma is_space_lower_char (c : ascii) : is_space (lower_char c) = is_space c.
Proof. destruct c as [[] [] [] [] [] [] [] []]; reflexivity. Qed.

Lemma toLowerCase_idempotent (s : string) : toLowerCase (toLowerCase s) = toLowerCase s.
Proof.
  induction s as [| c t IH]; simpl; [reflexivity |].
  rewrite lower_char_idempotent, IH. reflexivity.
Qed.

Lemma toLowerCase_trimStart (s : string) :
  toLowerCase (trimStart s) = trimStart (toLowerCase s).
Proof.
  induction s as [| c t IH]; simpl; [reflexivity |].
  rewrite is_space_lower_char. destruct (is_space c); [exact IH | reflexivity].
Qed.

Lemma toLowerCase_trimEnd (s : string) :
  toLowerCase (trimEnd s) = trimEnd (toLowerCase s).
Proof.
  induction s as [| c t IH]; simpl; [reflexivity |].
  rewrite <- IH, is_space_lower_char.
  destruct (trimEnd t); simpl; [destruct (is_space c) |]; reflexivity.
Qed.

Lemma toLowerCase_trim (s : string) : toLowerCase (trim s) = trim (toLowerCase s).
Proof. unfold trim. rewrite toLowerCase_trimEnd, toLowerCase_trimStart. reflexivity. Qed.

Lemma trimEnd_idempotent (s : string) : trimEnd (trimEnd s) = trimEnd s.
Proof.
  induction s as [| c t IH]; simpl; [reflexivity |].
  destruct (trimEnd t) as [| d t'] eqn:Ht.
  - destruct (is_space c) eqn:Hc; simpl; [reflexivity | rewrite Hc; reflexivity].
  - change (trimEnd (String c (String d t'))) with
      (match trimEnd (String d t') with
       | EmptyString => if is_space c then EmptyString else String c EmptyString
       | t'' => String c t''
       end).
    rewrite IH. reflexivity.
Qed.

Lemma trimStart_starts_clean (s : string) : starts_clean (trimStart s) = true.
Proof.
  induction s as [| c t IH]; simpl; [reflexivity |].
  destruct (is_space c) eqn:Hc; [exact IH | simpl; rewrite Hc; reflexivity].
Qed.

Lemma trimEnd_starts_clean (s : string) :
  starts_clean s = true -> starts_clean (trimEnd s) = true.
Proof.
  destruct s as [| c t]; simpl; [reflexivity |].
  intros Hc. destruct (trimEnd t).
  - destruct (is_space c) eqn:E; [discriminate | simpl; rewrite E; reflexivity].
  - simpl. exact Hc.
Qed.

Lemma trimStart_clean (s : string) : starts_clean s = true -> trimStart s = s.
Proof.
  destruct s as [| c t]; simpl; [reflexivity |].
  destruct (is_space c); [discriminate | reflexivity].
Qed.

Lemma trim_idempotent (s : string) : trim (trim s) = trim s.
Proof.
  unfold trim.
  rewrite (trimStart_clean (trimEnd (trimStart s))).
  - apply trimEnd_idempotent.
  - apply trimEnd_starts_clean, trimStart_starts_clean.
Qed.

(** The normalization of an address is a fixed point of itself. *)
Lemma normalize_idempotent (email : string) :
  trim (toLowerCase (trim (toLowerCase email))) = trim (toLowerCase email).
Proof.
  rewrite toLowerCase_trim, toLowerCase_idempotent. apply trim_idempotent.
Qed.

End NormalizationFacts.

Section UserModelProperties.
Context {P : Platform} {B : Bcrypt}.
Import Statements.

Lemma supplied_none (v : value) : truthy v = false -> supplied v = None.
Proof. destruct v as [| | text]; simpl; try reflexivity. intros ->. reflexivity. Qed.

(** What [updateProfile] leaves in the store: nothing new, or the one
    [UPDATE] of the supplied columns. *)
Lemma updateProfile_store (userId : string) (name email : value) (now : Z) (s : store) :
  let given_name := supplied name in
  let given_email := option_map (fun e => trim (toLowerCase e)) (supplied email) in
  snd (UserModel.updateProfile userId name email now s) = s
  \/ ((given_name <> None \/ given_email <> None)
      /\ snd (UserModel.updateProfile userId name email now s)
         = with_users (update_where (fun u => String.eqb (u_id u) userId)
                                    (set_profile given_name given_email now) (users s)) s).
Proof.
  cbv zeta. unfold UserModel.updateProfile, UserModel.findById, supplied.
  destruct name as [| | n]; destruct email as [| | e]; cbn [truthy option_map];
    repeat match goal with
           | |- context [if negb ?b then _ else _] => destruct b; cbn [negb option_map]
           end;
    unfold bind; rewrite ?query_user_written, ?getOne_user_written;
    try (left; reflexivity);
    unfold execute_user;
    try match goal with
        | |- context [email_taken ?a ?b ?c] => destruct (email_taken a b c)
        end;
    rewrite ?getOne_user_written;
    try (left; reflexivity);
    right; (split; [first [left; discriminate | right; discriminate] | reflexivity]).
Qed.

(** X20. [User.create] and [User.findByEmail] go together: after a create
    for a fresh address, a lookup by any spelling of the address that
    differs in case or surrounding white space, and a lookup by the stored
    address itself, return the created row. *)
Theorem create_then_findByEmail
        (s : store) (email probe password : string) (name : value)
        (salt uuid : string) (now : Z) :
  USE_POSTGRES = true \/ name <> VUndefined ->
  existsb (fun u => String.eqb (u_id u) uuid) (users s) = false ->
  existsb (fun u => String.eqb (u_email u) (trim (toLowerCase email))) (users s) = false ->
  trim (toLowerCase probe) = trim (toLowerCase email) ->
  let s' := snd (User.create email password name salt uuid now s) in
  let row := new_user uuid (trim (toLowerCase email)) (bcrypt_hash salt password)
                      (sql_text name) now now in
  User.findByEmail probe s' = (Normal (Some row), s')
  /\ User.findByEmail (u_email row) s' = (Normal (Some row), s').
Proof.
  intros Hname Hid Hemail Hprobe s' row. subst s'.
  rewrite (create_fresh s email password name salt uuid now Hname Hid Hemail).
  cbn [snd]. rewrite !findByEmail_fetch. cbn [fetch users with_users u_email row new_user].
  rewrite Hprobe, normalize_idempotent.
  rewrite find_last; [split; reflexivity | exact Hemail | cbn; apply String.eqb_refl].
Qed.

(** X21. [User.updateProfile] rewrites the supplied fields only. A name
    that is absent or empty leaves every name as it is, an address that is
    absent or empty leaves every address as it is, and with neither the
    store is not written at all. Whatever is supplied, no row changes its
    id, password hash, phone data, tier, status, customer reference,
    creation or login instant, the rows of other users stay as they are,
    and so do all other tables. *)
Theorem updateProfile_rewrites_supplied_fields_only
        (userId : string) (name email : value) (now : Z) (s : store) :
  let s' := snd (UserModel.updateProfile userId name email now s) in
  (truthy name = false -> map u_name (users s') = map u_name (users s))
  /\ (truthy email = false -> map u_email (users s') = map u_email (users s))
  /\ (truthy name = false -> truthy email = false -> s' = s)
  /\ map beyond_profile (users s') = map beyond_profile (users s)
  /\ (forall u, In u (users s) -> u_id u <> userId -> In u (users s'))
  /\ password_reset_tokens s' = password_reset_tokens s
  /\ phone_verification_attempts s' = phone_verification_attempts s
  /\ user_watchlist s' = user_watchlist s
  /\ user_alerts s' = user_alerts s
  /\ sessions s' = sessions s.
Proof.
  intros s'. subst s'.
  destruct (updateProfile_store userId name email now s) as [-> | [Hgiven ->]].
  { repeat split; auto. }
  cbn [users with_users password_reset_tokens phone_verification_attempts
       user_watchlist user_alerts sessions].
  split; [| split; [| split; [| split; [| split; [| repeat split]]]]].
  - intros Hn. rewrite (supplied_none name Hn).
    unfold update_where. rewrite map_map. apply map_ext.
    intros u. destruct (String.eqb (u_id u) userId); reflexivity.
  - intros He. rewrite (supplied_none email He).
    unfold update_where. rewrite map_map. apply map_ext.
    intros u. destruct (String.eqb (u_id u) userId); reflexivity.
  - intros Hn He. rewrite (supplied_none name Hn), (supplied_none email He) in Hgiven.
    destruct Hgiven as [H | H]; exfalso; apply H; reflexivity.
  - unfold update_where. rewrite map_map. apply map_ext.
    intros u. destruct (String.eqb (u_id u) userId); reflexivity.
  - intros u Hin Hother. unfold update_where. apply in_map_iff. exists u.
    apply String.eqb_neq in Hother. rewrite Hother. split; [reflexivity | exact Hin].
Qed.

(** X22. [User.updateProfile] with the address of another user, when the
    row to update exists, throws the store's uniqueness violation as it
    comes (it is not translated to "Email already exists" the way
    [User.create] does) and writes nothing. *)
Theorem updateProfile_address_taken
        (userId address : string) (name : value) (now : Z) (s : store)
        (target other : user_row) :
  address <> "" ->
  In target (users s) -> u_id target = userId ->
  In other (users s) -> u_id other <> userId ->
  u_email other = trim (toLowerCase address) ->
  UserModel.updateProfile userId name (VText address) now s
  = (Abrupt (unique_violation "users.email" "users_email_key"), s)
  /\ message (unique_violation "users.email" "users_email_key")
     <> Some "Email already exists".
Proof.
  intros Haddr Htarget Hid Hother Hoid Hemail.
  apply String.eqb_neq in Haddr.
  assert (Htaken : email_taken (trim (toLowerCase address)) userId s = true).
  { unfold email_taken. apply andb_true_iff. split.
    - apply existsb_exists. exists target. split; [exact Htarget |].
      rewrite Hid. apply String.eqb_refl.
    - apply existsb_exists. exists other. split; [exact Hother |].
      rewrite Hemail, String.eqb_refl. apply String.eqb_neq in Hoid. rewrite Hoid.
      reflexivity. }
  split.
  - unfold UserModel.updateProfile. cbn [truthy]. rewrite Haddr. cbn [negb].
    destruct (match name with
              | VText n => if truthy name then Some n else None
              | _ => None
              end);
      unfold bind; rewrite query_user_written; unfold execute_user; rewrite Htaken;
      reflexivity.
  - unfold unique_violation. destruct USE_POSTGRES; discriminate.
Qed.

End UserModelProperties.

Lemma create_then_findByEmail_witness :
  let P := Demo.platform false in
  let s' := snd (User.create "Carol@B.com" "longenough3" VNull "salt" "u3" 1000
                             Sample.two_users) in
  let row := new_user "u3" "carol@b.com" "$2a$12$salt$longenough3" None 1000 1000 in
  User.findByEmail "  CAROL@b.com " s' = (Normal (Some row), s')
  /\ User.findByEmail "carol@b.com" s' = (Normal (Some row), s').
Proof.
  intros P s' row.
  apply (@create_then_findByEmail P Sample.two_users "Carol@B.com" "  CAROL@b.com "
           "longenough3" VNull "salt" "u3" 1000).
  - right. discriminate.
  - reflexivity.
  - reflexivity.
  - reflexivity.
Defined.

Lemma updateProfile_rewrites_supplied_fields_only_witness :
  let P := Demo.platform true in
  let s' := snd (UserModel.updateProfile "u2" (VText "Bob") VUndefined 9000
                                         Sample.two_users) in
  map u_email (users s') = ["a@b.com"; "bob@b.com"]
  /\ map u_name (users s') = [Some "Alice"; Some "Bob"]
  /\ In Demo.alice (users s').
Proof.
  intros P s'.
  destruct (@updateProfile_rewrites_supplied_fields_only P "u2" (VText "Bob") VUndefined
              9000 Sample.two_users) as (_ & Hemail & _ & _ & Hothers & _).
  split; [exact (Hemail eq_refl) |].
  split; [reflexivity |].
  apply Hothers; [left; reflexivity | discriminate].
Defined.

Lemma updateProfile_address_taken_witness :
  let P := Demo.platform false in
  UserModel.updateProfile "u2" VUndefined (VText " A@B.com") 9000 Sample.two_users
  = (Abrupt (ErrorObject "UNIQUE constraint failed: users.email"), Sample.two_users).
Proof.
  intros P.
  destruct (@updateProfile_address_taken P "u2" " A@B.com" VUndefined 9000 Sample.two_users
              Sample.bob Demo.alice) as [Hthrow _].
  - discriminate.
  - right. left. reflexivity.
  - reflexivity.
  - left. reflexivity.
  - discriminate.
  - reflexivity.
  - exact Hthrow.
Defined.

(** *** What every route maintains *)

Section RoutePreservation.
Context {P : Platform} {B : Bcrypt} {S : StripeApi}.
Import Statements.
Variable Inv : store -> Prop.

Lemma preserves_run_one (m : mutation) :
  preserves Inv (execute m) -> preserves Inv (run (written m)).
Proof.
  intros Hm s Hs. rewrite run_written.
  destruct USE_POSTGRES; [exact Hs |].
  destruct (existsb is_undefined (parameters m)); [exact Hs | apply Hm; exact Hs].
Qed.

Lemma preserves_query_one (m : mutation) :
  preserves Inv (execute m) -> preserves Inv (query (written m)).
Proof.
  intros Hm s Hs. unfold query, run, convertPlaceholders, written, pgPool_query_run,
    sqliteDb_run.
  destruct USE_POSTGRES; cbn [statement style]; [apply Hm; exact Hs |].
  destruct (existsb is_undefined (parameters m)); [exact Hs | apply Hm; exact Hs].
Qed.

Lemma preserves_run_user_one (m : user_mutation) :
  preserves Inv (execute_user m) -> preserves Inv (run_user (written m)).
Proof.
  intros Hm s Hs. unfold run_user, written. cbn [statement style].
  destruct USE_POSTGRES; [exact Hs | apply Hm; exact Hs].
Qed.

Lemma preserves_query_user_one (m : user_mutation) :
  preserves Inv (execute_user m) -> preserves Inv (query_user (written m)).
Proof. intros Hm s Hs. rewrite query_user_written. apply Hm. exact Hs. Qed.

Lemma preserves_getOne_user (q : user_selection) : preserves Inv (getOne_user (written q)).
Proof. intros s Hs. rewrite getOne_user_written. exact Hs. Qed.

Lemma is_text_eq (v : value) (text : string) :
  Stripe.is_text v text = true -> v = VText text.
Proof.
  destruct v as [| | t]; simpl; try discriminate.
  intros H. apply String.eqb_eq in H. rewrite H. reflexivity.
Qed.

(** The subscription update of the webhook handler is issued with a tier
    that fits its status. *)
Lemma issued_subscription_update (st : value) (now : Z) (id : value) :
  issued (UPDATE_users_subscription
            (if (Stripe.is_text st "active" || Stripe.is_text st "trialing")%bool
             then VText "pro" else VText "free")
            (if Stripe.is_text st "active" then VText "active" else st)
            now id).
Proof.
  cbn. destruct (Stripe.is_text st "active") eqn:Hactive; cbn.
  - right. split; [reflexivity | left; reflexivity].
  - destruct (Stripe.is_text st "trialing") eqn:Htrial; [| left; reflexivity].
    right. split; [reflexivity |]. right. apply is_text_eq. exact Htrial.
Qed.

Hypothesis core_statements : forall m, issued m -> preserves Inv (execute m).
Hypothesis user_statements : forall m, issued_user m -> preserves Inv (execute_user m).

(** Every route maintains what the statements the routes issue maintain. *)
Lemma preserves_application (r : Application.request) (now : Z) :
  preserves Inv (Application.serve r now).
Proof.
  destruct r as [r | | | | |]; [destruct r | | | | |]; simpl;
    unfold Auth.signup, PasswordReset.forgot_password, PasswordReset.reset_password,
      PasswordReset.verify_reset_token, Stripe.handleWebhook, Stripe.handleWebhook_around,
      Stripe.dispatch, Stripe.handleCheckoutComplete, Stripe.handleSubscriptionUpdate,
      Stripe.handleSubscriptionCanceled, Stripe.handlePaymentFailed,
      User.create, User.findByEmail, User.updatePassword,
      AuthRoutes.login, AuthRoutes.me, AuthRoutes.logout,
      StripeRoutes.create_checkout_session, StripeRoutes.create_portal_session,
      UserModel.findById, UserModel.verifyPassword, UserModel.updateLastLogin;
    repeat first
      [ apply preserves_ret
      | apply preserves_throw
      | apply preserves_await
      | apply preserves_getOne
      | apply preserves_get
      | apply preserves_getOne_user
      | apply preserves_query_one; apply core_statements;
        solve [ exact Logic.I | apply issued_subscription_update | cbn; eauto ]
      | apply preserves_run_one; apply core_statements;
        solve [ exact Logic.I | apply issued_subscription_update | cbn; eauto ]
      | apply preserves_query_user_one; apply user_statements; exact Logic.I
      | apply preserves_run_user_one; apply user_statements; exact Logic.I
      | apply preserves_no_await
      | apply preserves_bind; [| intros ?]
      | apply preserves_try_catch; [| intros ?]
      | progress cbv zeta
      | match goal with
        | |- preserves _ (match ?x with _ => _ end) => destruct x eqn:?
        end ].
Qed.

End RoutePreservation.

Section Invariants.
Context {P : Platform} {B : Bcrypt} {S : StripeApi}.
Import Statements.

Lemma reachable_invariant (Inv : store -> Prop) :
  Inv empty_store ->
  (forall m, issued m -> preserves Inv (execute m)) ->
  (forall m, issued_user m -> preserves Inv (execute_user m)) ->
  forall s, Application.reachable s -> Inv s.
Proof.
  intros Hfresh Hcore Huser s Hreach.
  induction Hreach as [| s r now Hreach IH]; [exact Hfresh |].
  apply (preserves_application Inv Hcore Huser r now s IH).
Qed.

Lemma map_update_where_same {A K} (key : A -> K) (p : A -> bool) (f : A -> A) (l : list A) :
  (forall a, key (f a) = key a) ->
  map key (update_where p f l) = map key l.
Proof.
  intros Hf. unfold update_where. rewrite map_map. apply map_ext.
  intros a. destruct (p a); [apply Hf | reflexivity].
Qed.

Lemma NoDup_map_snoc {A} (key : A -> string) (l : list A) (x : A) :
  existsb (fun y => String.eqb (key y) (key x)) l = false ->
  NoDup (map key l) ->
  NoDup (map key (l ++ [x])).
Proof.
  intros Hfresh Hl. rewrite map_app. simpl.
  apply NoDup_app; [exact Hl | constructor; [intros [] | constructor] |].
  intros k Hk [Heq | []]. subst k.
  apply in_map_iff in Hk. destruct Hk as [y [Hy Hin]].
  assert (Hex : existsb (fun y => String.eqb (key y) (key x)) l = true).
  { apply existsb_exists. exists y. split; [exact Hin |].
    rewrite Hy. apply String.eqb_refl. }
  rewrite Hex in Hfresh. discriminate.
Qed.

Lemma execute_unique_users (m : mutation) : preserves unique_users (execute m).
Proof.
  intros s [Hids Hemails]. unfold unique_users.
  destruct m; cbn [execute];
    try (cbn [snd users with_users with_tokens];
         rewrite ?map_update_where_same by reflexivity; split; assumption).
  - destruct (existsb (fun u => String.eqb (u_id u) _) (users s)) eqn:Hid;
      [exact (conj Hids Hemails) |].
    destruct (existsb (fun u => String.eqb (u_email u) _) (users s)) eqn:Hemail;
      [exact (conj Hids Hemails) |].
    cbn [snd users with_users]. split.
    + apply (NoDup_map_snoc u_id); [exact Hid | exact Hids].
    + apply (NoDup_map_snoc u_email); [exact Hemail | exact Hemails].
  - destruct (existsb _ (password_reset_tokens s)); exact (conj Hids Hemails).
Qed.

Lemma execute_user_unique_users (m : user_mutation) :
  issued_user m -> preserves unique_users (execute_user m).
Proof.
  intros Hm s [Hids Hemails]. unfold unique_users.
  destruct m; try contradiction; cbn [execute_user snd users with_users];
    rewrite !map_update_where_same by reflexivity; split; assumption.
Qed.

(** X23. In every store the application can reach, no two users have the
    same id and no two have the same address. *)
Theorem reachable_users_are_unique (s : store) :
  Application.reachable s -> unique_users s.
Proof.
  apply reachable_invariant.
  - split; constructor.
  - intros m _. apply execute_unique_users.
  - apply execute_user_unique_users.
Qed.

Lemma Forall_update_where {A} (Q : A -> Prop) (p : A -> bool) (f : A -> A) (l : list A) :
  (forall a, Q (f a)) -> Forall Q l -> Forall Q (update_where p f l).
Proof.
  intros Hf Hl. unfold update_where. apply Forall_map.
  apply (Forall_impl _ (P := Q)); [| exact Hl].
  intros a Ha. destruct (p a); [apply Hf | exact Ha].
Qed.

Lemma Forall_update_where_kept {A} (Q : A -> Prop) (p : A -> bool) (f : A -> A) (l : list A) :
  (forall a, Q a -> Q (f a)) -> Forall Q l -> Forall Q (update_where p f l).
Proof.
  intros Hf Hl. unfold update_where. apply Forall_map.
  apply (Forall_impl _ (P := Q)); [| exact Hl].
  intros a Ha. destruct (p a); [apply Hf; exact Ha | exact Ha].
Qed.

(** X24. In every store the application can reach, a user whose tier is
    pro has the status active or trialing. *)
Theorem reachable_tier_follows_status (s : store) :
  Application.reachable s -> Forall tier_follows_status (users s).
Proof.
  apply (reachable_invariant (fun s => Forall tier_follows_status (users s))).
  - constructor.
  - intros m Hm s0 Hs0.
    destruct m; cbn [execute snd users with_users with_tokens]; try exact Hs0.
    + apply Forall_update_where; [| exact Hs0].
      intros u _. left. reflexivity.
    + apply Forall_update_where; [| exact Hs0].
      intros u. unfold tier_follows_status. cbn.
      destruct Hm as [-> | [-> [-> | ->]]]; cbn;
        [discriminate | intros _; left; reflexivity | intros _; right; reflexivity].
    + apply Forall_update_where; [| exact Hs0].
      intros u. unfold tier_follows_status. cbn. discriminate.
    + destruct (existsb (fun u => String.eqb (u_id u) _) (users s0)); [exact Hs0 |].
      destruct (existsb (fun u => String.eqb (u_email u) _) (users s0)); [exact Hs0 |].
      cbn [snd users with_users]. apply Forall_app. split; [exact Hs0 |].
      constructor; [| constructor].
      unfold tier_follows_status. cbn. discriminate.
    + destruct (existsb _ (password_reset_tokens s0)); exact Hs0.
  - intros m Hm s0 Hs0.
    destruct m; try contradiction; cbn [execute_user snd users with_users];
      (apply Forall_update_where_kept; [| exact Hs0]); intros u Hu; exact Hu.
Qed.

(** X25. In every store the application can reach, every stored address
    is in normal form: lower-casing and trimming it gives it back. *)
Theorem reachable_addresses_are_normalized (s : store) :
  Application.reachable s -> normalized_addresses s.
Proof.
  assert (Hkept : forall (p : user_row -> bool) (f : user_row -> user_row) l,
             (forall u, u_email (f u) = u_email u) ->
             (forall u, In u l -> trim (toLowerCase (u_email u)) = u_email u) ->
             forall u, In u (update_where p f l) ->
                       trim (toLowerCase (u_email u)) = u_email u).
  { intros p f l Hf Hl u Hin. unfold update_where in Hin.
    apply in_map_iff in Hin. destruct Hin as [v [Hv Hin]].
    destruct (p v); subst u; [rewrite Hf |]; apply Hl; exact Hin. }
  apply reachable_invariant.
  - intros u [].
  - intros m Hm s0 Hs0. unfold normalized_addresses in *.
    destruct m; cbn [execute snd users with_users with_tokens]; try exact Hs0;
      try (apply Hkept; [reflexivity | exact Hs0]).
    + destruct (existsb (fun u => String.eqb (u_id u) _) (users s0)); [exact Hs0 |].
      destruct (existsb (fun u => String.eqb (u_email u) _) (users s0)); [exact Hs0 |].
      cbn [snd users with_users]. intros u Hin.
      apply in_app_or in Hin. destruct Hin as [Hin | [<- | []]]; [apply Hs0; exact Hin |].
      destruct Hm as [e ->]. cbn. apply normalize_idempotent.
    + destruct (existsb _ (password_reset_tokens s0)); exact Hs0.
  - intros m Hm s0 Hs0. unfold normalized_addresses in *.
    destruct m; try contradiction; cbn [execute_user snd users with_users];
      (apply Hkept; [reflexivity | exact Hs0]).
Qed.

End Invariants.

Lemma reachable_users_are_unique_witness :
  let P := Demo.platform false in
  let B := Sample.bcrypt false in
  let S := Sample.processor in
  let s1 := snd (Application.serve
                   (Application.Core
                      (Server.POST_signup (Some "a@b.com") (Some "longenough1")
                                          (VText "Alice") "salt" "u1")) 1000 empty_store) in
  let s2 := snd (Application.serve
                   (Application.Core
                      (Server.POST_signup (Some "A@B.com") (Some "longenough2")
                                          (VText "Al") "salt" "u2")) 2000 s1) in
  unique_users s2 /\ map u_email (users s2) = ["a@b.com"].
Proof.
  intros P B S s1 s2. split; [| reflexivity].
  apply (@reachable_users_are_unique P B S s2).
  apply Application.reachable_serve. apply Application.reachable_serve.
  apply Application.reachable_fresh.
Defined.

Lemma reachable_tier_follows_status_witness :
  let P := Demo.platform false in
  let B := Sample.bcrypt false in
  let S := Sample.processor in
  let s1 := snd (Application.serve
                   (Application.Core
                      (Server.POST_signup (Some "a@b.com") (Some "longenough1")
                                          (VText "Alice") "salt" "u1")) 1000 empty_store) in
  let s2 := snd (Application.serve
                   (Application.Core
                      (Server.POST_stripe_webhook "checkout.session.completed"
                         (Some (mkSignature 2 ["whsec:checkout.session.completed"]))))
                   2000 s1) in
  Forall tier_follows_status (users s2)
  /\ map u_subscription_tier (users s2) = [Some "pro"].
Proof.
  intros P B S s1 s2. split; [| reflexivity].
  apply (@reachable_tier_follows_status P B S s2).
  apply Application.reachable_serve. apply Application.reachable_serve.
  apply Application.reachable_fresh.
Defined.

Lemma reachable_addresses_are_normalized_witness :
  let P := Demo.platform true in
  let B := Sample.bcrypt true in
  let S := Sample.processor in
  let s1 := snd (Application.serve
                   (Application.Core
                      (Server.POST_signup (Some "Carol@Example.COM") (Some "longenough3")
                                          VNull "salt" "u3")) 1000 empty_store) in
  normalized_addresses s1 /\ map u_email (users s1) = ["carol@example.com"].
Proof.
  intros P B S s1. split; [| reflexivity].
  apply (@reachable_addresses_are_normalized P B S s1).
  apply Application.reachable_serve. apply Application.reachable_fresh.
Defined.

(** *** The reset-token table, over every route *)

Section ResetTokenClaim.
Context {P : Platform} {B : Bcrypt} {S : StripeApi}.
Import Statements.

(** The statements on [users] leave the reset-token table alone. *)
Lemma execute_user_distinct_owners (m : user_mutation) :
  preserves distinct_owners (execute_user m).
Proof.
  intros s H. unfold distinct_owners in *.
  destruct m as [? ? ? | ? ? | ? ? | ? ? ? | ? email ? id]; cbn; try exact H.
  destruct email as [e |]; [destruct (email_taken e id s) |]; exact H.
Qed.

(** Whatever requests were served, no two rows of the table have the same
    owner. *)
Lemma reachable_distinct_owners (s : store) :
  Application.reachable s -> distinct_owners s.
Proof.
  apply (reachable_invariant distinct_owners).
  - constructor.
  - intros m _. apply execute_distinct_owners.
  - intros m _. apply execute_user_distinct_owners.
Qed.

(** C8. In every store the application can reach, through any sequence of
    requests to any of its routes that use the database, each user owns at
    most one row of [password_reset_tokens]. Two reset requests in a row
    for the address of a user [u] leave that user with the single row of
    the second request, which carries the hash of the second secret; the
    first secret, whose hash differs, no longer resolves to [u], and where
    no other user's row happens to carry its hash, the probe answers
    [valid: false] and the reset-password route answers that the token is
    invalid or expired. *)
Theorem reset_tokens_one_per_user (s : store) :
  Application.reachable s ->
  (forall uid : string, (length (rows_of uid s) <= 1)%nat)
  /\ forall (email secret1 secret2 : string) (now1 now2 : Z) (u : user_row),
       email <> "" ->
       secret1 <> "" ->
       fetch (SELECT_users_by_email (trim (toLowerCase email))) s = Some u ->
       sha256_hex secret1 <> sha256_hex secret2 ->
       let s1 := snd (PasswordReset.forgot_password (Some email) secret1 now1 s) in
       let s2 := snd (PasswordReset.forgot_password (Some email) secret2 now2 s1) in
       let second := mkToken (u_id u) (sha256_hex secret2)
                             (now2 + PasswordReset.TOKEN_EXPIRATION_MS) in
       rows_of (u_id u) s1
         = [mkToken (u_id u) (sha256_hex secret1) (now1 + PasswordReset.TOKEN_EXPIRATION_MS)]
       /\ rows_of (u_id u) s2 = [second]
       /\ (forall r, fetch (SELECT_tokens_by_hash (sha256_hex secret1)) s2 = Some r ->
                     t_user_id r <> u_id u)
       /\ ((forall r, In r (password_reset_tokens s) ->
                      t_user_id r <> u_id u -> t_token_hash r <> sha256_hex secret1) ->
           forall (now3 : Z) (password : string),
             (8 <= String.length password)%nat ->
             fst (PasswordReset.verify_reset_token (Some secret1) now3 s2)
               = Normal (json_ok (PasswordReset.probe false))
             /\ fst (PasswordReset.reset_password (Some secret1) (Some password) now3 s2)
               = Normal (json_status 400 (failure "Invalid or expired reset token"))).
Proof.
  intros Hreach.
  pose proof (reachable_distinct_owners s Hreach) as Hd. unfold distinct_owners in Hd.
  split.
  { intros uid. apply distinct_owners_at_most_one. exact Hd. }
  intros email secret1 secret2 now1 now2 u Hemail Hsecret Hu Hhash s1 s2 second.
  set (l := password_reset_tokens s) in *.
  set (e1 := now1 + PasswordReset.TOKEN_EXPIRATION_MS).
  set (e2 := now2 + PasswordReset.TOKEN_EXPIRATION_MS) in *.
  set (l1 := upserted (u_id u) (sha256_hex secret1) e1 l).
  set (l2 := upserted (u_id u) (sha256_hex secret2) e2 l1).
  assert (Hs1 : s1 = with_tokens l1 s).
  { subst s1. rewrite (forgot_password_found email secret1 now1 s u Hemail Hu).
    reflexivity. }
  assert (Hs2 : s2 = with_tokens l2 s1).
  { subst s2. rewrite (forgot_password_found email secret2 now2 s1 u Hemail).
    - rewrite Hs1. reflexivity.
    - rewrite Hs1. exact Hu. }
  assert (Hd1 : NoDup (map t_user_id l1)) by (apply upserted_distinct; exact Hd).
  assert (Htokens2 : password_reset_tokens s2 = l2) by (rewrite Hs2; reflexivity).
  assert (Hnot_second : forall r, In r l2 -> t_token_hash r = sha256_hex secret1 ->
                                  In r l1 /\ t_user_id r <> u_id u).
  { intros r Hin Hr. apply upserted_inv in Hin. destruct Hin as [-> | Hin]; [| exact Hin].
    simpl in Hr. exfalso. apply Hhash. symmetry. exact Hr. }
  split; [| split; [| split; [| intros H now3 password H0; split]]].
  - unfold rows_of. rewrite Hs1. simpl. apply upserted_rows. exact Hd.
  - unfold rows_of. rewrite Htokens2. apply upserted_rows. exact Hd1.
  - intros r Hfetch. simpl in Hfetch. rewrite Htokens2 in Hfetch.
    apply find_some in Hfetch. destruct Hfetch as [Hin Hr].
    apply String.eqb_eq in Hr. apply (Hnot_second r Hin Hr).
  - rewrite (verify_reset_token_answer secret1 now3 s2 Hsecret).
    replace (fetch (SELECT_tokens_by_hash (sha256_hex secret1)) s2) with (@None token_row);
      [reflexivity |].
    symmetry. simpl. rewrite Htokens2.
    destruct (find _ l2) as [r |] eqn:Hfind; [| reflexivity].
    exfalso. apply find_some in Hfind. destruct Hfind as [Hin Hr].
    apply String.eqb_eq in Hr.
    destruct (Hnot_second r Hin Hr) as [Hin1 Hother].
    apply upserted_inv in Hin1. destruct Hin1 as [-> | [Hin0 _]].
    + apply Hother. reflexivity.
    + apply (H r Hin0 Hother Hr).
  - rewrite (reset_password_unknown secret1 password now3 s2 Hsecret H0); [reflexivity |].
    simpl. rewrite Htokens2.
    destruct (find _ l2) as [r |] eqn:Hfind; [| reflexivity].
    exfalso. apply find_some in Hfind. destruct Hfind as [Hin Hr].
    apply String.eqb_eq in Hr.
    destruct (Hnot_second r Hin Hr) as [Hin1 Hother].
    apply upserted_inv in Hin1. destruct Hin1 as [-> | [Hin0 _]].
    + apply Hother. reflexivity.
    + apply (H r Hin0 Hother Hr).
Qed.

End ResetTokenClaim.

(** C8 at a concrete run: ["a@b.com"] signs up and logs in, then asks
    twice for a reset, with the secrets ["first"] and ["second"]. *)
Lemma reset_tokens_one_per_user_witness :
  let P := Demo.platform true in
  let B := Sample.bcrypt true in
  let S := Sample.processor in
  let s0 := snd (Application.serve
                   (Application.Core
                      (Server.POST_signup (Some "a@b.com") (Some "longenough1")
                                          (VText "Alice") "salt" "u1")) 1000 empty_store) in
  let s0' := snd (Application.serve
                    (Application.POST_login (Some "a@b.com") (Some "longenough1"))
                    1500 s0) in
  let s1 := snd (PasswordReset.forgot_password (Some "a@b.com") "first" 2000 s0') in
  let s2 := snd (PasswordReset.forgot_password (Some "a@b.com") "second" 3000 s1) in
  map u_last_login (users s0') = [Some 1500]
  /\ rows_of "u1" s2 = [mkToken "u1" "sha256:second" 3603000]
  /\ fst (PasswordReset.verify_reset_token (Some "first") 4000 s2)
     = Normal (json_ok (PasswordReset.probe false))
  /\ fst (PasswordReset.reset_password (Some "first") (Some "newpassword1") 4000 s2)
     = Normal (json_status 400 (failure "Invalid or expired reset token")).
Proof.
  intros P B S s0 s0' s1 s2.
  assert (Hreach : Application.reachable s0')
    by (apply Application.reachable_serve; apply Application.reachable_serve;
        apply Application.reachable_fresh).
  destruct (@reset_tokens_one_per_user P B S s0' Hreach) as [_ Hseq].
  destruct (Hseq "a@b.com" "first" "second" 2000 3000
                 (Statements.set_last_login 1500 Demo.alice_new))
    as (_ & Hrows & _ & Hstale).
  - discriminate.
  - discriminate.
  - reflexivity.
  - discriminate.
  - split; [reflexivity |]. split; [exact Hrows |].
    apply (Hstale (fun r Hin => match Hin with end) 4000 "newpassword1").
    simpl. lia.
Defined.

(** *** Checkout sessions *)

Section CheckoutProperties.
Context {P : Platform} {B : Bcrypt} {S : StripeApi}.
Import Statements.

(** X26. A user whose stored tier is pro and whose stored status is active
    is refused a checkout session with 400: no customer and no session is
    created at the processor, and nothing is written. *)
Theorem checkout_refused_for_active_pro
        (authHeader : option (list Jwt.jwt_string)) (now : Z) (uid em : string)
        (u : user_row) (s : store) :
  Auth.authenticateToken authHeader now = Auth.Next uid em ->
  find (fun r => String.eqb (u_id r) uid) (users s) = Some u ->
  u_subscription_tier u = Some "pro" ->
  u_subscription_status u = Some "active" ->
  StripeRoutes.create_checkout_session authHeader now s
  = (Normal (json_status 400 (failure "You already have an active Pro subscription")), s).
Proof.
  intros Hgate Hu Htier Hstatus.
  unfold StripeRoutes.create_checkout_session. rewrite Hgate.
  unfold try_catch, bind, UserModel.findById. rewrite getOne_user_written.
  cbn [fetch_user]. rewrite Hu. cbn [option_map profile_of p_subscription_tier
                                      p_subscription_status].
  rewrite Htier, Hstatus. reflexivity.
Qed.

(** X27. A first checkout of a user without customer reference creates a
    customer at the processor and answers with the session the processor
    opens for that customer. The new reference is saved by a statement
    that is run as written and not awaited: on the embedded backend the
    user's row holds it afterwards, on PostgreSQL the store is unchanged. *)
Theorem checkout_creates_customer
        (authHeader : option (list Jwt.jwt_string)) (now : Z)
        (uid em c sid url : string) (u : user_row) (s : store) :
  Auth.authenticateToken authHeader now = Auth.Next uid em ->
  find (fun r => String.eqb (u_id r) uid) (users s) = Some u ->
  (StripeRoutes.is_column (u_subscription_tier u) "pro"
   && StripeRoutes.is_column (u_subscription_status u) "active")%bool = false ->
  StripeRoutes.no_customer (u_stripe_customer_id u) = true ->
  customers_create em uid = Normal c ->
  checkout_sessions_create c uid em = Normal (sid, url) ->
  StripeRoutes.create_checkout_session authHeader now s
  = (Normal (json_ok (JObject [("success", JBool true);
                               ("sessionId", JString sid);
                               ("url", JString url)])),
     if USE_POSTGRES then s
     else with_users (update_where (fun r => String.eqb (u_id r) uid)
                                   (set_stripe_customer_id c now) (users s)) s).
Proof.
  intros Hgate Hu Hpro Hnone Hcustomer Hsession.
  unfold StripeRoutes.create_checkout_session. rewrite Hgate.
  unfold try_catch, bind, UserModel.findById. rewrite getOne_user_written.
  cbn [fetch_user]. rewrite Hu.
  cbn [option_map profile_of p_subscription_tier p_subscription_status
       p_stripe_customer_id].
  rewrite Hpro, Hnone. unfold await at 1. rewrite Hcustomer.
  unfold no_await, run_user, written. cbn [statement style].
  destruct USE_POSTGRES.
  - cbn. unfold await. rewrite Hsession. reflexivity.
  - cbn. unfold await. rewrite Hsession. reflexivity.
Qed.

(** X28. A later checkout of a user who holds a customer reference reuses
    it: the session is opened for the stored customer, no customer is
    created, and nothing is written. *)
Theorem checkout_reuses_customer
        (authHeader : option (list Jwt.jwt_string)) (now : Z)
        (uid em c sid url : string) (u : user_row) (s : store) :
  Auth.authenticateToken authHeader now = Auth.Next uid em ->
  find (fun r => String.eqb (u_id r) uid) (users s) = Some u ->
  (StripeRoutes.is_column (u_subscription_tier u) "pro"
   && StripeRoutes.is_column (u_subscription_status u) "active")%bool = false ->
  u_stripe_customer_id u = Some c ->
  c <> "" ->
  checkout_sessions_create c uid em = Normal (sid, url) ->
  StripeRoutes.create_checkout_session authHeader now s
  = (Normal (json_ok (JObject [("success", JBool true);
                               ("sessionId", JString sid);
                               ("url", JString url)])), s).
Proof.
  intros Hgate Hu Hpro Hc Hne Hsession. apply String.eqb_neq in Hne.
  unfold StripeRoutes.create_checkout_session. rewrite Hgate.
  unfold try_catch, bind, UserModel.findById. rewrite getOne_user_written.
  cbn [fetch_user]. rewrite Hu.
  cbn [option_map profile_of p_subscription_tier p_subscription_status
       p_stripe_customer_id].
  rewrite Hpro, Hc. cbn [StripeRoutes.no_customer]. rewrite Hne.
  unfold ret, await. rewrite Hsession. reflexivity.
Qed.

End CheckoutProperties.

Lemma checkout_refused_for_active_pro_witness :
  let P := Demo.platform false in
  let S := Sample.processor in
  let credential := Some [Jwt.Other "Bearer";
                          Jwt.Compact "HS256" (mkClaims "u1" "a@b.com" 1 604801)
                                      "HS256:jwt-secret:u1:a@b.com"] in
  StripeRoutes.create_checkout_session credential 5000 Sample.two_users
  = (Normal (json_status 400 (failure "You already have an active Pro subscription")),
     Sample.two_users).
Proof.
  intros P S credential.
  apply (checkout_refused_for_active_pro (P := P) (S := S) credential 5000
           "u1" "a@b.com" Demo.alice Sample.two_users); reflexivity.
Defined.

Lemma checkout_creates_customer_witness :
  let P := Demo.platform false in
  let S := Sample.processor in
  let credential := Some [Jwt.Other "Bearer";
                          Jwt.Compact "HS256" (mkClaims "u2" "bob@b.com" 1 604801)
                                      "HS256:jwt-secret:u2:bob@b.com"] in
  map u_stripe_customer_id
      (users (snd (StripeRoutes.create_checkout_session credential 5000 Sample.two_users)))
  = [Some "cus_1"; Some "cus_u2"].
Proof.
  intros P S credential.
  rewrite (checkout_creates_customer (P := P) (S := S) credential 5000
             "u2" "bob@b.com" "cus_u2" "cs_cus_u2" "https://checkout.stripe.com/cus_u2"
             Sample.bob Sample.two_users); reflexivity.
Defined.

Lemma checkout_reuses_customer_witness :
  let P := Demo.platform true in
  let S := Sample.processor in
  let lapsed := mkUser "u1" "a@b.com" "$2a$12$salt$longenough1" (Some "Alice") None 0 0
                       (Some "free") (Some "canceled") (Some "cus_1") 1000 2000 None in
  let credential := Some [Jwt.Other "Bearer";
                          Jwt.Compact "HS256" (mkClaims "u1" "a@b.com" 1 604801)
                                      "HS256:jwt-secret:u1:a@b.com"] in
  StripeRoutes.create_checkout_session credential 5000 (Demo.one_user lapsed)
  = (Normal (json_ok (JObject [("success", JBool true);
                               ("sessionId", JString "cs_cus_1");
                               ("url", JString "https://checkout.stripe.com/cus_1")])),
     Demo.one_user lapsed).
Proof.
  intros P S lapsed credential.
  apply (checkout_reuses_customer (P := P) (S := S) credential 5000
           "u1" "a@b.com" "cus_1" "cs_cus_1" "https://checkout.stripe.com/cus_1"
           lapsed (Demo.one_user lapsed)); try reflexivity.
  discriminate.
Defined.
